(** * py2mql5: the terminal session manager, embedded and verified

    A shallow embedding of [py2mql5/__init__.py] and
    [py2mql5/account_properties.py].

    The wrapper is effectful code around an opaque vendor module, so the
    embedding is an explicit state-and-exception monad over the state the
    wrapper can observe or change:

    - the filesystem under the terminal install (probe file, [py2mql5/]
      directory, the duplicated package);
    - the interpreter's [sys.path] and [sys.modules];
    - the chronological list of requests made to the import machinery and to
      the vendor module, and what was printed.

    What the wrapper cannot decide (the answers of the vendor module, the
    draws of [uuid.uuid4], the result of [importlib.util.find_spec], the
    platform's path and line separators) is a parameter of the development:
    an environment over which every theorem is universally quantified. *)

From stdpp Require Import gmap strings.
From Stdlib Require Import ZArith Ascii String List Bool Lia.
Import ListNotations.
Open Scope string_scope.
Open Scope list_scope.

(** ** Python values *)

Module Py.

(** The values the vendor module hands to the wrapper.  A float is kept as
    its IEEE-754 binary64 bit pattern: the wrapper never computes on one,
    it only stores it, tests it for truth or looks it up in an enumeration. *)
#[local] Set Warnings "-register-all".
Inductive value : Type :=
| None_
| Bool (b : bool)
| Int (z : Z)
| Float (bits : Z)
| Str (s : string)
| Tuple (items : list value)
| Obj (attrs : list (string * value)).

Definition float_pos_zero : Z := 0.
Definition float_neg_zero : Z := 0x8000000000000000.
Definition float_one : Z := 0x3FF0000000000000.
Definition float_two : Z := 0x4000000000000000.

(** [bool(v)], as used by [not v]. *)
Definition truthy (v : value) : bool :=
  match v with
  | None_ => false
  | Bool b => b
  | Int z => negb (z =? 0)%Z
  | Float bits => negb ((bits =? float_pos_zero)%Z || (bits =? float_neg_zero)%Z)
  | Str s => negb (String.eqb s "")
  | Tuple items => match items with [] => false | _ :: _ => true end
  | Obj _ => true
  end.

(** The integer a value compares (and hashes) equal to, for the integers
    0, 1 and 2 that the enumerations of this package use as member values:
    [True == 1], [2.0 == 2], [-0.0 == 0]. *)
Definition as_small_int (v : value) : option Z :=
  match v with
  | Int z => Some z
  | Bool b => Some (if b then 1 else 0)%Z
  | Float bits =>
      if ((bits =? float_pos_zero) || (bits =? float_neg_zero))%Z then Some 0%Z
      else if (bits =? float_one)%Z then Some 1%Z
      else if (bits =? float_two)%Z then Some 2%Z
      else None
  | _ => None
  end.

End Py.

(** ** Exceptions and outcomes *)

(** What the vendor module (or the import machinery running it) raises: an
    instance of some subclass of [Exception], with its [str()]. *)
Record fault : Type := Fault { fault_class : string; fault_str : string }.

(** [MT5LastError]: [@dataclass(frozen=True)], fields stored as given. *)
Record MT5LastError : Type := mkMT5LastError {
  error_code : Py.value;
  error_description : Py.value
}.

(** [TerminalVersion]: [@dataclass(frozen=True)]. *)
Record TerminalVersion : Type := mkTerminalVersion {
  metatrader5_terminal_version : Py.value;
  build : Py.value;
  date : Py.value
}.

(** The positional arguments of a raised wrapper exception. *)
Inductive exn_arg : Type :=
| ArgStr (s : string)
| ArgLastError (e : MT5LastError).

Inductive exn : Type :=
| InitializeError (args : list exn_arg)
| LoginError (args : list exn_arg)
| OSError (cls : string)
| AttributeError (attr : string)
| TypeError (msg : string)
| IndexError (msg : string)
| ValueError (msg : string)
| UnicodeDecodeError (codec : string)
| FrozenInstanceError (attr : string)
| VendorError (f : fault).

Inductive result (A : Type) : Type :=
| OK (a : A)
| Raise (e : exn).
Arguments OK {A} a.
Arguments Raise {A} e.

Definition rbind {A B : Type} (r : result A) (k : A -> result B) : result B :=
  match r with
  | OK a => k a
  | Raise e => Raise e
  end.

Notation "x <~ r ;; k" := (rbind r (fun x => k))
  (at level 100, r at next level, right associativity).

Definition is_ok {A : Type} (r : result A) : bool :=
  match r with OK _ => true | Raise _ => false end.

(** [o.name] *)
Definition getattr (o : Py.value) (name : string) : result Py.value :=
  match o with
  | Py.Obj attrs =>
      match List.find (fun kv => String.eqb (fst kv) name) attrs with
      | Some kv => OK (snd kv)
      | None => Raise (AttributeError name)
      end
  | _ => Raise (AttributeError name)
  end.

(** [o[i]] for the literal indices the wrapper uses.  A [Py.Str] holds one
    character for each [ascii]: strings with a character above U+00FF are
    not among the values. *)
Definition getitem (o : Py.value) (i : nat) : result Py.value :=
  match o with
  | Py.Tuple items =>
      match nth_error items i with
      | Some v => OK v
      | None => Raise (IndexError "tuple index out of range")
      end
  | Py.Str s =>
      match String.get i s with
      | Some c => OK (Py.Str (String c EmptyString))
      | None => Raise (IndexError "string index out of range")
      end
  | _ => Raise (TypeError "object is not subscriptable")
  end.

(** ** account_properties.py *)

Inductive TradeMode : Type := DEMO | CONTEST | REAL.

Inductive MarginSoMode : Type := STOPOUT_MODE_PERCENT | STOPOUT_MODE_MONEY.

Inductive MarginMode : Type := RETAIL_NETTING | EXCHANGE | RETAIL_HEDGING.

Definition TradeMode_value (m : TradeMode) : Z :=
  match m with DEMO => 0 | CONTEST => 1 | REAL => 2 end.

Definition MarginSoMode_value (m : MarginSoMode) : Z :=
  match m with STOPOUT_MODE_PERCENT => 0 | STOPOUT_MODE_MONEY => 1 end.

Definition MarginMode_value (m : MarginMode) : Z :=
  match m with RETAIL_NETTING => 0 | EXCHANGE => 1 | RETAIL_HEDGING => 2 end.

(** [Enum.__call__] by value: the member whose value equals the argument,
    [ValueError] when there is none (Python's message starts with the
    [repr] of the argument, left out here). *)
Definition enum_call {E : Type} (cls : string) (members : list E)
    (value_of : E -> Z) (v : Py.value) : result E :=
  match Py.as_small_int v with
  | Some z =>
      match List.find (fun m => (value_of m =? z)%Z) members with
      | Some m => OK m
      | None => Raise (ValueError ("is not a valid " +:+ cls))
      end
  | None => Raise (ValueError ("is not a valid " +:+ cls))
  end.

Definition TradeMode_call : Py.value -> result TradeMode :=
  enum_call "TradeMode" [DEMO; CONTEST; REAL] TradeMode_value.

Definition MarginSoMode_call : Py.value -> result MarginSoMode :=
  enum_call "MarginSoMode" [STOPOUT_MODE_PERCENT; STOPOUT_MODE_MONEY] MarginSoMode_value.

Definition MarginMode_call : Py.value -> result MarginMode :=
  enum_call "MarginMode" [RETAIL_NETTING; EXCHANGE; RETAIL_HEDGING] MarginMode_value.

(** ** The typed value objects of [__init__.py] *)

(** How a class of the source treats [obj.attr = v] after construction:
    [@dataclass(frozen=True)] installs a [__setattr__] that raises
    [FrozenInstanceError]; a class declared without it stores. *)
Inductive class_decl : Type := ordinary_class | frozen_dataclass.

Definition setattr {A : Type} (decl : class_decl) (attr : string)
    (store : A -> A) (obj : A) : result A :=
  match decl with
  | ordinary_class => OK (store obj)
  | frozen_dataclass => Raise (FrozenInstanceError attr)
  end.

Definition MT5LastError_decl : class_decl := frozen_dataclass.
Definition TerminalVersion_decl : class_decl := frozen_dataclass.

(** [err.error_code = v] *)
Definition MT5LastError_set_error_code (v : Py.value) (err : MT5LastError) : result MT5LastError :=
  setattr MT5LastError_decl "error_code"
    (fun e => mkMT5LastError v (error_description e)) err.

Module AccountInfo.

(** [class AccountInfo]: declared without decorator; [__init__] stores 25
    attributes as read and 3 through an enumeration. *)
Definition decl : class_decl := ordinary_class.

Record t : Type := make {
  login : Py.value;
  trade_mode : TradeMode;
  leverage : Py.value;
  limit_orders : Py.value;
  margin_so_mode : MarginSoMode;
  trade_allowed : Py.value;
  trade_expert : Py.value;
  margin_mode : MarginMode;
  currency_digits : Py.value;
  fifo_close : Py.value;
  balance : Py.value;
  credit : Py.value;
  profit : Py.value;
  equity : Py.value;
  margin : Py.value;
  margin_free : Py.value;
  margin_level : Py.value;
  margin_so_call : Py.value;
  margin_so_so : Py.value;
  margin_initial : Py.value;
  margin_maintenance : Py.value;
  assets : Py.value;
  liabilities : Py.value;
  commission_blocked : Py.value;
  name : Py.value;
  server : Py.value;
  currency : Py.value;
  company : Py.value
}.

(** [__init__(self, official_account_info)], statement by statement; the
    first attribute that is missing, or the first code that is no member
    value, raises and ends the construction. *)
Definition init (o : Py.value) : result t :=
  login <~ getattr o "login" ;;
  trade_mode_code <~ getattr o "trade_mode" ;;
  trade_mode <~ TradeMode_call trade_mode_code ;;
  leverage <~ getattr o "leverage" ;;
  limit_orders <~ getattr o "limit_orders" ;;
  margin_so_mode_code <~ getattr o "margin_so_mode" ;;
  margin_so_mode <~ MarginSoMode_call margin_so_mode_code ;;
  trade_allowed <~ getattr o "trade_allowed" ;;
  trade_expert <~ getattr o "trade_expert" ;;
  margin_mode_code <~ getattr o "margin_mode" ;;
  margin_mode <~ MarginMode_call margin_mode_code ;;
  currency_digits <~ getattr o "currency_digits" ;;
  fifo_close <~ getattr o "fifo_close" ;;
  balance <~ getattr o "balance" ;;
  credit <~ getattr o "credit" ;;
  profit <~ getattr o "profit" ;;
  equity <~ getattr o "equity" ;;
  margin <~ getattr o "margin" ;;
  margin_free <~ getattr o "margin_free" ;;
  margin_level <~ getattr o "margin_level" ;;
  margin_so_call <~ getattr o "margin_so_call" ;;
  margin_so_so <~ getattr o "margin_so_so" ;;
  margin_initial <~ getattr o "margin_initial" ;;
  margin_maintenance <~ getattr o "margin_maintenance" ;;
  assets <~ getattr o "assets" ;;
  liabilities <~ getattr o "liabilities" ;;
  commission_blocked <~ getattr o "commission_blocked" ;;
  name <~ getattr o "name" ;;
  server <~ getattr o "server" ;;
  currency <~ getattr o "currency" ;;
  company <~ getattr o "company" ;;
  OK (make login trade_mode leverage limit_orders margin_so_mode
        trade_allowed trade_expert margin_mode currency_digits fifo_close
        balance credit profit equity margin margin_free margin_level
        margin_so_call margin_so_so margin_initial margin_maintenance assets
        liabilities commission_blocked name server currency company).

(** The attributes [__init__] reads, in the order it reads them. *)
Definition attributes : list string :=
  [ "login"; "trade_mode"; "leverage"; "limit_orders"; "margin_so_mode";
    "trade_allowed"; "trade_expert"; "margin_mode"; "currency_digits";
    "fifo_close"; "balance"; "credit"; "profit"; "equity"; "margin";
    "margin_free"; "margin_level"; "margin_so_call"; "margin_so_so";
    "margin_initial"; "margin_maintenance"; "assets"; "liabilities";
    "commission_blocked"; "name"; "server"; "currency"; "company" ].

(** [info.login = v] *)
Definition set_login (v : Py.value) (info : t) : result t :=
  setattr decl "login"
    (fun a => make v (trade_mode a) (leverage a) (limit_orders a)
        (margin_so_mode a) (trade_allowed a) (trade_expert a) (margin_mode a)
        (currency_digits a) (fifo_close a) (balance a) (credit a) (profit a)
        (equity a) (margin a) (margin_free a) (margin_level a)
        (margin_so_call a) (margin_so_so a) (margin_initial a)
        (margin_maintenance a) (assets a) (liabilities a)
        (commission_blocked a) (name a) (server a) (currency a) (company a))
    info.

End AccountInfo.

(** ** Paths and the filesystem *)

(** A [pathlib.Path], as the list of its components below the anchor. *)
Definition path : Type := list string.

Definition parent (p : path) : path := removelast p.

Definition joinpath (p : path) (child : string) : path := p ++ [child].

Definition path_name (p : path) : string := last p "".

Definition path_eqb (p q : path) : bool := bool_decide (p = q).

(** [p] is an entry of directory [d]. *)
Definition is_child (d p : path) : bool :=
  match p with
  | [] => false
  | _ :: _ => path_eqb (parent p) d
  end.

(** [strip_prefix d p = Some r] when [p = d ++ r]. *)
Fixpoint strip_prefix (d p : path) : option path :=
  match d, p with
  | [], _ => Some p
  | x :: d', y :: p' => if String.eqb x y then strip_prefix d' p' else None
  | _ :: _, [] => None
  end.

Inductive node : Type :=
| File (content : string)
| Dir (writable : bool).

(** ** Text files, as [open(f, "r+", encoding="utf-8")] reads and writes them *)

Definition LF : ascii := Ascii.ascii_of_nat 10.

Definition CR : ascii := Ascii.ascii_of_nat 13.

Definition byte_in (lo hi : nat) (b : ascii) : bool :=
  Nat.leb lo (nat_of_ascii b) && Nat.leb (nat_of_ascii b) hi.

Definition continuation (b : ascii) : bool := byte_in 128 191 b.

(** The three-byte and the four-byte sequences that encode a character: no
    overlong form, no surrogate, nothing above U+10FFFF. *)
Definition three_bytes (b0 b1 b2 : ascii) : bool :=
  (byte_in 224 224 b0 && byte_in 160 191 b1
   || byte_in 225 236 b0 && continuation b1
   || byte_in 237 237 b0 && byte_in 128 159 b1
   || byte_in 238 239 b0 && continuation b1)
  && continuation b2.

Definition four_bytes (b0 b1 b2 b3 : ascii) : bool :=
  (byte_in 240 240 b0 && byte_in 144 191 b1
   || byte_in 241 243 b0 && continuation b1
   || byte_in 244 244 b0 && byte_in 128 143 b1)
  && continuation b2 && continuation b3.

(** The bytes of [s] are what the [utf-8] codec decodes with
    [errors="strict"]. *)
Fixpoint utf8_valid (s : string) : bool :=
  match s with
  | EmptyString => true
  | String b0 s0 =>
      if byte_in 0 127 b0 then utf8_valid s0
      else
        match s0 with
        | EmptyString => false
        | String b1 s1 =>
            if byte_in 194 223 b0 then continuation b1 && utf8_valid s1
            else
              match s1 with
              | EmptyString => false
              | String b2 s2 =>
                  if three_bytes b0 b1 b2 then utf8_valid s2
                  else
                    match s2 with
                    | EmptyString => false
                    | String b3 s3 => four_bytes b0 b1 b2 b3 && utf8_valid s3
                    end
              end
        end
  end.

(** Reading with universal newlines ([newline=None]): ["\r\n"] and ["\r"]
    become ["\n"]. *)
Fixpoint universal_newlines (s : string) : string :=
  match s with
  | EmptyString => EmptyString
  | String c s' =>
      if Ascii.eqb c CR then
        match s' with
        | EmptyString => String LF EmptyString
        | String c' s'' =>
            if Ascii.eqb c' LF then String LF (universal_newlines s'')
            else String LF (universal_newlines s')
        end
      else String c (universal_newlines s')
  end.

(** Writing with [newline=None]: each ["\n"] becomes [os.linesep]. *)
Fixpoint write_newlines (linesep : string) (s : string) : string :=
  match s with
  | EmptyString => EmptyString
  | String c s' =>
      (if Ascii.eqb c LF then linesep else String c EmptyString)
      +:+ write_newlines linesep s'
  end.

Fixpoint string_drop (n : nat) (s : string) : string :=
  match n, s with
  | O, _ => s
  | S n', String _ s' => string_drop n' s'
  | S _, EmptyString => EmptyString
  end.

(** No character of [s] is [c]. *)
Definition free_of (c : ascii) (s : string) : bool :=
  forallb (fun x => negb (Ascii.eqb x c)) (list_ascii_of_string s).

(** The filesystem: a table of the paths that exist, the first entry of a
    path being the one in force.  A directory lists its entries in the
    order of the table. *)
Definition filesystem : Type := list (path * node).

Module FS.

Definition lookup (fs : filesystem) (p : path) : option node :=
  match List.find (fun e => path_eqb (fst e) p) fs with
  | Some e => Some (snd e)
  | None => None
  end.

Definition exists_ (fs : filesystem) (p : path) : bool :=
  match lookup fs p with Some _ => true | None => false end.

Definition is_dir (fs : filesystem) (p : path) : bool :=
  match lookup fs p with Some (Dir _) => true | _ => false end.

Definition remove (fs : filesystem) (p : path) : filesystem :=
  List.filter (fun e => negb (path_eqb (fst e) p)) fs.

(** Creating or deleting an entry of [d] needs [d] to be a directory that
    can be written; each way of failing is an [OSError]. *)
Definition dir_access (fs : filesystem) (d : path) : result unit :=
  match lookup fs d with
  | Some (Dir true) => OK tt
  | Some (Dir false) => Raise (OSError "PermissionError")
  | Some (File _) => Raise (OSError "NotADirectoryError")
  | None => Raise (OSError "FileNotFoundError")
  end.

(** [Path.touch()] ([exist_ok=True]): an existing entry only has its times
    updated. *)
Definition touch (p : path) (fs : filesystem) : result filesystem :=
  match lookup fs p with
  | Some _ => OK fs
  | None => _ <~ dir_access fs (parent p) ;; OK (fs ++ [(p, File "")])
  end.

(** [Path.unlink()] *)
Definition unlink (p : path) (fs : filesystem) : result filesystem :=
  match lookup fs p with
  | Some (File _) => _ <~ dir_access fs (parent p) ;; OK (remove fs p)
  | Some (Dir _) => Raise (OSError "IsADirectoryError")
  | None => Raise (OSError "FileNotFoundError")
  end.

(** [Path.mkdir(exist_ok=True)] *)
Definition mkdir_exist_ok (p : path) (fs : filesystem) : result filesystem :=
  match lookup fs p with
  | Some (Dir _) => OK fs
  | Some (File _) => Raise (OSError "FileExistsError")
  | None => _ <~ dir_access fs (parent p) ;; OK (fs ++ [(p, Dir true)])
  end.

(** The entries of [d], in the order of the table. *)
Definition listing (d : path) (fs : filesystem) : list path :=
  List.map fst (List.filter (fun e => is_child d (fst e)) fs).

(** [Path.iterdir()] *)
Definition iterdir (d : path) (fs : filesystem) : result (list path) :=
  match lookup fs d with
  | Some (Dir _) => OK (listing d fs)
  | Some (File _) => Raise (OSError "NotADirectoryError")
  | None => Raise (OSError "FileNotFoundError")
  end.

(** The entries strictly below [src], moved below [dst]. *)
Definition retarget (src dst : path) (e : path * node) : list (path * node) :=
  match strip_prefix src (fst e) with
  | Some (c :: rest) => [(dst ++ c :: rest, snd e)]
  | _ => []
  end.

(** [shutil.copytree(src, dst)]: [src] must be a directory and [dst] must
    not exist. *)
Definition copytree (src dst : path) (fs : filesystem) : result filesystem :=
  match lookup fs src with
  | Some (Dir _) =>
      match lookup fs dst with
      | Some _ => Raise (OSError "FileExistsError")
      | None =>
          _ <~ dir_access fs (parent dst) ;;
          OK (fs ++ (dst, Dir true) :: List.flat_map (retarget src dst) fs)
      end
  | Some (File _) => Raise (OSError "NotADirectoryError")
  | None => Raise (OSError "FileNotFoundError")
  end.

(** What a file that held [content] holds after [f.readlines()],
    [f.seek(0)] and [f.write(header + "".join(lines))]: the text is read
    with universal newlines and written with [os.linesep] for each newline,
    from the start of the file and over what was there; the file is not
    truncated, so what the old content has beyond the written bytes stays. *)
Definition rewritten (linesep header content : string) : string :=
  let written := write_newlines linesep (header +:+ universal_newlines content) in
  written +:+ string_drop (String.length written) content.

(** [open(f, "r+", encoding="utf-8")], read everything, [seek(0)], write
    [header] followed by what was read.  Reading raises when the file is
    not UTF-8; nothing has been written by then. *)
Definition prepend (linesep : string) (f : path) (header : string) (fs : filesystem)
    : result filesystem :=
  match lookup fs f with
  | Some (File content) =>
      if utf8_valid content then
        OK (List.map
              (fun e =>
                 if path_eqb (fst e) f then (fst e, File (rewritten linesep header content))
                 else e)
              fs)
      else Raise (UnicodeDecodeError "utf-8")
  | Some (Dir _) => Raise (OSError "IsADirectoryError")
  | None => Raise (OSError "FileNotFoundError")
  end.

End FS.

(** ** The interpreter and the environment *)

(** A module object: the name it was imported under, and the number of
    requests made before its import (two imports of one name give two
    objects). *)
Record pymodule : Type := mkModule { mod_name : string; mod_serial : nat }.

(** What the wrapper asks of the import machinery and of a vendor module. *)
Inductive request : Type :=
| ReqImport (name : string)
| ReqInitialize (m : pymodule) (path : string) (login : Z) (password server : string)
    (timeout : Z) (portable : bool)
| ReqLogin (m : pymodule) (login : Z) (password server : string) (timeout : Z)
| ReqShutdown (m : pymodule)
| ReqVersion (m : pymodule)
| ReqLastError (m : pymodule)
| ReqAccountInfo (m : pymodule).

(** [importlib.util.find_spec]'s answer, as far as the wrapper reads it. *)
Record ModuleSpec : Type := mkSpec { origin : option path }.

Record Env : Type := mkEnv {
  (** [os.sep] *)
  path_sep : string;
  (** [os.linesep] *)
  line_sep : string;
  (** the [n]-th [uuid.uuid4()] of the process, as its 32 hexadecimal digits *)
  uuid4_hex : nat -> string;
  (** [importlib.util.find_spec(name)] *)
  find_spec : string -> option ModuleSpec;
  (** the answer to a request, given the requests made before it: a value,
      or an exception *)
  vendor : list request -> request -> Py.value + fault
}.

Record State : Type := mkState {
  fs : filesystem;
  sys_path : list string;
  sys_modules : gmap string pymodule;
  uuid_draws : nat;
  trace : list request;
  stdout : list string
}.

Definition set_fs (f : filesystem) (st : State) : State :=
  mkState f (sys_path st) (sys_modules st) (uuid_draws st) (trace st) (stdout st).

Definition set_sys_path (l : list string) (st : State) : State :=
  mkState (fs st) l (sys_modules st) (uuid_draws st) (trace st) (stdout st).

Definition set_sys_modules (m : gmap string pymodule) (st : State) : State :=
  mkState (fs st) (sys_path st) m (uuid_draws st) (trace st) (stdout st).

Definition set_uuid_draws (n : nat) (st : State) : State :=
  mkState (fs st) (sys_path st) (sys_modules st) n (trace st) (stdout st).

Definition set_trace (tr : list request) (st : State) : State :=
  mkState (fs st) (sys_path st) (sys_modules st) (uuid_draws st) tr (stdout st).

Definition set_stdout (out : list string) (st : State) : State :=
  mkState (fs st) (sys_path st) (sys_modules st) (uuid_draws st) (trace st) out.

(** ** The monad of the wrapper's code: state, and exceptions that keep the
    state reached when they were raised *)

Definition M (A : Type) : Type := State -> result A * State.

Definition ret {A : Type} (a : A) : M A := fun st => (OK a, st).

Definition raise {A : Type} (e : exn) : M A := fun st => (Raise e, st).

Definition bind {A B : Type} (m : M A) (k : A -> M B) : M B :=
  fun st =>
    match m st with
    | (OK a, st') => k a st'
    | (Raise e, st') => (Raise e, st')
    end.

Notation "x <- m ;; k" := (bind m (fun x => k))
  (at level 100, m at next level, right associativity).

(** [try: body / except <classes>: handler] *)
Definition try_except {A : Type} (body : M A) (caught : exn -> bool) (handler : exn -> M A) : M A :=
  fun st =>
    match body st with
    | (OK a, st') => (OK a, st')
    | (Raise e, st') => if caught e then handler e st' else (Raise e, st')
    end.

Definition gets {A : Type} (f : State -> A) : M A := fun st => (OK (f st), st).

Definition modify (f : State -> State) : M unit := fun st => (OK tt, f st).

Definition lift {A : Type} (r : result A) : M A := fun st => (r, st).

(** A filesystem operation: the filesystem changes only when it succeeds. *)
Definition fs_do (op : filesystem -> result filesystem) : M unit :=
  fun st =>
    match op (fs st) with
    | OK f => (OK tt, set_fs f st)
    | Raise e => (Raise e, st)
    end.

Definition print (line : string) : M unit :=
  modify (fun st => set_stdout (stdout st ++ [line]) st).

Definition is_OSError (e : exn) : bool :=
  match e with OSError _ => true | _ => false end.

(** [list.remove(x)]: the first occurrence goes, [None] when there is none. *)
Fixpoint list_remove (x : string) (l : list string) : option (list string) :=
  match l with
  | [] => None
  | y :: l' =>
      if String.eqb y x then Some l'
      else match list_remove x l' with
           | Some r => Some (y :: r)
           | None => None
           end
  end.

(** [sys.path.remove(entry)] *)
Definition sys_path_remove (entry : string) : M unit :=
  fun st =>
    match list_remove entry (sys_path st) with
    | Some l => (OK tt, set_sys_path l st)
    | None => (Raise (ValueError "list.remove(x): x not in list"), st)
    end.

(** [str.replace(old, new)] for one-character [old] and [new]. *)
Fixpoint replace_char (old new : ascii) (s : string) : string :=
  match s with
  | EmptyString => EmptyString
  | String c s' => String (if Ascii.eqb c old then new else c) (replace_char old new s')
  end.

(** [str(u)] of a UUID given by its 32 hexadecimal digits: 8-4-4-4-12. *)
Definition uuid_str (hex : string) : string :=
  substring 0 8 hex +:+ "-" +:+ substring 8 4 hex +:+ "-" +:+ substring 12 4 hex
    +:+ "-" +:+ substring 16 4 hex +:+ "-" +:+ substring 20 12 hex.

Definition newline : string := String (Ascii.ascii_of_nat 10) EmptyString.

(** ** [class Client] *)

Definition OFFICIAL_MODULE_NAME : string := "MetaTrader5".

Definition default_timeout : Z := 60000.

(** What [__init__] prints when it has succeeded. *)
Definition initialized_message : string :=
  "Initialized successfully (hint: if you want multiple instances, "
  +:+ "make sure to use different terminal paths)".

Module Client.

(** The attributes of a constructed [Client].  [module_id] exists only on
    the object that made the duplicate. *)
Record t : Type := make {
  terminal_path : path;
  official : pymodule;
  timeout : Z;
  portable : bool;
  account_number : Z;
  server : string;
  base_module_dir : path;
  module_dir : path;
  module_name : string;
  module_id : option string
}.

(** What [__copy_and_import_official_module__] leaves on [self], and the
    module it returns. *)
Record isolation : Type := mkIsolation {
  iso_base_module_dir : path;
  iso_module_dir : path;
  iso_module_name : string;
  iso_module_id : option string;
  iso_official : pymodule
}.

Section WithEnv.

Variable E : Env.

(** [str(p)] *)
Definition path_str (p : path) : string := String.concat (path_sep E) p.

(** [uuid.uuid4()], as its hexadecimal digits *)
Definition uuid4 : M string :=
  fun st => (OK (uuid4_hex E (uuid_draws st)), set_uuid_draws (S (uuid_draws st)) st).

(** A request to the environment; it is recorded whatever the answer. *)
Definition ask (r : request) : M (Py.value + fault) :=
  fun st => (OK (vendor E (trace st) r), set_trace (trace st ++ [r]) st).

(** A call into the vendor module: its value, or its exception raised. *)
Definition call (r : request) : M Py.value :=
  a <- ask r ;;
  match a with
  | inl v => ret v
  | inr f => raise (VendorError f)
  end.

(** [__import__(name)]: the module registered under [name] if there is
    one; otherwise the import machinery finds and runs it, and registers
    it when that succeeds.  Of what running the module does, the state
    keeps the request and the entry of [name] in [sys.modules]; the
    submodules it registers and the byte-code caches the interpreter
    writes next to the sources are left out. *)
Definition import_ (name : string) : M pymodule :=
  mods <- gets sys_modules ;;
  match mods !! name with
  | Some m => ret m
  | None =>
      serial <- gets (fun st => length (trace st)) ;;
      _ <- call (ReqImport name) ;;
      let m := mkModule name serial in
      _ <- modify (fun st => set_sys_modules (<[name := m]> (sys_modules st)) st) ;;
      ret m
  end.

(** [last_error(self)] *)
Definition last_error (self_official : pymodule) : M MT5LastError :=
  last_error <- call (ReqLastError self_official) ;;
  code <- lift (getitem last_error 0) ;;
  description <- lift (getitem last_error 1) ;;
  ret (mkMT5LastError code description).

(** [version(self)] *)
Definition version (self : t) : M TerminalVersion :=
  version <- call (ReqVersion (official self)) ;;
  v0 <- lift (getitem version 0) ;;
  v1 <- lift (getitem version 1) ;;
  v2 <- lift (getitem version 2) ;;
  ret (mkTerminalVersion v0 v1 v2).

(** [account_info(self)] *)
Definition account_info (self : t) : M AccountInfo.t :=
  o <- call (ReqAccountInfo (official self)) ;;
  lift (AccountInfo.init o).

(** [login(self, account_number, password, server, timeout)] *)
Definition login (self : t) (account_number : Z) (password server : string) (timeout : Z)
    : M unit :=
  ok <- call (ReqLogin (official self) account_number password server timeout) ;;
  if negb (Py.truthy ok) then
    e <- last_error (official self) ;;
    raise (LoginError [ArgLastError e])
  else print "Login successful".

Definition ignore_comments : list string :=
  ["# type: ignore"; "# pyright: ignore"; "# ruff: noqa"].

(** [__add_ignore_comments__(self, file_path)] *)
Definition add_ignore_comments (file_path : path) : M unit :=
  fs_do (FS.prepend (line_sep E) file_path
           (String.concat newline ignore_comments +:+ newline +:+ newline)).

Definition no_write_permission (terminal_path : path) : string :=
  "No write permission in " +:+ path_str terminal_path +:+ ". "
  +:+ "Please copy MetaTrader to a directory with write permissions "
  +:+ "(avoid system directories like Program Files, C:, root, etc)".

(** The probe file of a construction that draws [hex] *)
Definition test_file (terminal_path : path) (hex : string) : path :=
  joinpath (parent terminal_path) ("py2mql5_test_" +:+ substring 0 8 hex).

(** The [try] statement that opens [__copy_and_import_official_module__] *)
Definition check_write_permissions (terminal_path : path) : M unit :=
  try_except
    (hex <- uuid4 ;;
     _ <- fs_do (FS.touch (test_file terminal_path hex)) ;;
     fs_do (FS.unlink (test_file terminal_path hex)))
    is_OSError
    (fun _ => raise (InitializeError [ArgStr (no_write_permission terminal_path)])).

(** The directories of [base_module_dir] whose name starts with
    [f"{OFFICIAL_MODULE_NAME}_"] *)
Definition existing_modules (base_module_dir : path) : M (list path) :=
  entries <- (fun st => (FS.iterdir base_module_dir (fs st), st)) ;;
  f <- gets fs ;;
  ret (List.filter
         (fun d => FS.is_dir f d && String.prefix (OFFICIAL_MODULE_NAME +:+ "_") (path_name d))
         entries).

(** The [else] branch: a new duplicate of the installed package *)
Definition copy_official_module (base_module_dir : path) : M (path * string * option string) :=
  hex <- uuid4 ;;
  let module_id := replace_char "-" "_" (uuid_str hex) in
  let module_name := OFFICIAL_MODULE_NAME +:+ "_" +:+ module_id in
  let module_dir := joinpath base_module_dir module_name in
  match find_spec E OFFICIAL_MODULE_NAME with
  | Some (mkSpec (Some official_origin)) =>
      _ <- fs_do (FS.copytree (parent official_origin) module_dir) ;;
      _ <- add_ignore_comments (joinpath module_dir "__init__.py") ;;
      ret (module_dir, module_name, Some module_id)
  | _ =>
      raise (InitializeError [ArgStr ("Module " +:+ OFFICIAL_MODULE_NAME +:+ " not found")])
  end.

(** [__copy_and_import_official_module__(self)] *)
Definition copy_and_import_official_module (terminal_path : path) : M isolation :=
  _ <- check_write_permissions terminal_path ;;
  let base_module_dir := joinpath (parent terminal_path) "py2mql5" in
  _ <- fs_do (FS.mkdir_exist_ok base_module_dir) ;;
  existing <- existing_modules base_module_dir ;;
  found <- match existing with
           | d :: _ => ret (d, path_name d, None)
           | [] => copy_official_module base_module_dir
           end ;;
  let '(module_dir, module_name, module_id) := found in
  _ <- modify (fun st => set_sys_path (sys_path st ++ [path_str base_module_dir]) st) ;;
  m <- import_ module_name ;;
  ret (mkIsolation base_module_dir module_dir module_name module_id m).

(** [__init__(self, terminal_path, account_number, password, server, timeout)] *)
Definition init (terminal_path : path) (account_number : Z) (password server : string)
    (timeout : Z) : M t :=
  present <- gets (fun st => FS.exists_ (fs st) terminal_path) ;;
  if negb present then
    raise (InitializeError
             [ArgStr ("Terminal path " +:+ path_str terminal_path +:+ " does not exist")])
  else
    iso <- copy_and_import_official_module terminal_path ;;
    let portable := true in
    ok <- call (ReqInitialize (iso_official iso) (path_str terminal_path) account_number
                  password server timeout portable) ;;
    if negb (Py.truthy ok) then
      e <- last_error (iso_official iso) ;;
      raise (InitializeError
               [ArgLastError e;
                ArgStr ("ensure you can login manually with portable mode: " +:+ "True")])
    else
      _ <- print initialized_message ;;
      ret (make terminal_path (iso_official iso) timeout portable account_number server
             (iso_base_module_dir iso) (iso_module_dir iso) (iso_module_name iso)
             (iso_module_id iso)).

(** [__del__(self)] *)
Definition del (self : t) : M unit :=
  a <- ask (ReqShutdown (official self)) ;;
  _ <- match a with
       | inl _ => ret tt
       | inr e =>
           print ("Error shutting down MetaTrader5: " +:+ fault_str e +:+ "," +:+ newline
                  +:+ module_name self +:+ " in " +:+ path_str (module_dir self))
       end ;;
  _ <- sys_path_remove (path_str (base_module_dir self)) ;;
  modify (fun st => set_sys_modules (delete (module_name self) (sys_modules st)) st).

End WithEnv.

End Client.

(** ** A concrete installation, to run the wrapper on *)

Module Demo.

Definition account : Py.value :=
  Py.Obj
    [ ("login", Py.Int 5012345); ("trade_mode", Py.Int 2); ("leverage", Py.Int 100);
      ("limit_orders", Py.Int 200); ("margin_so_mode", Py.Int 0);
      ("trade_allowed", Py.Bool true); ("trade_expert", Py.Bool true);
      ("margin_mode", Py.Int 2); ("currency_digits", Py.Int 2);
      ("fifo_close", Py.Bool false); ("balance", Py.Float 0x40C3880000000000);
      ("credit", Py.Float 0); ("profit", Py.Float 0);
      ("equity", Py.Float 0x40C3880000000000); ("margin", Py.Float 0);
      ("margin_free", Py.Float 0x40C3880000000000); ("margin_level", Py.Float 0);
      ("margin_so_call", Py.Float 0x4049000000000000);
      ("margin_so_so", Py.Float 0x403E000000000000); ("margin_initial", Py.Float 0);
      ("margin_maintenance", Py.Float 0); ("assets", Py.Float 0);
      ("liabilities", Py.Float 0); ("commission_blocked", Py.Float 0);
      ("name", Py.Str "Jane Trader"); ("server", Py.Str "Broker-Demo");
      ("currency", Py.Str "USD"); ("company", Py.Str "Broker Ltd.") ].

(** A vendor module that answers every request the same way each time;
    [accepts] is what [initialize] and [login] return, [shutdown_ok] tells
    whether [shutdown] returns or raises. *)
Definition answers (accepts shutdown_ok : bool) (before : list request) (r : request)
    : Py.value + fault :=
  match r with
  | ReqImport _ => inl Py.None_
  | ReqInitialize _ _ _ _ _ _ _ => inl (Py.Bool accepts)
  | ReqLogin _ _ _ _ _ => inl (Py.Bool accepts)
  | ReqShutdown _ =>
      if shutdown_ok then inl Py.None_ else inr (Fault "RuntimeError" "IPC closed")
  | ReqVersion _ => inl (Py.Tuple [Py.Int 500; Py.Int 4153; Py.Str "22 Dec 2023"])
  | ReqLastError _ =>
      if accepts then inl (Py.Tuple [Py.Int 1; Py.Str "Success"])
      else inl (Py.Tuple [Py.Int (-6); Py.Str "Terminal: Authorization failed"])
  | ReqAccountInfo _ => inl account
  end.

Definition uuids (n : nat) : string :=
  match n with
  | 0 => "0123456789abcdef0123456789abcdef"
  | 1 => "fedcba9876543210fedcba9876543210"
  | 2 => "0f1e2d3c4b5a69788796a5b4c3d2e1f0"
  | _ => "00000000111122223333444444444444"
  end.

Definition site_packages (module : string) : option ModuleSpec :=
  if String.eqb module "MetaTrader5"
  then Some (mkSpec (Some ["site-packages"; "MetaTrader5"; "__init__.py"]))
  else None.

Definition env (accepts shutdown_ok : bool) : Env :=
  mkEnv "/" newline uuids site_packages (answers accepts shutdown_ok).



Definition disk : filesystem :=
  [ (["mt5"], Dir true);
    (["mt5"; "terminal64.exe"], File "MZ");
    (["Program Files"], Dir false);
    (["Program Files"; "terminal64.exe"], File "MZ");
    (["site-packages"], Dir true);
    (["site-packages"; "MetaTrader5"], Dir true);
    (["site-packages"; "MetaTrader5"; "__init__.py"], File "from ._core import *");
    (["site-packages"; "MetaTrader5"; "_core.pyd"], File "MZ") ].

(** A fresh interpreter on a fresh install. *)
Definition boot : State := mkState disk ["site-packages"] ∅ 0 [] [].

Definition terminal : path := ["mt5"; "terminal64.exe"].

(** [Client(terminal, 5012345, "secret", "Broker-Demo")] *)
Definition connect (accepts : bool) (st : State) : result Client.t * State :=
  Client.init (env accepts true) terminal 5012345 "secret" "Broker-Demo" default_timeout st.

(** The client that the first construction on [boot] returns, and the state
    it leaves. *)
Definition client : Client.t :=
  Client.make terminal
    (mkModule "MetaTrader5_fedcba98_7654_3210_fedc_ba9876543210" 0)
    default_timeout true 5012345 "Broker-Demo"
    ["mt5"; "py2mql5"]
    ["mt5"; "py2mql5"; "MetaTrader5_fedcba98_7654_3210_fedc_ba9876543210"]
    "MetaTrader5_fedcba98_7654_3210_fedc_ba9876543210"
    (Some "fedcba98_7654_3210_fedc_ba9876543210").

Definition connected : State := snd (connect true boot).

(** The isolation that the first construction on [boot] establishes, and
    the state in which it asks for [initialize]. *)
Definition isolation : Client.isolation :=
  Client.mkIsolation (Client.base_module_dir client) (Client.module_dir client)
    (Client.module_name client) (Client.module_id client) (Client.official client).

Definition isolated : State :=
  snd (Client.copy_and_import_official_module (env true true) terminal boot).


End Demo.

(** ** Notions used to state the properties *)

(** The attributes that [AccountInfo.__init__] stores as read, each with
    the field that holds it. *)
Definition copied : list (string * (AccountInfo.t -> Py.value)) :=
  [ ("login", AccountInfo.login); ("leverage", AccountInfo.leverage);
    ("limit_orders", AccountInfo.limit_orders);
    ("trade_allowed", AccountInfo.trade_allowed);
    ("trade_expert", AccountInfo.trade_expert);
    ("currency_digits", AccountInfo.currency_digits);
    ("fifo_close", AccountInfo.fifo_close); ("balance", AccountInfo.balance);
    ("credit", AccountInfo.credit); ("profit", AccountInfo.profit);
    ("equity", AccountInfo.equity); ("margin", AccountInfo.margin);
    ("margin_free", AccountInfo.margin_free);
    ("margin_level", AccountInfo.margin_level);
    ("margin_so_call", AccountInfo.margin_so_call);
    ("margin_so_so", AccountInfo.margin_so_so);
    ("margin_initial", AccountInfo.margin_initial);
    ("margin_maintenance", AccountInfo.margin_maintenance);
    ("assets", AccountInfo.assets); ("liabilities", AccountInfo.liabilities);
    ("commission_blocked", AccountInfo.commission_blocked);
    ("name", AccountInfo.name); ("server", AccountInfo.server);
    ("currency", AccountInfo.currency); ("company", AccountInfo.company) ].

(** The result object has every attribute [__init__] reads, and codes that
    are member values in its three coded attributes. *)
Definition well_formed (o : Py.value) : Prop :=
  Forall (fun n => is_ok (getattr o n) = true) AccountInfo.attributes
  /\ is_ok (c <~ getattr o "trade_mode" ;; TradeMode_call c) = true
  /\ is_ok (c <~ getattr o "margin_so_mode" ;; MarginSoMode_call c) = true
  /\ is_ok (c <~ getattr o "margin_mode" ;; MarginMode_call c) = true.

(** What the [try] statement of [__del__] prints. *)
Definition shutdown_report (E : Env) (self : Client.t) (answer : Py.value + fault) : list string :=
  match answer with
  | inl _ => []
  | inr f =>
      ["Error shutting down MetaTrader5: " +:+ fault_str f +:+ "," +:+ newline
       +:+ Client.module_name self +:+ " in " +:+ Client.path_str E (Client.module_dir self)]
  end.

(** [<terminal_parent>/py2mql5], the isolation directory of an install. *)
Definition isolation_dir (terminal_path : path) : path :=
  joinpath (parent terminal_path) "py2mql5".

(** What the scan of [__copy_and_import_official_module__] keeps of a
    filesystem: the directories of [base] named [MetaTrader5_...], in the
    order [base] lists them. *)
Definition is_duplicate (f : filesystem) (d : path) : bool :=
  FS.is_dir f d && String.prefix (OFFICIAL_MODULE_NAME +:+ "_") (path_name d).

Definition duplicates (f : filesystem) (base : path) : list path :=
  List.filter (is_duplicate f) (FS.listing base f).

(** The requests that belong to a session in use: [login] and
    [account_info]. *)
Definition session_request (r : request) : bool :=
  match r with
  | ReqLogin _ _ _ _ _ => true
  | ReqAccountInfo _ => true
  | _ => false
  end.

(** The [InitializeError] raised for a directory that cannot be written. *)
Definition not_writable (E : Env) (terminal_path : path) : exn :=
  InitializeError [ArgStr (Client.no_write_permission E terminal_path)].


(** The [initialize] request of a construction. *)
Definition initialize_request (E : Env) (m : pymodule) (terminal_path : path)
    (account_number : Z) (password server : string) (timeout : Z) : request :=
  ReqInitialize m (Client.path_str E terminal_path) account_number password server timeout true.

(** The [InitializeError] raised when [initialize] reports failure. *)
Definition initialize_failed (e : MT5LastError) : exn :=
  InitializeError
    [ArgLastError e; ArgStr "ensure you can login manually with portable mode: True"].

(** The client that a construction returns once [initialize] has succeeded. *)
Definition client_of (terminal_path : path) (account_number : Z) (server : string)
    (timeout : Z) (iso : Client.isolation) : Client.t :=
  Client.make terminal_path (Client.iso_official iso) timeout true account_number server
    (Client.iso_base_module_dir iso) (Client.iso_module_dir iso)
    (Client.iso_module_name iso) (Client.iso_module_id iso).

(** What the write-permission probe of a construction on [st] leaves in
    [st1], whatever its outcome [r]: no entry changes its kind, no entry
    other than the probe appears or disappears, the isolation directory
    lists what it listed, and the interpreter's tables, the trace and the
    output are as before.  When it passes, the probe is gone and the
    terminal's directory was writable; when it raises, it raises the error
    about write permission and the filesystem is untouched. *)
Definition probed (E : Env) (terminal_path : path) (st : State) (r : result unit)
    (st1 : State) : Prop :=
  let probe := Client.test_file terminal_path (uuid4_hex E (uuid_draws st)) in
  (forall q, FS.is_dir (fs st1) q = FS.is_dir (fs st) q)
  /\ (forall q, q <> probe -> FS.lookup (fs st1) q = FS.lookup (fs st) q)
  /\ FS.listing (isolation_dir terminal_path) (fs st1)
     = FS.listing (isolation_dir terminal_path) (fs st)
  /\ sys_path st1 = sys_path st
  /\ sys_modules st1 = sys_modules st
  /\ trace st1 = trace st
  /\ stdout st1 = stdout st
  /\ (r = OK tt ->
      FS.lookup (fs st1) probe = None
      /\ FS.dir_access (fs st) (parent terminal_path) = OK tt)
  /\ (forall e, r = Raise e -> e = not_writable E terminal_path /\ fs st1 = fs st).

(** The module a request is addressed to; an import is addressed to the
    import machinery. *)
Definition request_module (r : request) : option pymodule :=
  match r with
  | ReqImport _ => None
  | ReqInitialize m _ _ _ _ _ _ => Some m
  | ReqLogin m _ _ _ _ => Some m
  | ReqShutdown m => Some m
  | ReqVersion m => Some m
  | ReqLastError m => Some m
  | ReqAccountInfo m => Some m
  end.

(** From [st] to [st1], nothing happened but requests to module [m]: the
    filesystem, [sys.path], [sys.modules] and the UUID draws are as they
    were. *)
Definition only_asked (m : pymodule) (st st1 : State) : Prop :=
  fs st1 = fs st
  /\ sys_path st1 = sys_path st
  /\ sys_modules st1 = sys_modules st
  /\ uuid_draws st1 = uuid_draws st
  /\ exists made, trace st1 = trace st ++ made
                  /\ Forall (fun r => request_module r = Some m) made.

(** [(t[0], t[1], t[2])] of a tuple [t], as [version()] reads it. *)
Definition first_three (items : list Py.value) : result TerminalVersion :=
  match items with
  | a :: b :: c :: _ => OK (mkTerminalVersion a b c)
  | _ => Raise (IndexError "tuple index out of range")
  end.

(** [(t[0], t[1])] of a tuple [t], as [last_error()] reads it. *)
Definition first_two (items : list Py.value) : result MT5LastError :=
  match items with
  | a :: b :: _ => OK (mkMT5LastError a b)
  | _ => Raise (IndexError "tuple index out of range")
  end.

(** Further installations and result objects to run the wrapper on. *)
Module Cases.

(** [Demo.account] with its attributes in reverse order and one more that
    the wrapper does not know. *)
Definition padded_account : Py.value :=
  match Demo.account with
  | Py.Obj attrs => Py.Obj (("ticket", Py.Int 7) :: List.rev attrs)
  | other => other
  end.

(** A vendor module whose [version()] and [last_error()] return [v]. *)
Definition env_answering (v : Py.value) : Env :=
  mkEnv "/" newline Demo.uuids Demo.site_packages
    (fun before r =>
       match r with
       | ReqVersion _ => inl v
       | ReqLastError _ => inl v
       | _ => Demo.answers true true before r
       end).

(** A fresh interpreter on [Demo.disk] with further entries. *)
Definition boot_with (entries : filesystem) : State :=
  mkState (Demo.disk ++ entries) ["site-packages"] ∅ 0 [] [].

(** An interpreter in which the vendor package is not installed. *)
Definition env_without_vendor : Env :=
  mkEnv "/" newline Demo.uuids (fun _ => None) (Demo.answers true true).

(** The interpreter after the client of [Demo.connected] was disposed of. *)
Definition disposed : State :=
  snd (Client.del (Demo.env true true) Demo.client Demo.connected).

(** A vendor module that cannot be imported. *)
Definition env_import_fails : Env :=
  mkEnv "/" newline Demo.uuids Demo.site_packages
    (fun before r =>
       match r with
       | ReqImport _ => inr (Fault "ImportError" "DLL load failed")
       | _ => Demo.answers true true before r
       end).

(** A vendor module that refuses and answers [v] to [last_error()]. *)
Definition env_refusing (v : Py.value) : Env :=
  mkEnv "/" newline Demo.uuids Demo.site_packages
    (fun before r =>
       match r with
       | ReqLastError _ => inl v
       | _ => Demo.answers false true before r
       end).

(** An interpreter in which [MetaTrader5] is a single file, not a package. *)
Definition env_single_file : Env :=
  mkEnv "/" newline Demo.uuids (fun _ => Some (mkSpec (Some ["site-packages"; "MetaTrader5.py"])))
    (Demo.answers true true).

End Cases.

(** The identifier and the name of the duplicate that a construction makes
    when the UUID it draws for it is [hex]. *)
Definition new_module_id (hex : string) : string := replace_char "-" "_" (uuid_str hex).

Definition new_module_name (hex : string) : string :=
  OFFICIAL_MODULE_NAME +:+ "_" +:+ new_module_id hex.

(** The three directives, each on a line of its own, and an empty line. *)
Definition ignore_header : string :=
  "# type: ignore" +:+ newline +:+ "# pyright: ignore" +:+ newline +:+ "# ruff: noqa"
  +:+ newline +:+ newline.

(** What is at a path, leaving aside who may write there: nothing, a
    directory, or a file with its content. *)
Inductive entry : Type :=
| Absent
| Directory
| Regular (content : string).

Definition entry_at (f : filesystem) (p : path) : entry :=
  match FS.lookup f p with
  | None => Absent
  | Some (Dir _) => Directory
  | Some (File content) => Regular content
  end.

(** The entry of a duplicate at [rel], given the entry [original] of the
    vendor package there: [__init__.py] is rewritten with the header when it
    is UTF-8, everything else is as in the package. *)
Definition duplicated (linesep : string) (rel : path) (original : entry) : entry :=
  match original with
  | Regular content =>
      if path_eqb rel ["__init__.py"] && utf8_valid content
      then Regular (FS.rewritten linesep ignore_header content)
      else original
  | _ => original
  end.

(** What a refused [initialize] or [login] raises, given the exception
    [wrap e] it means to raise and what [last_error()] made of the vendor
    module's answer. *)
Definition failure_report (wrap : MT5LastError -> exn) (fetched : result MT5LastError) : exn :=
  match fetched with
  | OK e => wrap e
  | Raise x => x
  end.

(** [uuid.uuid4().hex]: 32 hexadecimal digits, in lower case. *)
Definition is_hex_digit (c : ascii) : bool :=
  existsb (Ascii.eqb c) (list_ascii_of_string "0123456789abcdef").

Definition is_uuid_hex (s : string) : bool :=
  (String.length s =? 32)%nat && forallb is_hex_digit (list_ascii_of_string s).

(** No character of [s] is a hyphen. *)
Definition hyphen_free (s : string) : bool :=
  forallb (fun c => negb (Ascii.eqb c "-")) (list_ascii_of_string s).

(** * Properties *)

(** ** Running monadic code *)

(** Reduce the projections and updates of a state, and nothing else. *)
Ltac state_simpl :=
  unfold set_fs, set_sys_path, set_sys_modules, set_uuid_draws, set_trace, set_stdout in *;
  cbn [fs sys_path sys_modules uuid_draws trace stdout fst snd] in *.

(** Split on the outcome of the statement of [AccountInfo.__init__] that
    runs next. *)
Ltac init_step :=
  let H := fresh "Hstep" in
  match goal with
  | |- rbind ?r _ = _ -> _ => destruct r eqn:H; cbn [rbind]
  | |- rbind ?r _ = _ => destruct r eqn:H; cbn [rbind]
  end.

(** Close a goal in which an attribute that the result object is known to
    have was found missing. *)
Ltac attribute_present Hall :=
  match goal with
  | H : getattr ?o ?n = Raise _ |- _ =>
      let Hin := fresh in
      assert (Hin : In n AccountInfo.attributes)
        by (unfold AccountInfo.attributes; repeat (try (left; reflexivity); right));
      specialize (Hall n Hin); rewrite H in Hall; discriminate Hall
  end.

Lemma bind_OK {A B : Type} (m : M A) (k : A -> M B) (st st' : State) (a : A) :
  m st = (OK a, st') -> bind m k st = k a st'.
Proof. intros H. unfold bind. now rewrite H. Qed.

Lemma bind_Raise {A B : Type} (m : M A) (k : A -> M B) (st st' : State) (e : exn) :
  m st = (Raise e, st') -> bind m k st = (Raise e, st').
Proof. intros H. unfold bind. now rewrite H. Qed.

Lemma demo_connects : fst (Demo.connect true Demo.boot) = OK Demo.client.
Proof. vm_compute. reflexivity. Qed.

(** ** The accessors: [version], [last_error], [login] *)

Section Accessors.

Variable E : Env.

Lemma call_value (r : request) (st : State) (v : Py.value) :
  vendor E (trace st) r = inl v ->
  Client.call E r st = (OK v, set_trace (trace st ++ [r]) st).
Proof. intros H. unfold Client.call, Client.ask, bind, ret. now rewrite H. Qed.

Lemma call_fault (r : request) (st : State) (f : fault) :
  vendor E (trace st) r = inr f ->
  Client.call E r st = (Raise (VendorError f), set_trace (trace st ++ [r]) st).
Proof. intros H. unfold Client.call, Client.ask, bind, raise. now rewrite H. Qed.

(** Whatever the answer, a call adds exactly its request to the trace and
    changes nothing else. *)
Lemma call_state (r : request) (st : State) :
  snd (Client.call E r st) = set_trace (trace st ++ [r]) st.
Proof.
  destruct (vendor E (trace st) r) as [v | f] eqn:Hv.
  - now rewrite (call_value _ _ _ Hv).
  - now rewrite (call_fault _ _ _ Hv).
Qed.

Lemma last_error_pair (m : pymodule) (st : State) (code description : Py.value) :
  vendor E (trace st) (ReqLastError m) = inl (Py.Tuple [code; description]) ->
  Client.last_error E m st
  = (OK (mkMT5LastError code description), set_trace (trace st ++ [ReqLastError m]) st).
Proof.
  intros H. unfold Client.last_error.
  rewrite (bind_OK _ _ _ _ _ (call_value _ _ _ H)). reflexivity.
Qed.

(** C7. After a successful construction, [version()] and [last_error()]
    return records assembled from the positional elements of the vendor
    module's tuple, in order: a 3-tuple [(a, b, c)] gives
    [TerminalVersion(a, b, c)] and a 2-tuple [(code, description)] gives
    [MT5LastError(code, description)]; each makes one request and changes
    nothing else. *)
Theorem version_and_last_error_positional
    (self : Client.t) (st : State) (a b c code description : Py.value) :
  vendor E (trace st) (ReqVersion (Client.official self)) = inl (Py.Tuple [a; b; c]) ->
  vendor E (trace st) (ReqLastError (Client.official self))
    = inl (Py.Tuple [code; description]) ->
  Client.version E self st
    = (OK (mkTerminalVersion a b c),
       set_trace (trace st ++ [ReqVersion (Client.official self)]) st)
  /\ Client.last_error E (Client.official self) st
    = (OK (mkMT5LastError code description),
       set_trace (trace st ++ [ReqLastError (Client.official self)]) st).
Proof.
  intros Hv He. split.
  - unfold Client.version.
    rewrite (bind_OK _ _ _ _ _ (call_value _ _ _ Hv)). reflexivity.
  - now apply last_error_pair.
Qed.

(** C9. [login] makes the vendor module's [login] request on the handle the
    client already holds, with the arguments it was given.  When the answer
    is true, it prints and returns nothing; when the answer is false, it
    fetches the last error and raises [LoginError] carrying it. *)
Theorem login_forwards
    (self : Client.t) (account_number : Z) (password server : string) (timeout : Z)
    (st : State) (answer : Py.value) :
  let req := ReqLogin (Client.official self) account_number password server timeout in
  let st1 := set_trace (trace st ++ [req]) st in
  vendor E (trace st) req = inl answer ->
  (Py.truthy answer = true ->
     Client.login E self account_number password server timeout st
     = (OK tt, set_stdout (stdout st ++ ["Login successful"]) st1))
  /\ (Py.truthy answer = false ->
      forall code description : Py.value,
        vendor E (trace st1) (ReqLastError (Client.official self))
          = inl (Py.Tuple [code; description]) ->
        Client.login E self account_number password server timeout st
        = (Raise (LoginError [ArgLastError (mkMT5LastError code description)]),
           set_trace (trace st1 ++ [ReqLastError (Client.official self)]) st1)).
Proof.
  intros req st1 Hans. split.
  - intros Ht. unfold Client.login.
    rewrite (bind_OK _ _ _ _ _ (call_value _ _ _ Hans)). now rewrite Ht.
  - intros Hf code description Herr. unfold Client.login.
    rewrite (bind_OK _ _ _ _ _ (call_value _ _ _ Hans)). rewrite Hf. simpl.
    rewrite (bind_OK _ _ _ _ _ (last_error_pair _ _ _ _ Herr)). reflexivity.
Qed.

End Accessors.

Lemma version_and_last_error_positional_witness :
  Client.version (Demo.env true true) Demo.client Demo.connected
    = (OK (mkTerminalVersion (Py.Int 500) (Py.Int 4153) (Py.Str "22 Dec 2023")),
       set_trace (trace Demo.connected ++ [ReqVersion (Client.official Demo.client)])
         Demo.connected)
  /\ Client.last_error (Demo.env true true) (Client.official Demo.client) Demo.connected
    = (OK (mkMT5LastError (Py.Int 1) (Py.Str "Success")),
       set_trace (trace Demo.connected ++ [ReqLastError (Client.official Demo.client)])
         Demo.connected).
Proof.
  apply (version_and_last_error_positional (Demo.env true true) Demo.client Demo.connected
           (Py.Int 500) (Py.Int 4153) (Py.Str "22 Dec 2023") (Py.Int 1) (Py.Str "Success"));
    reflexivity.
Defined.

Lemma login_forwards_witness :
  fst (Client.login (Demo.env true true) Demo.client 5012345 "secret" "Broker-Demo"
         default_timeout Demo.connected) = OK tt
  /\ fst (Client.login (Demo.env false true) Demo.client 5012345 "wrong" "Broker-Demo"
            default_timeout Demo.connected)
     = Raise (LoginError
                [ArgLastError
                   (mkMT5LastError (Py.Int (-6)) (Py.Str "Terminal: Authorization failed"))]).
Proof.
  split.
  - rewrite (proj1 (login_forwards (Demo.env true true) Demo.client 5012345 "secret"
                      "Broker-Demo" default_timeout Demo.connected (Py.Bool true)
                      eq_refl) eq_refl).
    reflexivity.
  - rewrite (proj2 (login_forwards (Demo.env false true) Demo.client 5012345 "wrong"
                      "Broker-Demo" default_timeout Demo.connected (Py.Bool false)
                      eq_refl) eq_refl
               (Py.Int (-6)) (Py.Str "Terminal: Authorization failed") eq_refl).
    reflexivity.
Defined.

(** ** [AccountInfo] *)

Section Snapshots.

(** What [Enum.__call__] returns is a member whose value equals the
    argument. *)
Lemma enum_call_OK {T : Type} (cls : string) (members : list T) (value_of : T -> Z)
    (v : Py.value) (m : T) :
  enum_call cls members value_of v = OK m ->
  In m members /\ Py.as_small_int v = Some (value_of m).
Proof.
  unfold enum_call.
  destruct (Py.as_small_int v) as [z |]; [| discriminate].
  destruct (List.find _ members) as [m' |] eqn:Hfind; [| discriminate].
  intros [= <-]. apply find_some in Hfind as [Hin Heq].
  apply Z.eqb_eq in Heq. now subst z.
Qed.






Lemma init_copies (o : Py.value) (info : AccountInfo.t) :
  AccountInfo.init o = OK info ->
  Forall (fun field => getattr o (fst field) = OK (snd field info)) copied
  /\ (exists code, getattr o "trade_mode" = OK code
                   /\ TradeMode_call code = OK (AccountInfo.trade_mode info))
  /\ (exists code, getattr o "margin_so_mode" = OK code
                   /\ MarginSoMode_call code = OK (AccountInfo.margin_so_mode info))
  /\ (exists code, getattr o "margin_mode" = OK code
                   /\ MarginMode_call code = OK (AccountInfo.margin_mode info)).
Proof.
  unfold AccountInfo.init.
  repeat (init_step; [| discriminate]).
  intros [= <-]. cbn.
  split; [repeat constructor; cbn; assumption | eauto 10].
Qed.

Lemma init_total (o : Py.value) : well_formed o -> is_ok (AccountInfo.init o) = true.
Proof.
  intros (Hall & Htm & Hso & Hmm). rewrite Forall_forall in Hall.
  destruct (AccountInfo.init o) as [info | e] eqn:Hinit; [reflexivity | exfalso].
  revert Hinit. unfold AccountInfo.init.
  repeat (init_step;
          [| try attribute_present Hall;
             cbn [rbind] in Htm, Hso, Hmm;
             match goal with
             | Hr : ?r = Raise _, Hx : is_ok ?r = true |- _ =>
                 rewrite Hr in Hx; discriminate Hx
             end]).
  discriminate.
Qed.

Section Calls.

Variable E : Env.

Lemma account_info_run (self : Client.t) (st : State) (o : Py.value) :
  vendor E (trace st) (ReqAccountInfo (Client.official self)) = inl o ->
  Client.account_info E self st
  = (AccountInfo.init o, set_trace (trace st ++ [ReqAccountInfo (Client.official self)]) st).
Proof.
  intros H. unfold Client.account_info.
  rewrite (bind_OK _ _ _ _ _ (call_value E _ _ _ H)). reflexivity.
Qed.


(** C2 (amended). Every call of [account_info()] makes one request and
    builds its [AccountInfo] from the object answered to that request and
    from nothing else: 25 attributes hold the values read from the object,
    unchanged, and the three coded attributes hold the enumeration members
    of the codes read.  The snapshot is an instance of an ordinary class:
    assigning to an attribute of it is accepted and stores the value. *)
Theorem account_info_snapshot (self : Client.t) (st : State) (o : Py.value) :
  vendor E (trace st) (ReqAccountInfo (Client.official self)) = inl o ->
  Client.account_info E self st
  = (AccountInfo.init o, set_trace (trace st ++ [ReqAccountInfo (Client.official self)]) st)
  /\ forall info : AccountInfo.t,
      fst (Client.account_info E self st) = OK info ->
      Forall (fun field => getattr o (fst field) = OK (snd field info)) copied
      /\ (exists code, getattr o "trade_mode" = OK code
                       /\ TradeMode_call code = OK (AccountInfo.trade_mode info))
      /\ (exists code, getattr o "margin_so_mode" = OK code
                       /\ MarginSoMode_call code = OK (AccountInfo.margin_so_mode info))
      /\ (exists code, getattr o "margin_mode" = OK code
                       /\ MarginMode_call code = OK (AccountInfo.margin_mode info))
      /\ (forall v : Py.value,
            exists info', AccountInfo.set_login v info = OK info'
                          /\ AccountInfo.login info' = v
                          /\ AccountInfo.trade_mode info' = AccountInfo.trade_mode info).
Proof.
  intros Hans. rewrite (account_info_run _ _ _ Hans). split; [reflexivity |].
  cbn [fst]. intros info Hinit.
  destruct (init_copies _ _ Hinit) as (Hcopied & Htm & Hso & Hmm).
  repeat split; try assumption.
  intros v. eexists. repeat split.
Qed.

End Calls.

End Snapshots.



Lemma account_info_snapshot_witness :
  fst (Client.account_info (Demo.env true true) Demo.client Demo.connected)
  = AccountInfo.init Demo.account.
Proof.
  rewrite (proj1 (account_info_snapshot (Demo.env true true) Demo.client Demo.connected
                    Demo.account eq_refl)).
  reflexivity.
Defined.

(** C2, as stated, fails: [AccountInfo] is an ordinary class, so an
    attribute of a snapshot that [account_info()] returned can be assigned
    again; the assignment succeeds and the snapshot then holds the new
    value. *)
Lemma account_info_not_immutable :
  exists info info' : AccountInfo.t,
    fst (Client.account_info (Demo.env true true) Demo.client Demo.connected) = OK info
    /\ AccountInfo.set_login (Py.Int 0) info = OK info'
    /\ AccountInfo.login info = Py.Int 5012345
    /\ AccountInfo.login info' = Py.Int 0.
Proof.
  eexists. eexists. repeat split.
Qed.

(** The two dataclasses, by contrast, refuse the assignment. *)
Lemma last_error_frozen (v : Py.value) (e : MT5LastError) :
  MT5LastError_set_error_code v e = Raise (FrozenInstanceError "error_code").
Proof. reflexivity. Qed.

(** ** Disposal *)

Section Disposal.

Variable E : Env.

Lemma list_remove_In (x : string) (l : list string) :
  In x l ->
  exists l', list_remove x l = Some l'
             /\ S (count_occ string_dec l' x) = count_occ string_dec l x.
Proof.
  induction l as [| y l IH]; [intros [] |].
  intros Hin. cbn [list_remove].
  destruct (String.eqb_spec y x) as [-> | Hne].
  - exists l. split; [reflexivity |]. now rewrite count_occ_cons_eq.
  - destruct Hin as [-> | Hin]; [contradiction |].
    destruct (IH Hin) as (l' & -> & Hcount). exists (y :: l'). split; [reflexivity |].
    now rewrite !count_occ_cons_neq.
Qed.

Lemma list_remove_absent (x : string) (l : list string) :
  ~ In x l -> list_remove x l = None.
Proof.
  induction l as [| y l IH]; [reflexivity |].
  intros Hnot. cbn [list_remove].
  destruct (String.eqb_spec y x) as [-> | Hne]; [exfalso; apply Hnot; now left |].
  rewrite IH; [reflexivity |]. intros Hin. apply Hnot. now right.
Qed.

Lemma list_remove_split (x : string) (before after : list string) :
  ~ In x before -> list_remove x (before ++ x :: after) = Some (before ++ after).
Proof.
  induction before as [| y before IH]; intros Hnot.
  - cbn. now rewrite String.eqb_refl.
  - cbn [app list_remove]. destruct (String.eqb_spec y x) as [-> | Hne].
    + exfalso. apply Hnot. now left.
    + rewrite IH; [reflexivity |]. intros Hin. apply Hnot. now right.
Qed.

Lemma del_run (self : Client.t) (st : State) :
  let shutdown := ReqShutdown (Client.official self) in
  let st1 :=
    set_stdout (stdout st ++ shutdown_report E self (vendor E (trace st) shutdown))
      (set_trace (trace st ++ [shutdown]) st) in
  Client.del E self st
  = match list_remove (Client.path_str E (Client.base_module_dir self)) (sys_path st) with
    | Some l =>
        (OK tt,
         set_sys_modules (delete (Client.module_name self) (sys_modules st))
           (set_sys_path l st1))
    | None => (Raise (ValueError "list.remove(x): x not in list"), st1)
    end.
Proof.
  cbv zeta. unfold Client.del, Client.ask, sys_path_remove, print, modify, bind, ret,
    shutdown_report.
  destruct st as [f p m n tr out]. state_simpl.
  destruct (vendor E tr (ReqShutdown (Client.official self))) as [v | flt];
    state_simpl; destruct (list_remove _ p); state_simpl; rewrite ?app_nil_r; reflexivity.
Qed.

(** C1 (amended). Disposing of a client whose isolation directory is on
    [sys.path] does not raise, whether the vendor module's [shutdown]
    returns or raises: a failure of [shutdown] is caught and only printed.
    The disposal takes one occurrence of the isolation directory off
    [sys.path], so that the entry is gone when it was there once, and the
    module name is no longer registered in [sys.modules]. *)
Theorem del_does_not_raise (self : Client.t) (st : State) :
  let entry := Client.path_str E (Client.base_module_dir self) in
  let shutdown := ReqShutdown (Client.official self) in
  In entry (sys_path st) ->
  exists st',
    Client.del E self st = (OK tt, st')
    /\ trace st' = trace st ++ [shutdown]
    /\ stdout st' = stdout st ++ shutdown_report E self (vendor E (trace st) shutdown)
    /\ S (count_occ string_dec (sys_path st') entry) = count_occ string_dec (sys_path st) entry
    /\ (count_occ string_dec (sys_path st) entry = 1 -> ~ In entry (sys_path st'))
    /\ sys_modules st' !! Client.module_name self = None
    /\ fs st' = fs st.
Proof.
  intros entry shutdown Hin. rewrite del_run. fold entry shutdown.
  destruct (list_remove_In _ _ Hin) as (l' & -> & Hcount).
  eexists. split; [reflexivity |]. cbn.
  repeat split; try assumption.
  - intros Hone Hin'. rewrite Hone in Hcount.
    apply (count_occ_In string_dec) in Hin'. lia.
  - apply lookup_delete_eq.
Qed.

(** Without the entry on [sys.path], [__del__] raises [ValueError], after
    it has called [shutdown]. *)
Lemma del_without_entry (self : Client.t) (st : State) :
  ~ In (Client.path_str E (Client.base_module_dir self)) (sys_path st) ->
  fst (Client.del E self st) = Raise (ValueError "list.remove(x): x not in list")
  /\ trace (snd (Client.del E self st)) = trace st ++ [ReqShutdown (Client.official self)].
Proof.
  intros Hnot. rewrite del_run. rewrite (list_remove_absent _ _ Hnot). split; reflexivity.
Qed.

End Disposal.

Lemma del_does_not_raise_witness :
  fst (Client.del (Demo.env true false) Demo.client Demo.connected) = OK tt
  /\ sys_path (snd (Client.del (Demo.env true false) Demo.client Demo.connected))
     = ["site-packages"].
Proof.
  destruct (del_does_not_raise (Demo.env true false) Demo.client Demo.connected)
    as (st' & Hrun & _).
  - right. left. reflexivity.
  - split; reflexivity.
Defined.

(** C1, as stated, fails: the first disposal of the client takes the
    isolation directory off [sys.path], and a second disposal of the same
    client then raises [ValueError] from [sys.path.remove]. *)
Lemma repeated_disposal_raises :
  let once := Client.del (Demo.env true true) Demo.client Demo.connected in
  let twice := Client.del (Demo.env true true) Demo.client (snd once) in
  fst once = OK tt
  /\ ~ In "mt5/py2mql5" (sys_path (snd once))
  /\ fst twice = Raise (ValueError "list.remove(x): x not in list").
Proof.
  cbv zeta. split; [reflexivity |]. split; [| reflexivity].
  vm_compute. intros [H | []]. discriminate H.
Qed.

(** Two clients on one install: each construction has appended the
    isolation directory, each disposal removes one occurrence, so the
    entry is still on [sys.path] after the first disposal and both
    disposals return. *)
Lemma disposal_of_two_clients :
  let both := snd (Demo.connect true Demo.connected) in
  let once := Client.del (Demo.env true true) Demo.client both in
  let twice := Client.del (Demo.env true true) Demo.client (snd once) in
  sys_path both = ["site-packages"; "mt5/py2mql5"; "mt5/py2mql5"]
  /\ fst once = OK tt
  /\ sys_path (snd once) = ["site-packages"; "mt5/py2mql5"]
  /\ fst twice = OK tt
  /\ sys_path (snd twice) = ["site-packages"].
Proof. cbv zeta. repeat split; vm_compute; reflexivity. Qed.

(** ** Strings *)

Section Strings.

Lemma length_append (a b : string) :
  String.length (a +:+ b) = String.length a + String.length b.
Proof.
  induction a as [| x a IH]; [reflexivity |].
  change (String x a +:+ b) with (String x (a +:+ b)). cbn [String.length]. now rewrite IH.
Qed.

Lemma append_assoc (a b c : string) : (a +:+ b) +:+ c = a +:+ b +:+ c.
Proof.
  induction a as [| x a IH]; [reflexivity |].
  change (String x a +:+ b) with (String x (a +:+ b)).
  change (String x (a +:+ b) +:+ c) with (String x ((a +:+ b) +:+ c)).
  change (String x a +:+ b +:+ c) with (String x (a +:+ b +:+ c)).
  now rewrite IH.
Qed.


End Strings.

(** ** The filesystem *)

Section Filesystem.

Lemma path_eqb_true (p q : path) : path_eqb p q = true <-> p = q.
Proof. unfold path_eqb. apply bool_decide_eq_true. Qed.

Lemma path_eqb_false (p q : path) : path_eqb p q = false <-> p <> q.
Proof. unfold path_eqb. apply bool_decide_eq_false. Qed.

Lemma path_eqb_refl (p : path) : path_eqb p p = true.
Proof. now apply path_eqb_true. Qed.

Lemma parent_joinpath (p : path) (c : string) : parent (joinpath p c) = p.
Proof. unfold parent, joinpath. apply removelast_last. Qed.

Lemma path_name_joinpath (p : path) (c : string) : path_name (joinpath p c) = c.
Proof. unfold path_name, joinpath. apply last_last. Qed.

Lemma joinpath_inj (p : path) (c d : string) : joinpath p c = joinpath p d -> c = d.
Proof. unfold joinpath. intros H. now apply app_inj_tail in H. Qed.

Lemma joinpath_neq_self (p : path) (c : string) : joinpath p c <> p.
Proof.
  unfold joinpath. intros H. apply (f_equal (@length string)) in H.
  rewrite length_app in H. cbn in H. lia.
Qed.

Lemma is_child_joinpath (d : path) (c : string) : is_child d (joinpath d c) = true.
Proof.
  unfold is_child. destruct (joinpath d c) eqn:Hj.
  - unfold joinpath in Hj. now destruct d.
  - rewrite <- Hj, parent_joinpath. apply path_eqb_refl.
Qed.

Lemma is_child_length (d p : path) : is_child d p = true -> length p = S (length d).
Proof.
  unfold is_child. destruct p as [| x p']; [discriminate |].
  intros H. apply path_eqb_true in H. subst d. unfold parent.
  destruct (@exists_last _ (x :: p')) as (l & a & ->); [discriminate |].
  rewrite removelast_last, length_app. cbn. lia.
Qed.

Lemma lookup_app (f g : filesystem) (p : path) :
  FS.lookup (f ++ g) p
  = match FS.lookup f p with Some n => Some n | None => FS.lookup g p end.
Proof.
  unfold FS.lookup. induction f as [| e f IH]; [reflexivity |].
  cbn [app List.find]. destruct (path_eqb (fst e) p); [reflexivity | exact IH].
Qed.

Lemma lookup_remove (f : filesystem) (p q : path) :
  FS.lookup (FS.remove f p) q = if path_eqb p q then None else FS.lookup f q.
Proof.
  unfold FS.lookup, FS.remove. induction f as [| e f IH].
  - cbn. now destruct (path_eqb p q).
  - cbn [List.filter List.find].
    destruct (path_eqb (fst e) p) eqn:Hep; cbn [negb List.find].
    + rewrite IH. apply path_eqb_true in Hep. rewrite Hep.
      now destruct (path_eqb p q).
    + destruct (path_eqb (fst e) q) eqn:Heq; [| exact IH].
      destruct (path_eqb p q) eqn:Hpq; [| reflexivity].
      apply path_eqb_true in Heq, Hpq. apply path_eqb_false in Hep. congruence.
Qed.

Lemma lookup_single (p q : path) (n : node) :
  FS.lookup [(p, n)] q = if path_eqb p q then Some n else None.
Proof. unfold FS.lookup. cbn. now destruct (path_eqb p q). Qed.

Lemma remove_absent (f : filesystem) (p : path) :
  FS.lookup f p = None -> FS.remove f p = f.
Proof.
  unfold FS.lookup, FS.remove. induction f as [| e f IH]; [reflexivity |].
  cbn [List.find List.filter]. destruct (path_eqb (fst e) p); [discriminate |].
  intros H. cbn [negb]. now rewrite (IH H).
Qed.

Lemma remove_app (f g : filesystem) (p : path) :
  FS.remove (f ++ g) p = FS.remove f p ++ FS.remove g p.
Proof. unfold FS.remove. apply filter_app. Qed.

(** The filesystem operations raise nothing but [OSError]. *)
Lemma dir_access_OSError (f : filesystem) (d : path) (e : exn) :
  FS.dir_access f d = Raise e -> is_OSError e = true.
Proof.
  unfold FS.dir_access. destruct (FS.lookup f d) as [[c | [|]] |]; intros [= <-]; reflexivity.
Qed.

Lemma touch_OSError (p : path) (f : filesystem) (e : exn) :
  FS.touch p f = Raise e -> is_OSError e = true.
Proof.
  unfold FS.touch. destruct (FS.lookup f p); [discriminate |].
  destruct (FS.dir_access f (parent p)) eqn:Hd; cbn [rbind]; [discriminate |].
  intros [= <-]. eapply dir_access_OSError, Hd.
Qed.

Lemma unlink_OSError (p : path) (f : filesystem) (e : exn) :
  FS.unlink p f = Raise e -> is_OSError e = true.
Proof.
  unfold FS.unlink. destruct (FS.lookup f p) as [[c | w] |].
  - destruct (FS.dir_access f (parent p)) eqn:Hd; cbn [rbind]; [discriminate |].
    intros [= <-]. eapply dir_access_OSError, Hd.
  - intros [= <-]. reflexivity.
  - intros [= <-]. reflexivity.
Qed.

End Filesystem.

(** ** Construction: the write-permission probe *)

Section Probe.

Variable E : Env.

Lemma bind_inv {A B : Type} (m : M A) (k : A -> M B) (st st' : State) (r : result B) :
  bind m k st = (r, st') ->
  (exists a st1, m st = (OK a, st1) /\ k a st1 = (r, st'))
  \/ (exists e, m st = (Raise e, st') /\ r = Raise e).
Proof.
  unfold bind. destruct (m st) as [[a | e] st1].
  - intros H. left. now exists a, st1.
  - intros [= <- <-]. right. now exists e.
Qed.

Lemma set_fs_same (st : State) : set_fs (fs st) st = st.
Proof. now destruct st. Qed.

Lemma dir_access_grow (f g : filesystem) (d : path) :
  FS.dir_access f d = OK tt -> FS.dir_access (f ++ g) d = OK tt.
Proof.
  unfold FS.dir_access. rewrite lookup_app.
  destruct (FS.lookup f d) as [[c | [|]] |]; (discriminate || reflexivity).
Qed.

(** The [try] statement, outcome by outcome: it passes exactly when the
    probe name is not a directory and the terminal's directory can be
    written, and then leaves the filesystem without the probe; otherwise
    it raises the error about write permission and leaves the filesystem
    as it was. *)
Lemma check_write_permissions_run (terminal_path : path) (st : State) :
  let probe := Client.test_file terminal_path (uuid4_hex E (uuid_draws st)) in
  let st0 := set_uuid_draws (S (uuid_draws st)) st in
  Client.check_write_permissions E terminal_path st
  = match FS.lookup (fs st) probe, FS.dir_access (fs st) (parent terminal_path) with
    | Some (Dir _), _ => (Raise (not_writable E terminal_path), st0)
    | _, OK _ => (OK tt, set_fs (FS.remove (fs st) probe) st0)
    | _, Raise _ => (Raise (not_writable E terminal_path), st0)
    end.
Proof.
  cbv zeta.
  unfold Client.check_write_permissions, try_except, Client.uuid4, fs_do, bind, raise,
    not_writable.
  set (probe := Client.test_file terminal_path (uuid4_hex E (uuid_draws st))).
  assert (Hparent : parent probe = parent terminal_path)
    by apply parent_joinpath.
  destruct st as [f sp sm n tr out]. state_simpl.
  unfold FS.touch, FS.unlink. rewrite Hparent.
  destruct (FS.lookup f probe) as [[c | w] |] eqn:Hprobe; state_simpl.
  - rewrite Hprobe.
    destruct (FS.dir_access f (parent terminal_path)) as [[] | e] eqn:Hacc; cbn [rbind].
    + reflexivity.
    + now rewrite (dir_access_OSError _ _ _ Hacc).
  - rewrite Hprobe. reflexivity.
  - destruct (FS.dir_access f (parent terminal_path)) as [[] | e] eqn:Hacc; cbn [rbind].
    + state_simpl. rewrite lookup_app, Hprobe, lookup_single, path_eqb_refl.
      rewrite (dir_access_grow _ _ _ Hacc). cbn [rbind].
      rewrite remove_app. unfold FS.remove at 2. cbn [List.filter fst].
      rewrite path_eqb_refl. cbn [negb]. now rewrite app_nil_r.
    + now rewrite (dir_access_OSError _ _ _ Hacc).
Qed.

End Probe.

(** ** Construction: the scan for an existing duplicate *)

Section Scan.

Lemma listing_app (d : path) (f g : filesystem) :
  FS.listing d (f ++ g) = FS.listing d f ++ FS.listing d g.
Proof. unfold FS.listing. now rewrite filter_app, map_app. Qed.

Lemma listing_remove (d p : path) (f : filesystem) :
  is_child d p = false -> FS.listing d (FS.remove f p) = FS.listing d f.
Proof.
  intros Hp. unfold FS.listing, FS.remove. induction f as [| e f IH]; [reflexivity |].
  cbn [List.filter]. destruct (path_eqb (fst e) p) eqn:Hep; cbn [negb].
  - apply path_eqb_true in Hep. rewrite Hep, Hp. exact IH.
  - cbn [List.filter]. destruct (is_child d (fst e)); cbn [List.map]; now rewrite IH.
Qed.

Lemma listing_map (d : path) (f : filesystem) (upd : path * node -> path * node) :
  (forall e, fst (upd e) = fst e) ->
  FS.listing d (List.map upd f) = FS.listing d f.
Proof.
  intros Hupd. unfold FS.listing. induction f as [| e f IH]; [reflexivity |].
  cbn [List.map List.filter]. rewrite Hupd.
  destruct (is_child d (fst e)); cbn [List.map]; now rewrite ?Hupd, IH.
Qed.

Lemma listing_In (d q : path) (f : filesystem) :
  In q (FS.listing d f) -> is_child d q = true /\ FS.lookup f q <> None.
Proof.
  unfold FS.listing. rewrite in_map_iff. intros ([q' n] & <- & Hin).
  apply filter_In in Hin as [Hin Hchild]. split; [exact Hchild |].
  unfold FS.lookup. destruct (List.find _ f) eqn:Hfind; [discriminate |].
  apply (find_none _ _ Hfind) in Hin. cbn [fst] in Hin.
  now rewrite path_eqb_refl in Hin.
Qed.

Lemma listing_retarget (base src : path) (c : string) (f : filesystem) :
  FS.listing base (List.flat_map (FS.retarget src (joinpath base c)) f) = [].
Proof.
  unfold FS.listing. induction f as [| e f IH]; [reflexivity |].
  cbn [List.flat_map]. rewrite filter_app, map_app, IH, app_nil_r.
  unfold FS.retarget. destruct (strip_prefix src (fst e)) as [[| x rest] |]; try reflexivity.
  cbn [List.filter fst].
  destruct (is_child base (joinpath base c ++ x :: rest)) eqn:Hchild; [| reflexivity].
  apply is_child_length in Hchild. unfold joinpath in Hchild.
  rewrite !length_app in Hchild. cbn in Hchild. lia.
Qed.

Lemma is_dir_remove (f : filesystem) (p q : path) :
  FS.is_dir f p = false -> FS.is_dir (FS.remove f p) q = FS.is_dir f q.
Proof.
  unfold FS.is_dir. rewrite lookup_remove. intros Hp.
  destruct (path_eqb p q) eqn:Hpq; [| reflexivity].
  apply path_eqb_true in Hpq. subst q. now rewrite Hp.
Qed.

Lemma is_dir_app (f g : filesystem) (q : path) :
  FS.lookup f q <> None -> FS.is_dir (f ++ g) q = FS.is_dir f q.
Proof.
  unfold FS.is_dir. rewrite lookup_app. now destruct (FS.lookup f q).
Qed.

Lemma lookup_map_file (f : filesystem) (p q : path) (c : string) :
  FS.lookup (List.map (fun e => if path_eqb (fst e) p then (fst e, File c) else e) f) q
  = if path_eqb p q
    then match FS.lookup f q with Some _ => Some (File c) | None => None end
    else FS.lookup f q.
Proof.
  unfold FS.lookup. induction f as [| e f IH].
  - cbn. now destruct (path_eqb p q).
  - cbn [List.map List.find].
    destruct (path_eqb (fst e) p) eqn:Hep; cbn [fst].
    + apply path_eqb_true in Hep. rewrite Hep.
      destruct (path_eqb p q) eqn:Hpq; [reflexivity | exact IH].
    + destruct (path_eqb (fst e) q) eqn:Heq; [| exact IH].
      destruct (path_eqb p q) eqn:Hpq; [| reflexivity].
      apply path_eqb_true in Heq, Hpq. apply path_eqb_false in Hep. congruence.
Qed.

(** Neither the kind of an entry nor the listing of a directory changes
    when a header is written into a file. *)
Lemma prepend_keeps (linesep : string) (p : path) (header : string) (f f' : filesystem) :
  FS.prepend linesep p header f = OK f' ->
  (forall q, FS.is_dir f' q = FS.is_dir f q)
  /\ (forall q, FS.lookup f' q = None <-> FS.lookup f q = None)
  /\ (forall d, FS.listing d f' = FS.listing d f).
Proof.
  unfold FS.prepend. destruct (FS.lookup f p) as [[c | w] |] eqn:Hp; try discriminate.
  destruct (utf8_valid c); [| discriminate].
  intros [= <-]. repeat split.
  - intros q. unfold FS.is_dir. rewrite lookup_map_file.
    destruct (path_eqb p q) eqn:Hpq; [| reflexivity].
    apply path_eqb_true in Hpq. subst q. now rewrite Hp.
  - rewrite lookup_map_file. destruct (path_eqb p q); [| tauto].
    now destruct (FS.lookup f q).
  - rewrite lookup_map_file. intros ->. now destruct (path_eqb p q).
  - intros d. apply listing_map. intros e. now destruct (path_eqb (fst e) p).
Qed.

(** The scan depends only on the listing of [base] and on which of its
    entries are directories. *)
Lemma duplicates_same (f f' : filesystem) (base : path) :
  FS.listing base f' = FS.listing base f ->
  (forall q, In q (FS.listing base f) -> FS.is_dir f' q = FS.is_dir f q) ->
  duplicates f' base = duplicates f base.
Proof.
  intros Hlist Hdir. unfold duplicates. rewrite Hlist.
  apply filter_ext_in. intros q Hq. unfold is_duplicate. now rewrite (Hdir q Hq).
Qed.

Lemma is_child_self (d : path) : is_child d d = false.
Proof.
  destruct (is_child d d) eqn:H; [| reflexivity].
  apply is_child_length in H. lia.
Qed.

Lemma is_child_sibling (d : path) (a b : string) :
  is_child (joinpath d a) (joinpath d b) = false.
Proof.
  destruct (is_child _ _) eqn:H; [| reflexivity].
  apply is_child_length in H. unfold joinpath in H. rewrite !length_app in H. cbn in H. lia.
Qed.

End Scan.

(** ** Construction, statement by statement *)

Section Steps.

Variable E : Env.

Lemma probe_not_in_isolation_dir (terminal_path : path) (hex : string) :
  is_child (isolation_dir terminal_path) (Client.test_file terminal_path hex) = false.
Proof. apply is_child_sibling. Qed.

Lemma probed_refused (terminal_path : path) (st : State) :
  probed E terminal_path st (Raise (not_writable E terminal_path))
    (set_uuid_draws (S (uuid_draws st)) st).
Proof.
  unfold probed. state_simpl. repeat split; try reflexivity; try discriminate.
  congruence.
Qed.

Lemma probed_passed (terminal_path : path) (st : State) :
  let probe := Client.test_file terminal_path (uuid4_hex E (uuid_draws st)) in
  FS.is_dir (fs st) probe = false ->
  FS.dir_access (fs st) (parent terminal_path) = OK tt ->
  probed E terminal_path st (OK tt)
    (set_fs (FS.remove (fs st) probe) (set_uuid_draws (S (uuid_draws st)) st)).
Proof.
  cbv zeta. intros Hkind Hacc. unfold probed. state_simpl.
  repeat split; try reflexivity; try discriminate.
  - intros q. now apply is_dir_remove.
  - intros q Hq. rewrite lookup_remove.
    destruct (path_eqb _ q) eqn:Hpq; [| reflexivity].
    apply path_eqb_true in Hpq. congruence.
  - apply listing_remove, probe_not_in_isolation_dir.
  - rewrite lookup_remove. now rewrite path_eqb_refl.
  - exact Hacc.
Qed.

Lemma check_write_permissions_effect (terminal_path : path) (st st1 : State)
    (r : result unit) :
  Client.check_write_permissions E terminal_path st = (r, st1) ->
  probed E terminal_path st r st1.
Proof.
  rewrite check_write_permissions_run. cbv zeta.
  destruct (FS.lookup (fs st) _) as [[c | w] |] eqn:Hprobe;
    [ | intros [= <- <-]; apply probed_refused | ];
    (destruct (FS.dir_access (fs st) (parent terminal_path)) as [[] | e] eqn:Hacc;
     [ intros [= <- <-]; apply probed_passed;
       [unfold FS.is_dir; now rewrite Hprobe | exact Hacc]
     | intros [= <- <-]; apply probed_refused ]).
Qed.

(** [mkdir(exist_ok=True)] on the isolation directory *)
Lemma mkdir_effect (base : path) (st st1 : State) (r : result unit) :
  fs_do (FS.mkdir_exist_ok base) st = (r, st1) ->
  (r = OK tt ->
     FS.is_dir (fs st1) base = true
     /\ (fs st1 = fs st
         \/ (FS.lookup (fs st) base = None /\ fs st1 = fs st ++ [(base, Dir true)])))
  /\ (forall e, r = Raise e -> st1 = st)
  /\ sys_path st1 = sys_path st
  /\ sys_modules st1 = sys_modules st
  /\ uuid_draws st1 = uuid_draws st
  /\ trace st1 = trace st
  /\ stdout st1 = stdout st.
Proof.
  unfold fs_do, FS.mkdir_exist_ok.
  destruct (FS.lookup (fs st) base) as [[c | w] |] eqn:Hbase.
  - intros [= <- <-]. repeat split; discriminate || reflexivity.
  - intros [= <- <-]. state_simpl. repeat split; try discriminate; try reflexivity.
    + unfold FS.is_dir. now rewrite Hbase.
    + now left.
  - destruct (FS.dir_access (fs st) (parent base)) as [[] | e]; cbn [rbind].
    + intros [= <- <-]. state_simpl. repeat split; try discriminate; try reflexivity.
      * unfold FS.is_dir. now rewrite lookup_app, Hbase, lookup_single, path_eqb_refl.
      * right. now split.
    + intros [= <- <-]. repeat split; discriminate || reflexivity.
Qed.

Lemma existing_modules_run (base : path) (st : State) :
  FS.is_dir (fs st) base = true ->
  Client.existing_modules base st = (OK (duplicates (fs st) base), st).
Proof.
  unfold FS.is_dir, Client.existing_modules, bind, gets, ret, FS.iterdir.
  destruct (FS.lookup (fs st) base) as [[c | w] |]; try discriminate.
  reflexivity.
Qed.

Lemma import_effect (name : string) (st st1 : State) (r : result pymodule) :
  Client.import_ E name st = (r, st1) ->
  fs st1 = fs st
  /\ sys_path st1 = sys_path st
  /\ stdout st1 = stdout st
  /\ (trace st1 = trace st \/ trace st1 = trace st ++ [ReqImport name])
  /\ (forall m, r = OK m -> sys_modules st1 !! name = Some m)
  /\ (forall q, q <> name -> sys_modules st1 !! q = sys_modules st !! q).
Proof.
  unfold Client.import_, Client.call, Client.ask, gets, modify, bind, ret, raise.
  destruct (sys_modules st !! name) as [m |] eqn:Hreg.
  - intros [= <- <-]. repeat split; try reflexivity.
    + now left.
    + now intros m' [= <-].
  - destruct (vendor E (trace st) (ReqImport name)) as [v | f]; state_simpl.
    + intros [= <- <-]. state_simpl. repeat split; try reflexivity.
      * now right.
      * intros m' [= <-]. apply lookup_insert_eq.
      * intros q Hq. now apply lookup_insert_ne.
    + intros [= <- <-]. state_simpl. repeat split; try reflexivity.
      * now right.
      * discriminate.
Qed.

End Steps.

(** ** Construction: making the duplicate *)

Section Duplicate.

Variable E : Env.

(** Nothing that [copytree] writes lies at the depth of its target's
    siblings or above. *)
Lemma lookup_copies (src dst q : path) (f : filesystem) :
  length q <= length dst ->
  FS.lookup (List.flat_map (FS.retarget src dst) f) q = None.
Proof.
  intros Hlen. unfold FS.lookup.
  destruct (List.find _ _) as [e |] eqn:Hfind; [exfalso | reflexivity].
  apply find_some in Hfind as [Hin Heq]. apply path_eqb_true in Heq.
  apply in_flat_map in Hin as (e0 & _ & Hin). unfold FS.retarget in Hin.
  destruct (strip_prefix src (fst e0)) as [[| c rest] |]; try contradiction.
  destruct Hin as [<- | []]. cbn [fst] in Heq. subst q.
  rewrite length_app in Hlen. cbn in Hlen. lia.
Qed.

(** [copytree] into a fresh directory of [base]: the entries that existed
    keep their kind, [base] lists one entry more, the new directory. *)
Lemma copytree_effect (src base : path) (c : string) (f f' : filesystem) :
  let dst := joinpath base c in
  FS.copytree src dst f = OK f' ->
  FS.lookup f dst = None
  /\ FS.is_dir f' dst = true
  /\ (forall q, FS.lookup f q <> None -> FS.lookup f' q = FS.lookup f q)
  /\ (forall q, length q <= length base -> FS.lookup f' q = FS.lookup f q)
  /\ FS.listing base f' = FS.listing base f ++ [dst].
Proof.
  cbv zeta. unfold FS.copytree.
  destruct (FS.lookup f src) as [[content | w] |]; try discriminate.
  destruct (FS.lookup f (joinpath base c)) eqn:Hdst; [discriminate |].
  destruct (FS.dir_access f (parent (joinpath base c))) as [[] | e]; cbn [rbind];
    [| discriminate].
  intros [= <-]. repeat split.
  - unfold FS.is_dir. rewrite lookup_app, Hdst.
    unfold FS.lookup. cbn [List.find fst snd]. now rewrite path_eqb_refl.
  - intros q Hq. rewrite lookup_app. now destruct (FS.lookup f q).
  - intros q Hq. rewrite lookup_app. destruct (FS.lookup f q); [reflexivity |].
    change ((joinpath base c, Dir true) :: List.flat_map (FS.retarget src (joinpath base c)) f)
      with ([(joinpath base c, Dir true)]
            ++ List.flat_map (FS.retarget src (joinpath base c)) f).
    rewrite lookup_app, lookup_single.
    destruct (path_eqb (joinpath base c) q) eqn:Heq.
    + apply path_eqb_true in Heq. subst q. unfold joinpath in Hq.
      rewrite length_app in Hq. cbn in Hq. lia.
    + apply lookup_copies. unfold joinpath. rewrite length_app. cbn. lia.
  - change ((joinpath base c, Dir true) :: List.flat_map (FS.retarget src (joinpath base c)) f)
      with ([(joinpath base c, Dir true)]
            ++ List.flat_map (FS.retarget src (joinpath base c)) f).
    rewrite !listing_app, listing_retarget, app_nil_r. f_equal.
    unfold FS.listing. cbn [List.filter fst]. now rewrite is_child_joinpath.
Qed.

Lemma prefix_append (a b : string) : String.prefix a (a +:+ b) = true.
Proof.
  induction a as [| x a IH].
  - now destruct b.
  - change (String x a +:+ b) with (String x (a +:+ b)). cbn [String.prefix].
    destruct (Ascii.ascii_dec x x) as [_ | Hne]; [exact IH | contradiction].
Qed.

(** The [else] branch, when it succeeds: the new duplicate is a directory
    of [base] named [MetaTrader5_...] that did not exist; it is the one
    entry that [base] lists in addition; nothing that existed changes its
    kind, and nothing appears beside [base] or above. *)
Lemma copy_official_module_effect (base module_dir : path) (module_name : string)
    (module_id : option string) (st st1 : State) :
  Client.copy_official_module E base st = (OK (module_dir, module_name, module_id), st1) ->
  module_dir = joinpath base module_name
  /\ String.prefix (OFFICIAL_MODULE_NAME +:+ "_") module_name = true
  /\ FS.lookup (fs st) module_dir = None
  /\ FS.is_dir (fs st1) module_dir = true
  /\ (forall q, FS.lookup (fs st) q <> None -> FS.is_dir (fs st1) q = FS.is_dir (fs st) q)
  /\ (forall q, length q <= length base ->
                (FS.lookup (fs st1) q = None <-> FS.lookup (fs st) q = None)
                /\ FS.is_dir (fs st1) q = FS.is_dir (fs st) q)
  /\ FS.listing base (fs st1) = FS.listing base (fs st) ++ [module_dir]
  /\ sys_path st1 = sys_path st
  /\ sys_modules st1 = sys_modules st
  /\ trace st1 = trace st
  /\ stdout st1 = stdout st.
Proof.
  unfold Client.copy_official_module, Client.uuid4, Client.add_ignore_comments.
  intros H. apply bind_inv in H as [(hex & st0 & [= <- <-] & H) | (e & _ & Habs)];
    [| discriminate].
  destruct (find_spec E OFFICIAL_MODULE_NAME) as [[[official_origin |]] |];
    try discriminate.
  set (name := OFFICIAL_MODULE_NAME +:+ "_"
               +:+ replace_char "-" "_" (uuid_str (uuid4_hex E (uuid_draws st)))) in *.
  apply bind_inv in H as [([] & sa & Hcopy & H) | (e & _ & Habs)]; [| discriminate].
  apply bind_inv in H as [([] & sb & Hpre & H) | (e & _ & Habs)]; [| discriminate].
  injection H as <- <- <- <-.
  unfold fs_do in Hcopy, Hpre. state_simpl.
  destruct (FS.copytree _ _ (fs st)) as [fa |] eqn:Hfa; [| discriminate].
  injection Hcopy as <-. state_simpl.
  destruct (FS.prepend _ _ _ fa) as [fb |] eqn:Hfb; [| discriminate].
  injection Hpre as <-. state_simpl.
  apply copytree_effect in Hfa as (Hfresh & Hdir & Hold & Habove & Hlist).
  apply prepend_keeps in Hfb as (Hkind & Hnone & Hlisting).
  repeat split; try reflexivity.
  - apply (prefix_append (OFFICIAL_MODULE_NAME +:+ "_")).
  - exact Hfresh.
  - now rewrite Hkind.
  - intros q Hq. rewrite Hkind. unfold FS.is_dir. now rewrite (Hold q Hq).
  - rewrite Hnone. now rewrite (Habove q).
  - rewrite Hnone. now rewrite (Habove q).
  - rewrite Hkind. unfold FS.is_dir. now rewrite (Habove q).
  - now rewrite Hlisting.
Qed.

End Duplicate.

(** ** Construction: [__copy_and_import_official_module__] as a whole *)

Section Isolation.

Variable E : Env.

Lemma probe_neq_isolation_dir (terminal_path : path) (hex : string) :
  Client.test_file terminal_path hex <> isolation_dir terminal_path.
Proof.
  unfold Client.test_file, isolation_dir. intros H. apply joinpath_inj in H.
  apply (f_equal String.length) in H. rewrite length_append in H. cbn in H. lia.
Qed.

Lemma probe_length (terminal_path : path) (hex : string) :
  length (Client.test_file terminal_path hex) = length (isolation_dir terminal_path).
Proof.
  unfold Client.test_file, isolation_dir, joinpath. now rewrite !length_app.
Qed.

(** Creating the isolation directory does not change the scan. *)
Lemma mkdir_keeps_duplicates (base : path) (st st1 : State) :
  fs_do (FS.mkdir_exist_ok base) st = (OK tt, st1) ->
  duplicates (fs st1) base = duplicates (fs st) base
  /\ (forall q, q <> base -> FS.lookup (fs st1) q = FS.lookup (fs st) q)
  /\ (forall q, q <> base -> FS.is_dir (fs st1) q = FS.is_dir (fs st) q).
Proof.
  intros H. apply mkdir_effect in H as (Hok & _).
  destruct (Hok eq_refl) as (_ & [-> | (Hnone & ->)]); [now repeat split |].
  assert (Hlookup : forall q, q <> base ->
            FS.lookup (fs st ++ [(base, Dir true)]) q = FS.lookup (fs st) q).
  { intros q Hq. rewrite lookup_app, lookup_single.
    destruct (FS.lookup (fs st) q); [reflexivity |].
    destruct (path_eqb base q) eqn:Heq; [| reflexivity].
    apply path_eqb_true in Heq. congruence. }
  repeat split; [| exact Hlookup | intros q Hq; unfold FS.is_dir; now rewrite Hlookup].
  apply duplicates_same.
  - rewrite listing_app. unfold FS.listing at 2. cbn [List.filter fst].
    rewrite is_child_self. cbn. apply app_nil_r.
  - intros q Hq. apply listing_In in Hq as [_ Hq]. now apply is_dir_app.
Qed.

(** The isolation that a successful run establishes. *)
Lemma copy_and_import_OK (terminal_path : path) (st st1 : State) (iso : Client.isolation) :
  let base := isolation_dir terminal_path in
  let probe := Client.test_file terminal_path (uuid4_hex E (uuid_draws st)) in
  Client.copy_and_import_official_module E terminal_path st = (OK iso, st1) ->
  Client.iso_base_module_dir iso = base
  /\ Client.iso_module_name iso = path_name (Client.iso_module_dir iso)
  /\ FS.is_dir (fs st1) base = true
  /\ (exists rest,
        duplicates (fs st1) base = Client.iso_module_dir iso :: rest
        /\ (duplicates (fs st) base = [] /\ rest = []
            \/ duplicates (fs st) base = Client.iso_module_dir iso :: rest))
  /\ FS.lookup (fs st1) probe = None
  /\ FS.dir_access (fs st) (parent terminal_path) = OK tt
  /\ sys_path st1 = sys_path st ++ [Client.path_str E base]
  /\ sys_modules st1 !! Client.iso_module_name iso = Some (Client.iso_official iso)
  /\ (trace st1 = trace st
      \/ trace st1 = trace st ++ [ReqImport (Client.iso_module_name iso)])
  /\ stdout st1 = stdout st.
Proof.
  cbv zeta. unfold Client.copy_and_import_official_module. fold (isolation_dir terminal_path).
  set (base := isolation_dir terminal_path).
  set (probe := Client.test_file terminal_path (uuid4_hex E (uuid_draws st))).
  intros H.
  apply bind_inv in H as [([] & sa & Hcheck & H) | (e & _ & Habs)]; [| discriminate].
  apply check_write_permissions_effect in Hcheck
    as (Hkind_a & Hlook_a & Hlist_a & Hsp_a & Hsm_a & Htr_a & Hout_a & Hpass & _).
  destruct (Hpass eq_refl) as [Hgone Hacc]. fold probe in Hgone, Hlook_a.
  apply bind_inv in H as [([] & sb & Hmk & H) | (e & _ & Habs)]; [| discriminate].
  pose proof (mkdir_keeps_duplicates _ _ _ Hmk) as (Hdup_b & Hlook_b & Hkind_b).
  apply mkdir_effect in Hmk as (Hbase & _ & Hsp_b & Hsm_b & _ & Htr_b & Hout_b).
  destruct (Hbase eq_refl) as [Hbase_dir _].
  rewrite (bind_OK _ _ _ _ _ (existing_modules_run _ _ Hbase_dir)) in H.
  assert (Hprobe_b : FS.lookup (fs sb) probe = None).
  { rewrite Hlook_b; [exact Hgone | apply probe_neq_isolation_dir]. }
  apply bind_inv in H as [([[module_dir module_name] module_id] & sc & Hfound & H)
                         | (e & _ & Habs)]; [| discriminate].
  unfold bind, modify in H. state_simpl.
  destruct (Client.import_ E module_name _) as [[m | e] sd] eqn:Himport; [| discriminate].
  injection H as <- <-.
  apply import_effect in Himport as (Hfs_d & Hsp_d & Hout_d & Htr_d & Hreg & _).
  state_simpl. cbn [Client.iso_base_module_dir Client.iso_module_name
                    Client.iso_module_dir Client.iso_official].
  rewrite Hfs_d, Hsp_d, Hout_d.
  assert (Hfinish :
    Client.iso_module_name (Client.mkIsolation base module_dir module_name module_id m)
    = module_name) by reflexivity.
  assert (Hdup_a : duplicates (fs sa) base = duplicates (fs st) base)
    by (apply duplicates_same; [exact Hlist_a | intros; apply Hkind_a]).
  rewrite Hdup_a in Hdup_b.
  destruct (duplicates (fs sb) base) as [| d rest] eqn:Hdup.
  - apply copy_official_module_effect in Hfound
      as (-> & Hprefix & Hfresh & Hdir & Hold & Habove & Hlist & Hsp_c & Hsm_c & Htr_c
          & Hout_c).
    repeat split.
    + now rewrite path_name_joinpath.
    + rewrite (proj2 (Habove base (Nat.le_refl _))). exact Hbase_dir.
    + exists []. split; [| left; split; congruence]. unfold duplicates. rewrite Hlist, filter_app.
      replace (List.filter (is_duplicate (fs sc)) (FS.listing base (fs sb))) with (@nil path).
      * cbn [List.filter app]. unfold is_duplicate.
        now rewrite Hdir, path_name_joinpath, Hprefix.
      * rewrite <- Hdup. unfold duplicates. apply filter_ext_in. intros q Hq.
        apply listing_In in Hq as [_ Hq]. unfold is_duplicate. now rewrite (Hold q Hq).
    + apply (proj1 (Habove probe (Nat.eq_le_incl _ _ (probe_length _ _)))). exact Hprobe_b.
    + exact Hacc.
    + congruence.
    + now apply Hreg.
    + destruct Htr_d as [-> | ->]; [left | right]; congruence.
    + congruence.
  - injection Hfound as <- <- <- <-.
    repeat split.
    + exact Hbase_dir.
    + exists rest. split; [exact Hdup | right; congruence].
    + exact Hprobe_b.
    + exact Hacc.
    + congruence.
    + now apply Hreg.
    + destruct Htr_d as [-> | ->]; [left | right]; congruence.
    + congruence.
Qed.

(** From a state in which the isolation directory holds a duplicate, a run
    makes no entry and changes no kind, whatever its outcome; when it
    succeeds, the isolation is the first duplicate of the scan. *)
Lemma copy_and_import_reuses (terminal_path d : path) (rest : list path)
    (st st1 : State) (r : result Client.isolation) :
  let base := isolation_dir terminal_path in
  FS.is_dir (fs st) base = true ->
  duplicates (fs st) base = d :: rest ->
  Client.copy_and_import_official_module E terminal_path st = (r, st1) ->
  (forall q, FS.is_dir (fs st1) q = FS.is_dir (fs st) q)
  /\ (forall q, FS.lookup (fs st1) q <> None -> FS.lookup (fs st) q <> None)
  /\ duplicates (fs st1) base = d :: rest
  /\ (forall iso, r = OK iso ->
                  Client.iso_base_module_dir iso = base
                  /\ Client.iso_module_dir iso = d
                  /\ Client.iso_module_name iso = path_name d
                  /\ Client.iso_module_id iso = None).
Proof.
  cbv zeta. unfold Client.copy_and_import_official_module. fold (isolation_dir terminal_path).
  set (base := isolation_dir terminal_path).
  intros Hbase Hdup H.
  destruct (Client.check_write_permissions E terminal_path st) as [rc sa] eqn:Hcheck.
  pose proof (check_write_permissions_effect _ _ _ _ _ Hcheck)
    as (Hkind_a & Hlook_a & Hlist_a & _).
  assert (Hentries_a : forall q, FS.lookup (fs sa) q <> None -> FS.lookup (fs st) q <> None).
  { intros q Hq.
    destruct (path_eqb q (Client.test_file terminal_path (uuid4_hex E (uuid_draws st))))
      eqn:Heq.
    - apply path_eqb_true in Heq. subst q.
      destruct rc as [[] | e].
      + pose proof (check_write_permissions_effect _ _ _ _ _ Hcheck)
          as (_ & _ & _ & _ & _ & _ & _ & Hpass & _).
        destruct (Hpass eq_refl) as [Hgone _]. contradiction.
      + pose proof (check_write_permissions_effect _ _ _ _ _ Hcheck)
          as (_ & _ & _ & _ & _ & _ & _ & _ & Hfail).
        destruct (Hfail e eq_refl) as [_ Hfs]. now rewrite <- Hfs.
    - apply path_eqb_false in Heq. now rewrite <- (Hlook_a q Heq). }
  assert (Hdup_a : duplicates (fs sa) base = d :: rest).
  { rewrite <- Hdup. apply duplicates_same; [exact Hlist_a | intros; apply Hkind_a]. }
  unfold bind at 1 in H. rewrite Hcheck in H.
  destruct rc as [[] | e]; [| injection H as <- <-; repeat split; auto; discriminate].
  assert (Hmk : fs_do (FS.mkdir_exist_ok base) sa = (OK tt, sa)).
  { unfold fs_do, FS.mkdir_exist_ok. rewrite <- Hkind_a in Hbase. unfold FS.is_dir in Hbase.
    destruct (FS.lookup (fs sa) base) as [[c | w] |]; try discriminate.
    now rewrite set_fs_same. }
  rewrite (bind_OK _ _ _ _ _ Hmk) in H.
  rewrite <- Hkind_a in Hbase.
  rewrite (bind_OK _ _ _ _ _ (existing_modules_run _ _ Hbase)) in H.
  rewrite Hdup_a in H. unfold bind, ret, modify in H. state_simpl.
  destruct (Client.import_ E (path_name d) _) as [[m | e] sd] eqn:Himport;
    injection H as <- <-;
    apply import_effect in Himport as (Hfs_d & _); state_simpl; rewrite Hfs_d;
    repeat split; auto; try discriminate.
  all: match goal with H : OK _ = OK _ |- _ => injection H as <- end; reflexivity.
Qed.

End Isolation.

(** ** Construction: [__init__] *)

Section Construction.

Variable E : Env.

Variables (terminal_path : path) (account_number : Z) (password server : string)
  (timeout : Z).

(** [__init__] on a terminal path that does not exist. *)
Lemma init_missing (st : State) :
  FS.exists_ (fs st) terminal_path = false ->
  Client.init E terminal_path account_number password server timeout st
  = (Raise (InitializeError
              [ArgStr ("Terminal path " +:+ Client.path_str E terminal_path
                       +:+ " does not exist")]),
     st).
Proof.
  intros Hmissing. unfold Client.init, gets, bind, raise. now rewrite Hmissing.
Qed.

(** [__init__] on an existing terminal path, outcome by outcome. *)
Lemma init_run (st : State) :
  FS.exists_ (fs st) terminal_path = true ->
  Client.init E terminal_path account_number password server timeout st
  = match Client.copy_and_import_official_module E terminal_path st with
    | (Raise e, s0) => (Raise e, s0)
    | (OK iso, s0) =>
        let req := initialize_request E (Client.iso_official iso) terminal_path
                     account_number password server timeout in
        let s1 := set_trace (trace s0 ++ [req]) s0 in
        match vendor E (trace s0) req with
        | inr f => (Raise (VendorError f), s1)
        | inl ok =>
            if Py.truthy ok
            then (OK (client_of terminal_path account_number server timeout iso),
                  set_stdout (stdout s1 ++ [initialized_message]) s1)
            else match Client.last_error E (Client.iso_official iso) s1 with
                 | (OK e, s2) => (Raise (initialize_failed e), s2)
                 | (Raise e, s2) => (Raise e, s2)
                 end
        end
    end.
Proof.
  intros Hexists. unfold Client.init, gets. unfold bind at 1. rewrite Hexists. cbn [negb].
  unfold bind at 1.
  destruct (Client.copy_and_import_official_module E terminal_path st) as [[iso | e] s0];
    [| reflexivity].
  cbv zeta. unfold bind at 1, Client.call, Client.ask, bind at 1, initialize_request.
  destruct (vendor E (trace s0) _) as [ok | f]; [| reflexivity].
  unfold ret at 1. destruct (Py.truthy ok); cbn [negb].
  - reflexivity.
  - unfold bind at 1. now destruct (Client.last_error E _ _) as [[e | e] s2].
Qed.

(** [__init__] changes the filesystem, [sys.path] and [sys.modules] only
    through [__copy_and_import_official_module__]. *)
Lemma init_after_isolation (st st1 : State) (r : result Client.t) :
  FS.exists_ (fs st) terminal_path = true ->
  Client.init E terminal_path account_number password server timeout st = (r, st1) ->
  exists r0 s0,
    Client.copy_and_import_official_module E terminal_path st = (r0, s0)
    /\ fs st1 = fs s0 /\ sys_path st1 = sys_path s0 /\ sys_modules st1 = sys_modules s0
    /\ (forall e, r0 = Raise e -> r = Raise e)
    /\ (forall c, r = OK c ->
          exists iso, r0 = OK iso
                      /\ c = client_of terminal_path account_number server timeout iso).
Proof.
  intros Hexists. rewrite (init_run _ Hexists).
  destruct (Client.copy_and_import_official_module E terminal_path st) as [[iso | e] s0].
  - cbv zeta. intros H. exists (OK iso), s0. split; [reflexivity |].
    destruct (vendor E (trace s0) _) as [ok | f].
    + destruct (Py.truthy ok).
      * injection H as <- <-. state_simpl. repeat split; try discriminate.
        intros c [= <-]. now exists iso.
      * pose proof (call_state E (ReqLastError (Client.iso_official iso))
                      (set_trace (trace s0 ++ [initialize_request E (Client.iso_official iso)
                                                 terminal_path account_number password
                                                 server timeout]) s0)) as Hstate.
        unfold Client.last_error in H. unfold bind at 1 in H.
        destruct (Client.call E _ _) as [[v | e] s2]; cbn [snd] in Hstate; subst s2.
        -- unfold bind, lift, ret in H.
           destruct (getitem v 0); [destruct (getitem v 1) |];
             injection H as <- <-; state_simpl; repeat split; discriminate.
        -- injection H as <- <-. state_simpl. repeat split; discriminate.
    + injection H as <- <-. state_simpl. repeat split; discriminate.
  - intros [= <- <-]. exists (Raise e), s0. repeat split; try discriminate.
    now intros e' [= <-].
Qed.

End Construction.

Section ConstructionProperties.

Variable E : Env.

Variables (terminal_path : path) (account_number : Z) (password server : string)
  (timeout : Z).

(** C6. Whatever the account number, password, server and timeout, a
    construction with a terminal path that does not exist raises
    [InitializeError]; nothing else has happened by then. *)
Theorem missing_terminal_path (st : State) :
  FS.exists_ (fs st) terminal_path = false ->
  Client.init E terminal_path account_number password server timeout st
  = (Raise (InitializeError
              [ArgStr ("Terminal path " +:+ Client.path_str E terminal_path
                       +:+ " does not exist")]),
     st).
Proof. apply init_missing. Qed.

(** A construction whose [initialize] reports failure, to the end. *)
Lemma init_fails (st s0 : State) (iso : Client.isolation) (answer code description : Py.value) :
  let req := initialize_request E (Client.iso_official iso) terminal_path account_number
               password server timeout in
  FS.exists_ (fs st) terminal_path = true ->
  Client.copy_and_import_official_module E terminal_path st = (OK iso, s0) ->
  vendor E (trace s0) req = inl answer ->
  Py.truthy answer = false ->
  vendor E (trace s0 ++ [req]) (ReqLastError (Client.iso_official iso))
    = inl (Py.Tuple [code; description]) ->
  Client.init E terminal_path account_number password server timeout st
  = (Raise (initialize_failed (mkMT5LastError code description)),
     set_trace (trace s0 ++ [req; ReqLastError (Client.iso_official iso)]) s0).
Proof.
  cbv zeta. intros Hexists Hiso Hans Hfalse Herr.
  rewrite (init_run _ _ _ _ _ _ _ Hexists), Hiso. cbv zeta. rewrite Hans, Hfalse.
  rewrite (last_error_pair E _ _ code description) by exact Herr.
  state_simpl. now rewrite <- app_assoc.
Qed.

(** C5. When the vendor module's [initialize] returns false, the
    construction raises [InitializeError] carrying the last error fetched
    at that moment, so no client is returned; and the requests that this
    construction has made are the import of the duplicate (if it was not
    registered yet), [initialize] and [last_error]: neither [login] nor
    [account_info] is among them. *)
Theorem initialize_failure_raises (st s0 : State) (iso : Client.isolation)
    (answer code description : Py.value) :
  let req := initialize_request E (Client.iso_official iso) terminal_path account_number
               password server timeout in
  FS.exists_ (fs st) terminal_path = true ->
  Client.copy_and_import_official_module E terminal_path st = (OK iso, s0) ->
  vendor E (trace s0) req = inl answer ->
  Py.truthy answer = false ->
  vendor E (trace s0 ++ [req]) (ReqLastError (Client.iso_official iso))
    = inl (Py.Tuple [code; description]) ->
  exists st1 made,
    Client.init E terminal_path account_number password server timeout st
    = (Raise (initialize_failed (mkMT5LastError code description)), st1)
    /\ trace st1 = trace st ++ made
    /\ (made = [req; ReqLastError (Client.iso_official iso)]
        \/ made = [ReqImport (Client.iso_module_name iso); req;
                   ReqLastError (Client.iso_official iso)])
    /\ existsb session_request made = false.
Proof.
  cbv zeta. intros Hexists Hiso Hans Hfalse Herr.
  rewrite (init_fails _ _ _ _ _ _ Hexists Hiso Hans Hfalse Herr).
  apply copy_and_import_OK in Hiso as (_ & _ & _ & _ & _ & _ & _ & _ & Htrace & _).
  eexists. destruct Htrace as [Htr | Htr].
  - eexists. split; [reflexivity |]. state_simpl. rewrite Htr.
    split; [reflexivity |]. split; [now left | reflexivity].
  - eexists. split; [reflexivity |]. state_simpl. rewrite Htr, <- app_assoc.
    split; [reflexivity |]. split; [now right | reflexivity].
Qed.



End ConstructionProperties.

(** ** One duplicate per terminal install *)

Section Reuse.

Variable E : Env.

Lemma isolation_dir_parent (p q : path) :
  parent p = parent q -> isolation_dir p = isolation_dir q.
Proof. unfold isolation_dir. now intros ->. Qed.

(** A construction that returns a client found its terminal path. *)
Lemma init_OK_exists (terminal_path : path) (account_number : Z) (password server : string)
    (timeout : Z) (st st1 : State) (c : Client.t) :
  Client.init E terminal_path account_number password server timeout st = (OK c, st1) ->
  FS.exists_ (fs st) terminal_path = true.
Proof.
  intros H. destruct (FS.exists_ (fs st) terminal_path) eqn:Hexists; [reflexivity |].
  rewrite (init_missing E _ _ _ _ _ _ Hexists) in H. discriminate.
Qed.

(** Once a run of [__copy_and_import_official_module__] has succeeded for
    an install, a construction on any later state with the same filesystem
    makes no entry, and a client it returns has the directory and name of
    that run. *)
Lemma construction_after_isolation
    (first : path) (s s0 : State) (iso : Client.isolation)
    (terminal_path : path) (account_number : Z) (password server : string) (timeout : Z)
    (st st1 : State) (r : result Client.t) :
  Client.copy_and_import_official_module E first s = (OK iso, s0) ->
  parent terminal_path = parent first ->
  fs st = fs s0 ->
  Client.init E terminal_path account_number password server timeout st = (r, st1) ->
  (forall q, FS.is_dir (fs st1) q = FS.is_dir (fs st) q)
  /\ (forall q, FS.lookup (fs st1) q <> None -> FS.lookup (fs st) q <> None)
  /\ (forall c, r = OK c ->
        Client.base_module_dir c = Client.iso_base_module_dir iso
        /\ Client.module_dir c = Client.iso_module_dir iso
        /\ Client.module_name c = Client.iso_module_name iso
        /\ Client.module_id c = None).
Proof.
  intros Hfirst Hparent Hfs Hinit.
  apply copy_and_import_OK in Hfirst
    as (Hbase & Hname & Hdir & (rest & Hdup & _) & _).
  rewrite <- (isolation_dir_parent _ _ Hparent), <- Hfs in Hdir, Hdup.
  rewrite <- (isolation_dir_parent _ _ Hparent) in Hbase.
  destruct (FS.exists_ (fs st) terminal_path) eqn:Hexists.
  - apply (init_after_isolation _ _ _ _ _ _ _ _ _ Hexists) in Hinit
      as (r0 & s1 & Hiso & Hfs1 & _ & _ & _ & Hclient).
    apply (copy_and_import_reuses _ _ _ _ _ _ _ Hdir Hdup) in Hiso
      as (Hkind & Hentries & _ & Hsame).
    rewrite Hfs1. split; [exact Hkind | split; [exact Hentries |]].
    intros c Hc. destruct (Hclient c Hc) as (iso2 & -> & ->).
    destruct (Hsame iso2 eq_refl) as (Hb & Hd & Hn & Hi).
    cbn [client_of Client.base_module_dir Client.module_dir Client.module_name
         Client.module_id].
    repeat split; congruence.
  - rewrite (init_missing E _ _ _ _ _ _ Hexists) in Hinit.
    injection Hinit as <- <-. repeat split; auto; discriminate.
Qed.

(** C4. A construction makes at most one duplicate: after it has returned
    a client, the isolation directory holds either the duplicates it held
    before, or, when it held none, the single duplicate now made.  A
    second construction against the same terminal install, on any later
    state with the same filesystem, finds the client's duplicate first in
    its scan and makes no entry at all, whatever its outcome; the client it
    returns has the first client's isolation directory, module directory
    and module name. *)
Theorem second_construction_reuses
    (first : path) (account_number : Z) (password server : string) (timeout : Z)
    (second : path) (account_number' : Z) (password' server' : string) (timeout' : Z)
    (st st1 st1' st2 : State) (c1 : Client.t) (r : result Client.t) :
  let base := isolation_dir first in
  Client.init E first account_number password server timeout st = (OK c1, st1) ->
  parent second = parent first ->
  fs st1' = fs st1 ->
  Client.init E second account_number' password' server' timeout' st1' = (r, st2) ->
  (duplicates (fs st1) base = duplicates (fs st) base
   \/ (duplicates (fs st) base = [] /\ duplicates (fs st1) base = [Client.module_dir c1]))
  /\ hd_error (duplicates (fs st1') base) = Some (Client.module_dir c1)
  /\ (forall q, FS.is_dir (fs st2) q = FS.is_dir (fs st1') q)
  /\ (forall q, FS.lookup (fs st2) q <> None -> FS.lookup (fs st1') q <> None)
  /\ (forall c2, r = OK c2 ->
        Client.base_module_dir c2 = Client.base_module_dir c1
        /\ Client.module_dir c2 = Client.module_dir c1
        /\ Client.module_name c2 = Client.module_name c1).
Proof.
  cbv zeta. intros Hfirst Hparent Hfs Hsecond.
  pose proof (init_OK_exists _ _ _ _ _ _ _ _ Hfirst) as Hexists.
  apply (init_after_isolation _ _ _ _ _ _ _ _ _ Hexists) in Hfirst
    as (r0 & s0 & Hiso & Hfs0 & _ & _ & _ & Hclient).
  destruct (Hclient c1 eq_refl) as (iso & -> & ->).
  cbn [client_of Client.base_module_dir Client.module_dir Client.module_name].
  rewrite Hfs0 in Hfs. rewrite Hfs, Hfs0.
  pose proof (copy_and_import_OK _ _ _ _ _ Hiso) as (_ & _ & _ & (rest & Hdup & Hbefore) & _).
  pose proof (construction_after_isolation _ _ _ _ _ _ _ _ _ _ _ _ Hiso Hparent Hfs Hsecond)
    as (Hkind & Hentries & Hsame).
  rewrite Hfs in Hkind, Hentries.
  split; [| split; [| split; [exact Hkind | split; [exact Hentries |]]]].
  - destruct Hbefore as [[Hnone ->] | Hsome]; [right; now split | left; congruence].
  - now rewrite Hdup.
  - intros c2 Hc2. destruct (Hsame c2 Hc2) as (Hb & Hd & Hn & _). now repeat split.
Qed.

End Reuse.

(** ** The properties on the concrete installation *)

Lemma demo_isolates (accepts : bool) :
  Client.copy_and_import_official_module (Demo.env accepts true) Demo.terminal Demo.boot
  = (OK Demo.isolation, Demo.isolated).
Proof. destruct accepts; vm_compute; reflexivity. Qed.

Lemma missing_terminal_path_witness :
  fst (Client.init (Demo.env true true) ["opt"; "terminal64.exe"] 5012345 "secret"
         "Broker-Demo" default_timeout Demo.boot)
  = Raise (InitializeError [ArgStr "Terminal path opt/terminal64.exe does not exist"]).
Proof.
  rewrite (missing_terminal_path (Demo.env true true) ["opt"; "terminal64.exe"] 5012345
             "secret" "Broker-Demo" default_timeout Demo.boot eq_refl).
  reflexivity.
Defined.

Lemma initialize_failure_raises_witness :
  fst (Demo.connect false Demo.boot)
  = Raise (initialize_failed
             (mkMT5LastError (Py.Int (-6)) (Py.Str "Terminal: Authorization failed"))).
Proof.
  destruct (initialize_failure_raises (Demo.env false true) Demo.terminal 5012345 "secret"
              "Broker-Demo" default_timeout Demo.boot Demo.isolated Demo.isolation
              (Py.Bool false) (Py.Int (-6)) (Py.Str "Terminal: Authorization failed")
              eq_refl (demo_isolates false) eq_refl eq_refl eq_refl)
    as (st1 & made & Hrun & _).
  unfold Demo.connect. now rewrite Hrun.
Defined.




Lemma second_construction_reuses_witness :
  match fst (Demo.connect true Demo.connected) with
  | OK c2 =>
      Client.module_dir c2
      = ["mt5"; "py2mql5"; "MetaTrader5_fedcba98_7654_3210_fedc_ba9876543210"]
  | Raise _ => False
  end.
Proof.
  destruct (second_construction_reuses (Demo.env true true)
              Demo.terminal 5012345 "secret" "Broker-Demo" default_timeout
              Demo.terminal 5012345 "secret" "Broker-Demo" default_timeout
              Demo.boot Demo.connected Demo.connected
              (snd (Demo.connect true Demo.connected)) Demo.client
              (fst (Demo.connect true Demo.connected)))
    as (_ & _ & _ & _ & Hsame).
  - vm_compute. reflexivity.
  - reflexivity.
  - reflexivity.
  - unfold Demo.connect. apply surjective_pairing.
  - destruct (fst (Demo.connect true Demo.connected)) as [c2 | e] eqn:Hsecond.
    + now destruct (Hsame c2 eq_refl) as (_ & -> & _).
    + vm_compute in Hsecond. discriminate Hsecond.
Defined.

(** The second construction on the concrete installation does return a
    client, and the disk is as the first construction left it. *)
Lemma demo_second_construction :
  is_ok (fst (Demo.connect true Demo.connected)) = true
  /\ fs (snd (Demo.connect true Demo.connected)) = fs Demo.connected.
Proof. split; vm_compute; reflexivity. Qed.

(** * Further properties of the code *)

(** ** The enumerations and [AccountInfo.__init__] *)

Section SnapshotConstruction.

(** X1. Each enumeration of [account_properties.py] is looked up by value
    exactly: an integer yields a member if and only if it is that member's
    value, so a member's value gives the member back and no two members
    share a value. *)
Theorem enum_members_by_value :
  (forall z m, TradeMode_call (Py.Int z) = OK m <-> z = TradeMode_value m)
  /\ (forall z m, MarginSoMode_call (Py.Int z) = OK m <-> z = MarginSoMode_value m)
  /\ (forall z m, MarginMode_call (Py.Int z) = OK m <-> z = MarginMode_value m).
Proof.
  repeat split.
  - intros H. apply enum_call_OK in H as [_ H]. now injection H.
  - intros ->. now destruct m.
  - intros H. apply enum_call_OK in H as [_ H]. now injection H.
  - intros ->. now destruct m.
  - intros H. apply enum_call_OK in H as [_ H]. now injection H.
  - intros ->. now destruct m.
Qed.

Lemma getattr_Raise (o : Py.value) (n : string) (e : exn) :
  getattr o n = Raise e -> e = AttributeError n.
Proof.
  unfold getattr. destruct o; try (now intros [= <-]).
  destruct (List.find _ attrs); [discriminate | now intros [= <-]].
Qed.

Lemma enum_call_Raise {T : Type} (cls : string) (members : list T) (value_of : T -> Z)
    (v : Py.value) (e : exn) :
  enum_call cls members value_of v = Raise e -> e = ValueError ("is not a valid " +:+ cls).
Proof.
  unfold enum_call. destruct (Py.as_small_int v); [destruct (List.find _ members) |];
    (discriminate || now intros [= <-]).
Qed.

Lemma init_well_formed (o : Py.value) (info : AccountInfo.t) :
  AccountInfo.init o = OK info -> well_formed o.
Proof.
  intros Hinit.
  destruct (init_copies _ _ Hinit)
    as (Hcopied & (tm & Htm & Htmc) & (so & Hso & Hsoc) & (mm & Hmm & Hmmc)).
  unfold copied in Hcopied.
  repeat match goal with
         | H : Forall _ (_ :: _) |- _ => inversion H; subst; clear H
         end.
  cbn [fst snd] in *.
  unfold well_formed. rewrite Htm, Hso, Hmm. cbn [rbind]. rewrite Htmc, Hsoc, Hmmc.
  split; [| now repeat split].
  unfold AccountInfo.attributes.
  repeat constructor;
    match goal with
    | H : getattr o ?n = OK _ |- is_ok (getattr o ?n) = true => now rewrite H
    end.
Qed.

(** X2. [AccountInfo(o)] is constructed exactly for the well-formed result
    objects: those that have each of the 28 attributes read and whose three
    coded attributes hold member values.  For every other object the
    construction raises. *)
Theorem account_info_constructed_iff_well_formed (o : Py.value) :
  is_ok (AccountInfo.init o) = true <-> well_formed o.
Proof.
  split; [| apply init_total].
  destruct (AccountInfo.init o) as [info | e] eqn:Hinit; [| discriminate].
  intros _. now apply (init_well_formed o info).
Qed.

(** X3. [AccountInfo.__init__] reads the 28 attributes and nothing else of
    the result object: two objects that agree on them give the same
    outcome, whatever else they carry and in whatever order. *)
Theorem account_info_reads_only_its_attributes (o o' : Py.value) :
  Forall (fun n => getattr o n = getattr o' n) AccountInfo.attributes ->
  AccountInfo.init o = AccountInfo.init o'.
Proof.
  unfold AccountInfo.attributes. intros Hsame.
  repeat match goal with
         | H : Forall _ (_ :: _) |- _ => inversion H; subst; clear H
         end.
  unfold AccountInfo.init.
  repeat match goal with
         | H : getattr o ?n = getattr o' ?n |- _ => rewrite H; clear H
         end.
  reflexivity.
Qed.

(** X4. When [AccountInfo.__init__] raises, it raises [AttributeError] for
    one of the 28 attributes, which the result object does not have, or
    [ValueError] from one of the three enumerations; for a value without
    attributes, such as [None], it is [AttributeError] for [login], the
    first attribute read. *)
Theorem account_info_errors (o : Py.value) (e : exn) :
  AccountInfo.init o = Raise e ->
  ((exists n, In n AccountInfo.attributes /\ e = AttributeError n
              /\ getattr o n = Raise (AttributeError n))
   \/ In e [ValueError "is not a valid TradeMode"; ValueError "is not a valid MarginSoMode";
            ValueError "is not a valid MarginMode"])
  /\ ((forall attrs, o <> Py.Obj attrs) -> e = AttributeError "login").
Proof.
  intros Hinit. split.
  - revert Hinit. unfold AccountInfo.init.
    repeat (init_step;
            [| intros [= <-];
               first
                 [ match goal with
                   | H : getattr o ?n = Raise _ |- _ =>
                       pose proof (getattr_Raise _ _ _ H) as ->; left; exists n;
                       split; [unfold AccountInfo.attributes;
                               repeat (try (left; reflexivity); right)
                              | split; [reflexivity | exact H]]
                   end
                 | right;
                   match goal with
                   | H : _ = Raise _ |- _ =>
                       first [ apply (enum_call_Raise "TradeMode") in H
                             | apply (enum_call_Raise "MarginSoMode") in H
                             | apply (enum_call_Raise "MarginMode") in H ];
                       subst; cbn; tauto
                   end ]]).
    discriminate.
  - intros Hnone. revert Hinit. unfold AccountInfo.init.
    assert (Hlogin : getattr o "login" = Raise (AttributeError "login")).
    { destruct o; try reflexivity. now destruct (Hnone attrs). }
    rewrite Hlogin. cbn [rbind]. now intros [= <-].
Qed.

End SnapshotConstruction.

Lemma account_info_reads_only_its_attributes_witness :
  AccountInfo.init Demo.account = AccountInfo.init Cases.padded_account.
Proof.
  apply (account_info_reads_only_its_attributes Demo.account Cases.padded_account).
  repeat constructor.
Defined.

Lemma account_info_errors_witness : AccountInfo.init Py.None_ = Raise (AttributeError "login").
Proof.
  destruct (AccountInfo.init Py.None_) as [info | e] eqn:Hinit; [discriminate |].
  destruct (account_info_errors Py.None_ e Hinit) as [_ Hfirst].
  now rewrite Hfirst.
Defined.

(** ** The accessors *)

Section AccessorEdges.

Variable E : Env.

(** X5. [version()] and [last_error()] read the first three, resp. the
    first two, elements of the tuple the vendor module returns and ignore
    any further element; a shorter tuple raises [IndexError], [None] (what
    the vendor module returns when it has nothing) raises [TypeError], and
    an exception of the vendor module is passed on.  In every case exactly
    one request has been made and nothing else has changed. *)
Theorem version_and_last_error_outcomes (self : Client.t) (st : State) :
  let m := Client.official self in
  ((forall items, vendor E (trace st) (ReqVersion m) = inl (Py.Tuple items) ->
                  fst (Client.version E self st) = first_three items)
   /\ (vendor E (trace st) (ReqVersion m) = inl Py.None_ ->
       fst (Client.version E self st) = Raise (TypeError "object is not subscriptable"))
   /\ (forall f, vendor E (trace st) (ReqVersion m) = inr f ->
                 fst (Client.version E self st) = Raise (VendorError f))
   /\ snd (Client.version E self st) = set_trace (trace st ++ [ReqVersion m]) st)
  /\ ((forall items, vendor E (trace st) (ReqLastError m) = inl (Py.Tuple items) ->
                     fst (Client.last_error E m st) = first_two items)
      /\ (vendor E (trace st) (ReqLastError m) = inl Py.None_ ->
          fst (Client.last_error E m st) = Raise (TypeError "object is not subscriptable"))
      /\ (forall f, vendor E (trace st) (ReqLastError m) = inr f ->
                    fst (Client.last_error E m st) = Raise (VendorError f))
      /\ snd (Client.last_error E m st) = set_trace (trace st ++ [ReqLastError m]) st).
Proof.
  cbv zeta. split.
  - unfold Client.version.
    destruct (vendor E (trace st) (ReqVersion (Client.official self))) as [v | f] eqn:Hv.
    + rewrite (bind_OK _ _ _ _ _ (call_value E _ _ _ Hv)). unfold bind, lift, ret.
      repeat split; try discriminate.
      * intros items [= ->]. now destruct items as [| a [| b [| c rest]]].
      * now intros [= ->].
      * destruct (getitem v 0); [| reflexivity].
        destruct (getitem v 1); [| reflexivity]. now destruct (getitem v 2).
    + rewrite (bind_Raise _ _ _ _ _ (call_fault E _ _ _ Hv)).
      repeat split; try discriminate. now intros f' [= <-].
  - unfold Client.last_error.
    destruct (vendor E (trace st) (ReqLastError (Client.official self))) as [v | f] eqn:Hv.
    + rewrite (bind_OK _ _ _ _ _ (call_value E _ _ _ Hv)). unfold bind, lift, ret.
      repeat split; try discriminate.
      * intros items [= ->]. now destruct items as [| a [| b rest]].
      * now intros [= ->].
      * destruct (getitem v 0); [| reflexivity]. now destruct (getitem v 1).
    + rewrite (bind_Raise _ _ _ _ _ (call_fault E _ _ _ Hv)).
      repeat split; try discriminate. now intros f' [= <-].
Qed.

End AccessorEdges.

Lemma version_and_last_error_outcomes_witness :
  fst (Client.version
         (Cases.env_answering
            (Py.Tuple [Py.Int 500; Py.Int 4153; Py.Str "22 Dec 2023"; Py.Str "beta"]))
         Demo.client Demo.connected)
  = OK (mkTerminalVersion (Py.Int 500) (Py.Int 4153) (Py.Str "22 Dec 2023"))
  /\ fst (Client.last_error (Cases.env_answering Py.None_) (Client.official Demo.client)
            Demo.connected)
     = Raise (TypeError "object is not subscriptable").
Proof.
  split.
  - rewrite (proj1 (proj1 (version_and_last_error_outcomes
                             (Cases.env_answering
                                (Py.Tuple [Py.Int 500; Py.Int 4153; Py.Str "22 Dec 2023";
                                           Py.Str "beta"]))
                             Demo.client Demo.connected))
               [Py.Int 500; Py.Int 4153; Py.Str "22 Dec 2023"; Py.Str "beta"] eq_refl).
    reflexivity.
  - apply (proj1 (proj2 (proj2 (version_and_last_error_outcomes
                                  (Cases.env_answering Py.None_) Demo.client
                                  Demo.connected)))).
    reflexivity.
Defined.

Section AccessorFrame.

Variable E : Env.

Lemma only_asked_call (m : pymodule) (r : request) (st : State) :
  request_module r = Some m ->
  only_asked m st (set_trace (trace st ++ [r]) st).
Proof.
  intros Hm. unfold only_asked. state_simpl. repeat split.
  exists [r]. split; [reflexivity | now constructor].
Qed.

Lemma only_asked_trans (m : pymodule) (st st1 st2 : State) :
  only_asked m st st1 -> only_asked m st1 st2 -> only_asked m st st2.
Proof.
  intros (Hf & Hp & Hm & Hu & made & Ht & Hall) (Hf' & Hp' & Hm' & Hu' & made' & Ht' & Hall').
  unfold only_asked. repeat split; try congruence.
  exists (made ++ made'). split; [rewrite Ht', Ht; apply eq_sym, app_assoc |].
  apply Forall_app. now split.
Qed.

Lemma last_error_state (m : pymodule) (st : State) :
  snd (Client.last_error E m st) = set_trace (trace st ++ [ReqLastError m]) st.
Proof.
  unfold Client.last_error, bind. pose proof (call_state E (ReqLastError m) st) as Hcall.
  destruct (Client.call E (ReqLastError m) st) as [[v | e] s1]; cbn [snd] in *; subst s1;
    [| reflexivity].
  unfold lift, ret. destruct (getitem v 0); [| reflexivity].
  now destruct (getitem v 1).
Qed.

Lemma version_state (self : Client.t) (st : State) :
  snd (Client.version E self st)
  = set_trace (trace st ++ [ReqVersion (Client.official self)]) st.
Proof.
  unfold Client.version, bind.
  pose proof (call_state E (ReqVersion (Client.official self)) st) as Hcall.
  destruct (Client.call E _ st) as [[v | e] s1]; cbn [snd] in *; subst s1; [| reflexivity].
  unfold lift, ret. destruct (getitem v 0); [| reflexivity].
  destruct (getitem v 1); [| reflexivity]. now destruct (getitem v 2).
Qed.

Lemma account_info_state (self : Client.t) (st : State) :
  snd (Client.account_info E self st)
  = set_trace (trace st ++ [ReqAccountInfo (Client.official self)]) st.
Proof.
  unfold Client.account_info, bind.
  pose proof (call_state E (ReqAccountInfo (Client.official self)) st) as Hcall.
  destruct (Client.call E _ st) as [[v | e] s1]; cbn [snd] in *; subst s1; reflexivity.
Qed.

(** X6. [version], [last_error], [account_info] and [login] leave the
    filesystem, [sys.path] and [sys.modules] alone and address every request
    to the module the client holds; only [login] prints, and only when it
    returns: a [login] that raises has printed nothing. *)
Theorem accessors_only_ask (self : Client.t) (st : State)
    (account_number : Z) (password server : string) (timeout : Z) :
  let m := Client.official self in
  (only_asked m st (snd (Client.version E self st))
   /\ stdout (snd (Client.version E self st)) = stdout st)
  /\ (only_asked m st (snd (Client.last_error E m st))
      /\ stdout (snd (Client.last_error E m st)) = stdout st)
  /\ (only_asked m st (snd (Client.account_info E self st))
      /\ stdout (snd (Client.account_info E self st)) = stdout st)
  /\ (only_asked m st (snd (Client.login E self account_number password server timeout st))
      /\ (fst (Client.login E self account_number password server timeout st) = OK tt
          /\ stdout (snd (Client.login E self account_number password server timeout st))
             = stdout st ++ ["Login successful"]
          \/ is_ok (fst (Client.login E self account_number password server timeout st))
             = false
             /\ stdout (snd (Client.login E self account_number password server timeout st))
                = stdout st)).
Proof.
  cbv zeta. split; [| split; [| split]].
  - rewrite version_state. split; [now apply only_asked_call | reflexivity].
  - rewrite last_error_state. split; [now apply only_asked_call | reflexivity].
  - rewrite account_info_state. split; [now apply only_asked_call | reflexivity].
  - unfold Client.login, bind.
    pose proof (call_state E (ReqLogin (Client.official self) account_number password
                                server timeout) st) as Hcall.
    destruct (Client.call E _ st) as [[v | e] s1]; cbn [snd] in Hcall; subst s1.
    + destruct (Py.truthy v); cbn [negb].
      * unfold print, modify. cbn [fst snd]. state_simpl. split.
        -- unfold only_asked. state_simpl. repeat split.
           eexists. split; [reflexivity | now repeat constructor].
        -- left. now split.
      * pose proof (last_error_state (Client.official self)
                      (set_trace (trace st ++ [ReqLogin (Client.official self) account_number
                                                 password server timeout]) st)) as Herr.
        destruct (Client.last_error E _ _) as [[le | e] s2]; cbn [snd] in Herr; subst s2;
          unfold raise; cbn [fst snd]; state_simpl;
          (split;
           [ unfold only_asked; state_simpl; repeat split;
             eexists; split; [now rewrite <- app_assoc | now repeat constructor]
           | right; now split ]).
    + cbn [fst snd]. split; [now apply only_asked_call | right; now split].
Qed.

End AccessorFrame.

(** ** [__copy_and_import_official_module__], step by step *)

Section IsolationSteps.

Variable E : Env.

(** A filesystem operation changes nothing but the filesystem. *)
Lemma fs_do_tables (op : filesystem -> result filesystem) (st st1 : State) (r : result unit) :
  fs_do op st = (r, st1) ->
  sys_path st1 = sys_path st /\ sys_modules st1 = sys_modules st
  /\ uuid_draws st1 = uuid_draws st /\ trace st1 = trace st /\ stdout st1 = stdout st.
Proof.
  unfold fs_do. destruct (op (fs st)); intros [= <- <-]; now repeat split.
Qed.

Lemma copy_official_module_tables (base : path) (st st1 : State)
    (r : result (path * string * option string)) :
  Client.copy_official_module E base st = (r, st1) ->
  sys_path st1 = sys_path st /\ sys_modules st1 = sys_modules st
  /\ trace st1 = trace st /\ stdout st1 = stdout st.
Proof.
  unfold Client.copy_official_module, Client.uuid4, Client.add_ignore_comments.
  intros H. apply bind_inv in H as [(hex & s0 & [= <- <-] & H) | (e & Habs & _)];
    [| discriminate].
  destruct (find_spec E OFFICIAL_MODULE_NAME) as [[[official_origin |]] |];
    try (injection H as <- <-; now repeat split).
  apply bind_inv in H as [([] & sa & Hcopy & H) | (e & Hcopy & ->)].
  - apply fs_do_tables in Hcopy as (Hp & Hm & _ & Ht & Ho). state_simpl.
    apply bind_inv in H as [([] & sb & Hpre & H) | (e & Hpre & ->)].
    + injection H as <- <-. apply fs_do_tables in Hpre as (Hp' & Hm' & _ & Ht' & Ho').
      repeat split; congruence.
    + apply fs_do_tables in Hpre as (Hp' & Hm' & _ & Ht' & Ho'). repeat split; congruence.
  - apply fs_do_tables in Hcopy as (Hp & Hm & _ & Ht & Ho). state_simpl. now repeat split.
Qed.

(** A run either ends before the import, with [sys.path], [sys.modules],
    the trace and the output as they were, or it reaches the import: by
    then the isolation directory is the last entry of [sys.path], nothing
    else has changed in the interpreter, and the module to import is the
    first duplicate of the scan, which is the one found before the run or,
    when there was none, the one just made. *)
Lemma copy_and_import_steps (terminal_path : path) (st st1 : State)
    (r : result Client.isolation) :
  let base := isolation_dir terminal_path in
  Client.copy_and_import_official_module E terminal_path st = (r, st1) ->
  (exists e, r = Raise e
             /\ sys_path st1 = sys_path st /\ sys_modules st1 = sys_modules st
             /\ trace st1 = trace st /\ stdout st1 = stdout st)
  \/ (exists module_dir module_id rest sb rm,
        sys_path sb = sys_path st ++ [Client.path_str E base]
        /\ sys_modules sb = sys_modules st
        /\ trace sb = trace st
        /\ stdout sb = stdout st
        /\ duplicates (fs sb) base = module_dir :: rest
        /\ (duplicates (fs st) base = module_dir :: rest /\ module_id = None
            \/ duplicates (fs st) base = [] /\ rest = [] /\ module_id <> None)
        /\ Client.import_ E (path_name module_dir) sb = (rm, st1)
        /\ r = match rm with
               | OK m => OK (Client.mkIsolation base module_dir (path_name module_dir)
                               module_id m)
               | Raise e => Raise e
               end).
Proof.
  cbv zeta. unfold Client.copy_and_import_official_module. fold (isolation_dir terminal_path).
  set (base := isolation_dir terminal_path). intros H.
  apply bind_inv in H as [([] & sa & Hcheck & H) | (e & Hcheck & ->)].
  2:{ apply check_write_permissions_effect in Hcheck as (_ & _ & _ & Hp & Hm & Ht & Ho & _).
      left. exists e. now repeat split. }
  apply check_write_permissions_effect in Hcheck
    as (Hkind_a & _ & Hlist_a & Hp_a & Hm_a & Ht_a & Ho_a & _).
  assert (Hdup_a : duplicates (fs sa) base = duplicates (fs st) base)
    by (apply duplicates_same; [exact Hlist_a | intros; apply Hkind_a]).
  apply bind_inv in H as [([] & sb & Hmk & H) | (e & Hmk & ->)].
  2:{ apply fs_do_tables in Hmk as (Hp & Hm & _ & Ht & Ho).
      left. exists e. repeat split; congruence. }
  pose proof (mkdir_keeps_duplicates _ _ _ Hmk) as (Hdup_b & _).
  pose proof (fs_do_tables _ _ _ _ Hmk) as (Hp_b & Hm_b & _ & Ht_b & Ho_b).
  apply mkdir_effect in Hmk as (Hbase & _). destruct (Hbase eq_refl) as [Hbase_dir _].
  rewrite (bind_OK _ _ _ _ _ (existing_modules_run _ _ Hbase_dir)) in H.
  rewrite Hdup_a in Hdup_b.
  apply bind_inv in H as [([[module_dir module_name] module_id] & sc & Hfound & H)
                         | (e & Hfound & ->)].
  2:{ destruct (duplicates (fs sb) base); [| discriminate].
      apply copy_official_module_tables in Hfound as (Hp & Hm & Ht & Ho).
      left. exists e. repeat split; congruence. }
  unfold bind, modify, ret in H. state_simpl. right.
  destruct (duplicates (fs sb) base) as [| d rest] eqn:Hdup.
  - pose proof (copy_official_module_tables _ _ _ _ Hfound) as (Hp_c & Hm_c & Ht_c & Ho_c).
    pose proof Hfound as Hmade.
    apply copy_official_module_effect in Hfound
      as (-> & Hprefix & Hfresh & Hdir & Hold & _ & Hlist & _).
    assert (Hid : module_id <> None).
    { revert Hmade. unfold Client.copy_official_module, Client.uuid4.
      intros Hm. apply bind_inv in Hm as [(hex & s0 & _ & Hm) | (e & _ & Habs)];
        [| discriminate].
      destruct (find_spec E OFFICIAL_MODULE_NAME) as [[[official_origin |]] |];
        try discriminate.
      apply bind_inv in Hm as [([] & s1 & _ & Hm) | (e & _ & Habs)]; [| discriminate].
      apply bind_inv in Hm as [([] & s2 & _ & Hm) | (e & _ & Habs)]; [| discriminate].
      injection Hm as _ _ <- _. discriminate. }
    match type of H with
    | context [Client.import_ E ?n ?s] =>
        destruct (Client.import_ E n s) as [rm s2] eqn:Himport;
        exists (joinpath base module_name), module_id, [], s, rm
    end.
    state_simpl. rewrite path_name_joinpath.
    repeat split; try congruence.
    + unfold duplicates. rewrite Hlist, filter_app.
      replace (List.filter (is_duplicate (fs sc)) (FS.listing base (fs sb))) with (@nil path).
      * cbn [List.filter app]. unfold is_duplicate.
        now rewrite Hdir, path_name_joinpath, Hprefix.
      * rewrite <- Hdup. unfold duplicates. apply filter_ext_in. intros q Hq.
        apply listing_In in Hq as [_ Hq]. unfold is_duplicate. now rewrite (Hold q Hq).
    + right. repeat split; congruence.
    + destruct rm; now injection H as <- <-.
    + destruct rm; now injection H as <- <-.
  - injection Hfound as <- <- <- <-.
    match type of H with
    | context [Client.import_ E ?n ?s] =>
        destruct (Client.import_ E n s) as [rm s2] eqn:Himport;
        exists d, None, rest, s, rm
    end.
    state_simpl. repeat split; try congruence.
    + left. split; congruence.
    + destruct rm; now injection H as <- <-.
    + destruct rm; now injection H as <- <-.
Qed.

Lemma import_registered (name : string) (m : pymodule) (st : State) :
  sys_modules st !! name = Some m -> Client.import_ E name st = (OK m, st).
Proof.
  intros H. unfold Client.import_, gets, bind. cbn. now rewrite H.
Qed.

Lemma import_fresh (name : string) (st : State) :
  sys_modules st !! name = None ->
  Client.import_ E name st
  = match vendor E (trace st) (ReqImport name) with
    | inl _ =>
        (OK (mkModule name (length (trace st))),
         set_sys_modules (<[name := mkModule name (length (trace st))]> (sys_modules st))
           (set_trace (trace st ++ [ReqImport name]) st))
    | inr f => (Raise (VendorError f), set_trace (trace st ++ [ReqImport name]) st)
    end.
Proof.
  intros H. unfold Client.import_, Client.call, Client.ask, gets, modify, bind, ret, raise.
  cbn. rewrite H. now destruct (vendor E (trace st) (ReqImport name)).
Qed.

End IsolationSteps.

(** ** Disposal, in detail *)

Section DisposalDetail.

Variable E : Env.

(** X7. [__del__] takes exactly the first occurrence of the isolation
    directory off [sys.path]: the entries before and after it stay, in
    their order, later occurrences included; it unregisters the client's
    module name and no other module; and it leaves the filesystem, and so
    the duplicate, as it is. *)
Theorem del_removes_first_occurrence (self : Client.t) (st : State)
    (before after : list string) :
  let entry := Client.path_str E (Client.base_module_dir self) in
  sys_path st = before ++ entry :: after ->
  ~ In entry before ->
  exists st',
    Client.del E self st = (OK tt, st')
    /\ sys_path st' = before ++ after
    /\ sys_modules st' = delete (Client.module_name self) (sys_modules st)
    /\ (forall name, name <> Client.module_name self ->
                     sys_modules st' !! name = sys_modules st !! name)
    /\ fs st' = fs st
    /\ uuid_draws st' = uuid_draws st.
Proof.
  cbv zeta. intros Hpath Hfirst. rewrite del_run. cbv zeta.
  rewrite Hpath, (list_remove_split _ _ _ Hfirst).
  eexists. split; [reflexivity |]. state_simpl. repeat split.
  intros name Hname. now apply lookup_delete_ne.
Qed.

(** X8. [__del__] raises exactly when the isolation directory is not on
    [sys.path], and then it raises [ValueError]: by then [shutdown] has
    been requested and a failure of it printed, while [sys.path] and
    [sys.modules] are untouched, so the module name stays registered. *)
Theorem del_raises_iff_entry_absent (self : Client.t) (st : State) :
  let entry := Client.path_str E (Client.base_module_dir self) in
  let shutdown := ReqShutdown (Client.official self) in
  (is_ok (fst (Client.del E self st)) = false <-> ~ In entry (sys_path st))
  /\ (~ In entry (sys_path st) ->
      fst (Client.del E self st) = Raise (ValueError "list.remove(x): x not in list")
      /\ trace (snd (Client.del E self st)) = trace st ++ [shutdown]
      /\ stdout (snd (Client.del E self st))
         = stdout st ++ shutdown_report E self (vendor E (trace st) shutdown)
      /\ sys_path (snd (Client.del E self st)) = sys_path st
      /\ sys_modules (snd (Client.del E self st)) = sys_modules st).
Proof.
  cbv zeta. rewrite del_run. cbv zeta. split; [split |].
  - intros Hraise Hin. apply list_remove_In in Hin as (l' & Hl' & _).
    rewrite Hl' in Hraise. discriminate.
  - intros Hnot. now rewrite (list_remove_absent _ _ Hnot).
  - intros Hnot. rewrite (list_remove_absent _ _ Hnot). now repeat split.
Qed.

End DisposalDetail.

Lemma del_removes_first_occurrence_witness :
  sys_path (snd (Client.del (Demo.env true true) Demo.client
                   (snd (Demo.connect true Demo.connected))))
  = ["site-packages"; "mt5/py2mql5"].
Proof.
  destruct (del_removes_first_occurrence (Demo.env true true) Demo.client
              (snd (Demo.connect true Demo.connected))
              ["site-packages"] ["mt5/py2mql5"])
    as (st' & Hrun & Hpath & _).
  - vm_compute. reflexivity.
  - intros [H | []]. discriminate H.
  - now rewrite Hrun.
Defined.

Lemma del_raises_iff_entry_absent_witness :
  fst (Client.del (Demo.env true true) Demo.client Demo.boot)
  = Raise (ValueError "list.remove(x): x not in list").
Proof.
  apply (proj2 (del_raises_iff_entry_absent (Demo.env true true) Demo.client Demo.boot)).
  intros [H | []]. discriminate H.
Defined.

(** ** The life of a client *)

Section Lifecycle.

Variable E : Env.

(** What a successful run of [__copy_and_import_official_module__] has done
    to the interpreter: the isolation directory is appended to [sys.path];
    the module is the one that was registered under the duplicate's name,
    and then no request was made, or, when none was registered, a module
    imported and registered by this run. *)
Lemma copy_and_import_tables (terminal_path : path) (st s0 : State)
    (iso : Client.isolation) :
  let name := Client.iso_module_name iso in
  Client.copy_and_import_official_module E terminal_path st = (OK iso, s0) ->
  Client.iso_base_module_dir iso = isolation_dir terminal_path
  /\ name = path_name (Client.iso_module_dir iso)
  /\ sys_path s0 = sys_path st ++ [Client.path_str E (isolation_dir terminal_path)]
  /\ stdout s0 = stdout st
  /\ (sys_modules st !! name = Some (Client.iso_official iso)
      /\ sys_modules s0 = sys_modules st /\ trace s0 = trace st
      \/ sys_modules st !! name = None
         /\ sys_modules s0 = <[name := Client.iso_official iso]> (sys_modules st)
         /\ trace s0 = trace st ++ [ReqImport name]
         /\ Client.iso_official iso = mkModule name (length (trace st))).
Proof.
  cbv zeta. intros H.
  apply copy_and_import_steps in H
    as [(e & Habs & _) | (module_dir & module_id & rest & sb & rm
                          & Hp & Hm & Ht & Ho & _ & _ & Himport & Hr)];
    [discriminate |].
  destruct rm as [m | e]; [| discriminate]. injection Hr as ->.
  cbn [Client.iso_base_module_dir Client.iso_module_name Client.iso_module_dir
       Client.iso_official].
  destruct (sys_modules sb !! path_name module_dir) as [m' |] eqn:Hreg.
  - rewrite (import_registered E _ _ _ Hreg) in Himport. injection Himport as <- <-.
    repeat split; try assumption. left. repeat split; congruence.
  - rewrite (import_fresh E _ _ Hreg) in Himport.
    destruct (vendor E (trace sb) (ReqImport (path_name module_dir))); [| discriminate].
    injection Himport as <- <-. state_simpl. repeat split; try assumption.
    right. repeat split; congruence.
Qed.

(** A construction that returns a client, taken apart. *)
Lemma init_OK_inv (terminal_path : path) (account_number : Z) (password server : string)
    (timeout : Z) (st st1 : State) (c : Client.t) :
  Client.init E terminal_path account_number password server timeout st = (OK c, st1) ->
  exists iso s0 answer,
    let req := initialize_request E (Client.iso_official iso) terminal_path account_number
                 password server timeout in
    Client.copy_and_import_official_module E terminal_path st = (OK iso, s0)
    /\ c = client_of terminal_path account_number server timeout iso
    /\ vendor E (trace s0) req = inl answer
    /\ Py.truthy answer = true
    /\ st1 = set_stdout (stdout s0 ++ [initialized_message]) (set_trace (trace s0 ++ [req]) s0).
Proof.
  intros H. pose proof (init_OK_exists _ _ _ _ _ _ _ _ _ H) as Hexists.
  rewrite (init_run _ _ _ _ _ _ _ Hexists) in H.
  destruct (Client.copy_and_import_official_module E terminal_path st) as [[iso | e] s0];
    [| discriminate].
  cbv zeta in H. exists iso, s0.
  destruct (vendor E (trace s0) _) as [answer | f] eqn:Hans; [| discriminate].
  exists answer. destruct (Py.truthy answer) eqn:Htruthy.
  - injection H as <- <-. now repeat split.
  - destruct (Client.last_error E _ _) as [[le | e] s2]; discriminate.
Qed.

(** X9. A construction that returns has recorded its arguments on the
    client (the password excepted, which the client does not keep) with
    [portable] set; its last request is [initialize] on the client's
    module with the terminal path, the account number, the password, the
    server, the timeout and [portable=True], and the answer was true; the
    last thing printed is the success message. *)
Theorem init_returns_client (terminal_path : path) (account_number : Z)
    (password server : string) (timeout : Z) (st st1 : State) (c : Client.t) :
  Client.init E terminal_path account_number password server timeout st = (OK c, st1) ->
  Client.terminal_path c = terminal_path
  /\ Client.account_number c = account_number
  /\ Client.server c = server
  /\ Client.timeout c = timeout
  /\ Client.portable c = true
  /\ Client.base_module_dir c = isolation_dir terminal_path
  /\ Client.module_dir c = joinpath (isolation_dir terminal_path) (Client.module_name c)
  /\ sys_modules st1 !! Client.module_name c = Some (Client.official c)
  /\ stdout st1 = stdout st ++ [initialized_message]
  /\ exists before answer,
       trace st1
       = before ++ [ReqInitialize (Client.official c) (Client.path_str E terminal_path)
                      account_number password server timeout true]
       /\ vendor E before
            (ReqInitialize (Client.official c) (Client.path_str E terminal_path)
               account_number password server timeout true) = inl answer
       /\ Py.truthy answer = true.
Proof.
  intros H. apply init_OK_inv in H as (iso & s0 & answer & Hiso & -> & Hans & Htrue & ->).
  pose proof (copy_and_import_tables _ _ _ _ Hiso) as (Hbase & Hname & _ & Hout & _).
  pose proof (copy_and_import_OK _ _ _ _ _ Hiso)
    as (_ & _ & _ & (rest & Hdup & _) & _ & _ & _ & Hreg & _).
  cbn [client_of Client.terminal_path Client.account_number Client.server Client.timeout
       Client.portable Client.base_module_dir Client.module_dir Client.module_name
       Client.official]. state_simpl.
  repeat split; try assumption.
  - assert (Hin : In (Client.iso_module_dir iso)
                    (duplicates (fs s0) (isolation_dir terminal_path)))
      by (rewrite Hdup; now left).
    unfold duplicates in Hin. apply filter_In in Hin as [Hin _].
    apply listing_In in Hin as [Hchild _]. rewrite Hname.
    unfold is_child in Hchild. destruct (Client.iso_module_dir iso) as [| x l] eqn:Hd;
      [discriminate |].
    apply path_eqb_true in Hchild. rewrite <- Hchild. unfold parent, joinpath, path_name.
    destruct (@exists_last _ (x :: l)) as (l' & a & ->); [discriminate |].
    now rewrite removelast_last, last_last.
  - now rewrite Hout.
  - exists (trace s0), answer. now repeat split.
Qed.

(** X10. Construction followed by disposal of the client: the disposal
    returns; when the isolation directory was not on [sys.path] before the
    construction, [sys.path] is exactly as before; the client's module name
    is not registered; the disposal leaves the filesystem alone, so the
    duplicate stays on disk. *)
Theorem construct_then_dispose (terminal_path : path) (account_number : Z)
    (password server : string) (timeout : Z) (st st1 : State) (c : Client.t) :
  Client.init E terminal_path account_number password server timeout st = (OK c, st1) ->
  ~ In (Client.path_str E (isolation_dir terminal_path)) (sys_path st) ->
  exists st2,
    Client.del E c st1 = (OK tt, st2)
    /\ sys_path st2 = sys_path st
    /\ sys_modules st2 !! Client.module_name c = None
    /\ fs st2 = fs st1
    /\ FS.is_dir (fs st2) (Client.module_dir c) = true.
Proof.
  intros H Hnot. apply init_OK_inv in H as (iso & s0 & answer & Hiso & -> & _ & _ & ->).
  pose proof (copy_and_import_tables _ _ _ _ Hiso) as (Hbase & _ & Hpath & _ & Hmods).
  pose proof (copy_and_import_OK _ _ _ _ _ Hiso) as (_ & _ & _ & (rest & Hdup & _) & _).
  rewrite del_run. cbv zeta.
  cbn [client_of Client.base_module_dir Client.module_name Client.module_dir Client.official].
  state_simpl. rewrite Hbase, Hpath, (list_remove_split _ _ [] Hnot), app_nil_r.
  eexists. split; [reflexivity |]. state_simpl. repeat split.
  - apply lookup_delete_eq.
  - assert (Hin : In (Client.iso_module_dir iso)
                    (duplicates (fs s0) (isolation_dir terminal_path)))
      by (rewrite Hdup; now left).
    unfold duplicates in Hin. apply filter_In in Hin as [_ Hin].
    unfold is_duplicate in Hin. now apply andb_true_iff in Hin as [Hin _].
Qed.

End Lifecycle.

Lemma demo_connection : Demo.connect true Demo.boot = (OK Demo.client, Demo.connected).
Proof. vm_compute. reflexivity. Qed.

Lemma init_returns_client_witness :
  Client.portable Demo.client = true
  /\ stdout Demo.connected = stdout Demo.boot ++ [initialized_message].
Proof.
  destruct (init_returns_client (Demo.env true true) Demo.terminal 5012345 "secret"
              "Broker-Demo" default_timeout Demo.boot Demo.connected Demo.client
              demo_connection)
    as (_ & _ & _ & _ & Hportable & _ & _ & _ & Hout & _).
  now split.
Defined.

Lemma construct_then_dispose_witness :
  sys_path (snd (Client.del (Demo.env true true) Demo.client Demo.connected))
  = sys_path Demo.boot.
Proof.
  destruct (construct_then_dispose (Demo.env true true) Demo.terminal 5012345 "secret"
              "Broker-Demo" default_timeout Demo.boot Demo.connected Demo.client
              demo_connection)
    as (st2 & Hrun & Hpath & _).
  - intros [H | []]. discriminate H.
  - now rewrite Hrun.
Defined.

(** ** Clients that share an install *)

Section Sharing.

Variable E : Env.

(** The requests of a construction once the module is imported: all go to
    that module, and the client returned holds it. *)
Lemma init_requests (terminal_path : path) (account_number : Z) (password server : string)
    (timeout : Z) (st s0 st1 : State) (iso : Client.isolation) (r : result Client.t) :
  FS.exists_ (fs st) terminal_path = true ->
  Client.copy_and_import_official_module E terminal_path st = (OK iso, s0) ->
  Client.init E terminal_path account_number password server timeout st = (r, st1) ->
  (exists made, trace st1 = trace s0 ++ made
                /\ Forall (fun q => request_module q = Some (Client.iso_official iso)) made)
  /\ (forall c, r = OK c -> c = client_of terminal_path account_number server timeout iso).
Proof.
  intros Hexists Hiso. rewrite (init_run _ _ _ _ _ _ _ Hexists), Hiso. cbv zeta.
  destruct (vendor E (trace s0) _) as [answer | f].
  - destruct (Py.truthy answer).
    + intros [= <- <-]. state_simpl. split; [| now intros c [= <-]].
      eexists. split; [reflexivity | now repeat constructor].
    + pose proof (last_error_state E (Client.iso_official iso)
                    (set_trace (trace s0 ++ [initialize_request E (Client.iso_official iso)
                                               terminal_path account_number password server
                                               timeout]) s0)) as Herr.
      destruct (Client.last_error E _ _) as [[le | e] s2]; cbn [snd] in Herr; subst s2;
        intros [= <- <-]; state_simpl; (split; [| discriminate]);
        eexists; (split; [now rewrite <- app_assoc | now repeat constructor]).
  - intros [= <- <-]. state_simpl. split; [| discriminate].
    eexists. split; [reflexivity | now repeat constructor].
Qed.

(** X11. While the first client's module is registered, a second
    construction against the same terminal install imports nothing: all its
    requests go to the module the first client holds, and the client it
    returns holds that very module.  The two clients then talk to one
    vendor module. *)
Theorem second_client_shares_module
    (first : path) (account_number : Z) (password server : string) (timeout : Z)
    (second : path) (account_number' : Z) (password' server' : string) (timeout' : Z)
    (st st1 st1' st2 : State) (c1 : Client.t) (r : result Client.t) :
  Client.init E first account_number password server timeout st = (OK c1, st1) ->
  parent second = parent first ->
  fs st1' = fs st1 ->
  sys_modules st1' !! Client.module_name c1 = Some (Client.official c1) ->
  Client.init E second account_number' password' server' timeout' st1' = (r, st2) ->
  (exists made, trace st2 = trace st1' ++ made
                /\ Forall (fun q => request_module q = Some (Client.official c1)) made)
  /\ (forall c2, r = OK c2 -> Client.official c2 = Client.official c1).
Proof.
  intros Hfirst Hparent Hfs Hreg Hsecond.
  apply init_OK_inv in Hfirst as (iso & s0 & answer & Hiso & -> & _ & _ & ->).
  cbn [client_of Client.module_name Client.official] in *. state_simpl.
  pose proof (copy_and_import_OK _ _ _ _ _ Hiso)
    as (_ & Hname & _ & (rest & Hdup & _) & _).
  rewrite <- Hfs, <- (isolation_dir_parent _ _ Hparent) in Hdup.
  destruct (FS.exists_ (fs st1') second) eqn:Hexists.
  2:{ rewrite (init_missing E _ _ _ _ _ _ Hexists) in Hsecond. injection Hsecond as <- <-.
      split; [| discriminate]. exists []. split; [now rewrite app_nil_r | constructor]. }
  destruct (Client.copy_and_import_official_module E second st1') as [r0 s0'] eqn:Hiso2.
  pose proof (copy_and_import_steps _ _ _ _ _ Hiso2)
    as [(e & -> & _ & _ & Htrace & _)
       | (module_dir & module_id & rest' & sb & rm & _ & Hm & Ht & _ & _ & Hbefore
          & Himport & ->)].
  - rewrite (init_run _ _ _ _ _ _ _ Hexists), Hiso2 in Hsecond. injection Hsecond as <- <-.
    split; [| discriminate]. exists []. split; [now rewrite app_nil_r, Htrace | constructor].
  - assert (Hdir : module_dir = Client.iso_module_dir iso).
    { destruct Hbefore as [[Hsame _] | [Hnone _]]; congruence. }
    subst module_dir. rewrite <- Hname in Himport.
    rewrite <- Hm in Hreg. rewrite (import_registered E _ _ _ Hreg) in Himport.
    injection Himport as <- <-.
    destruct (init_requests _ _ _ _ _ _ _ _ _ _ Hexists Hiso2 Hsecond) as [Hmade Hclient].
    cbn [Client.iso_official] in Hmade. rewrite Ht in Hmade. split; [exact Hmade |].
    intros c2 Hc2. now rewrite (Hclient c2 Hc2).
Qed.

(** X12. Disposal unregisters the module, so a construction against the
    same install after the first client's disposal reuses the duplicate on
    disk but imports it again: it requests the import of the same module
    name and the client it returns holds a new module object, not the one
    the disposed client held. *)
Theorem reconstruction_imports_again
    (first : path) (account_number : Z) (password server : string) (timeout : Z)
    (second : path) (account_number' : Z) (password' server' : string) (timeout' : Z)
    (st st1 st2 st3 : State) (c1 c2 : Client.t) :
  Client.init E first account_number password server timeout st = (OK c1, st1) ->
  sys_modules st !! Client.module_name c1 = None ->
  Client.del E c1 st1 = (OK tt, st2) ->
  parent second = parent first ->
  Client.init E second account_number' password' server' timeout' st2 = (OK c2, st3) ->
  Client.module_dir c2 = Client.module_dir c1
  /\ Client.module_name c2 = Client.module_name c1
  /\ Client.official c2 <> Client.official c1
  /\ exists after, trace st3 = trace st2 ++ ReqImport (Client.module_name c1) :: after.
Proof.
  intros Hfirst Hnone Hdel Hparent Hsecond.
  pose proof Hfirst as Hinv.
  apply init_OK_inv in Hinv as (iso & s0 & answer & Hiso & -> & _ & _ & ->).
  cbn [client_of Client.module_name Client.official Client.module_dir] in *.
  rewrite del_run in Hdel. cbv zeta in Hdel.
  destruct (list_remove _ _) as [l |]; [| discriminate]. injection Hdel as <-.
  cbn [client_of Client.module_name Client.official Client.module_dir] in *.
  match type of Hsecond with
  | Client.init _ _ _ _ _ _ ?s = _ => assert (Hfs : fs s = fs s0) by reflexivity
  end.
  pose proof (construction_after_isolation E _ _ _ _ _ _ _ _ _ _ _ _ Hiso Hparent
                Hfs Hsecond) as (_ & _ & Hsame).
  destruct (Hsame c2 eq_refl) as (_ & Hdir & Hname & _).
  pose proof (copy_and_import_tables _ _ _ _ _ Hiso) as (_ & _ & _ & _ & Hmods).
  destruct Hmods as [(Hsome & _) | (_ & _ & Htrace & Hold)]; [congruence |].
  apply init_OK_inv in Hsecond as (iso2 & s0' & answer' & Hiso2 & -> & _ & _ & ->).
  cbn [client_of Client.module_name Client.official Client.module_dir] in *.
  pose proof (copy_and_import_tables _ _ _ _ _ Hiso2) as (_ & _ & _ & _ & Hmods2).
  state_simpl. rewrite Hname in Hmods2.
  destruct Hmods2 as [(Hsome & _) | (_ & _ & Htrace2 & Hnew)].
  { rewrite lookup_delete_eq in Hsome. discriminate. }
  repeat split; try assumption.
  - rewrite Hnew, Hold, Htrace. intros [= Hlen]. rewrite !length_app in Hlen.
    cbn in Hlen. lia.
  - eexists. rewrite Htrace2, <- app_assoc. reflexivity.
Qed.

End Sharing.

Lemma second_client_shares_module_witness :
  match fst (Demo.connect true Demo.connected) with
  | OK c2 => Client.official c2 = Client.official Demo.client
  | Raise _ => False
  end.
Proof.
  destruct (Demo.connect true Demo.connected) as [r st2] eqn:Hsecond.
  destruct (second_client_shares_module (Demo.env true true)
              Demo.terminal 5012345 "secret" "Broker-Demo" default_timeout
              Demo.terminal 5012345 "secret" "Broker-Demo" default_timeout
              Demo.boot Demo.connected Demo.connected st2 Demo.client r
              demo_connection eq_refl eq_refl eq_refl Hsecond)
    as [_ Hsame].
  cbn [fst]. destruct r as [c2 | e].
  - now apply Hsame.
  - vm_compute in Hsecond. discriminate Hsecond.
Defined.

Lemma demo_disposal :
  Client.del (Demo.env true true) Demo.client Demo.connected = (OK tt, Cases.disposed).
Proof. vm_compute. reflexivity. Qed.

Lemma reconstruction_imports_again_witness :
  match fst (Demo.connect true Cases.disposed) with
  | OK c2 => Client.official c2 <> Client.official Demo.client
  | Raise _ => False
  end.
Proof.
  destruct (Demo.connect true Cases.disposed) as [[c2 | e] st3] eqn:Hsecond; cbn [fst].
  - apply (reconstruction_imports_again (Demo.env true true)
             Demo.terminal 5012345 "secret" "Broker-Demo" default_timeout
             Demo.terminal 5012345 "secret" "Broker-Demo" default_timeout
             Demo.boot Demo.connected Cases.disposed st3 Demo.client c2
             demo_connection eq_refl demo_disposal eq_refl Hsecond).
  - vm_compute in Hsecond. discriminate Hsecond.
Defined.

(** ** Construction: the ways it fails before the import *)

Section ConstructionFailures.

Variable E : Env.

Variables (terminal_path : path) (account_number : Z) (password server : string)
  (timeout : Z).

(** The state in which the scan runs, when the probe passes and the name of
    the isolation directory is not taken by a file. *)
Lemma scan_state (st : State) :
  let probe := Client.test_file terminal_path (uuid4_hex E (uuid_draws st)) in
  let base := isolation_dir terminal_path in
  FS.dir_access (fs st) (parent terminal_path) = OK tt ->
  FS.is_dir (fs st) probe = false ->
  (forall content, FS.lookup (fs st) base <> Some (File content)) ->
  exists sb,
    (_ <- Client.check_write_permissions E terminal_path ;;
     fs_do (FS.mkdir_exist_ok base)) st = (OK tt, sb)
    /\ FS.is_dir (fs sb) base = true
    /\ duplicates (fs sb) base = duplicates (fs st) base
    /\ FS.lookup (fs sb) probe = None
    /\ (forall q, q <> probe -> q <> base -> FS.lookup (fs sb) q = FS.lookup (fs st) q)
    /\ (FS.lookup (fs st) base = None -> FS.lookup (fs sb) base = Some (Dir true))
    /\ (FS.lookup (fs st) base <> None -> FS.lookup (fs sb) base = FS.lookup (fs st) base)
    /\ sys_path sb = sys_path st /\ sys_modules sb = sys_modules st
    /\ trace sb = trace st /\ stdout sb = stdout st
    /\ uuid_draws sb = S (uuid_draws st).
Proof.
  cbv zeta. intros Hacc Hfree Hbase.
  set (probe := Client.test_file terminal_path (uuid4_hex E (uuid_draws st))) in *.
  set (base := isolation_dir terminal_path) in *.
  pose proof (probed_passed E terminal_path st Hfree Hacc) as Hprobed.
  assert (Hcheck : Client.check_write_permissions E terminal_path st
                   = (OK tt, set_fs (FS.remove (fs st) probe)
                               (set_uuid_draws (S (uuid_draws st)) st))).
  { rewrite check_write_permissions_run. cbv zeta. fold probe. rewrite Hacc.
    unfold FS.is_dir in Hfree. now destruct (FS.lookup (fs st) probe) as [[c | w] |]. }
  destruct Hprobed as (Hkind_a & Hlook_a & Hlist_a & _ & _ & _ & _ & Hpass & _).
  destruct (Hpass eq_refl) as [Hgone _]. fold probe in Hlook_a, Hgone.
  set (sa := set_fs (FS.remove (fs st) probe) (set_uuid_draws (S (uuid_draws st)) st)) in *.
  assert (Hbase_a : FS.lookup (fs sa) base = FS.lookup (fs st) base).
  { apply Hlook_a. intros Heq. symmetry in Heq. revert Heq. apply probe_neq_isolation_dir. }
  assert (Hacc_a : FS.dir_access (fs sa) (parent base) = OK tt).
  { unfold base, isolation_dir. rewrite parent_joinpath. unfold FS.dir_access.
    rewrite Hlook_a; [exact Hacc |].
    intros Heq. apply (f_equal (@length string)) in Heq.
    unfold probe, Client.test_file, joinpath in Heq. rewrite length_app in Heq.
    cbn in Heq. lia. }
  destruct (fs_do (FS.mkdir_exist_ok base) sa) as [rb sb] eqn:Hmk.
  assert (Hok : rb = OK tt).
  { revert Hmk. unfold fs_do, FS.mkdir_exist_ok. rewrite Hbase_a.
    destruct (FS.lookup (fs st) base) as [[c | w] |] eqn:Hb.
    - now destruct (Hbase c).
    - now intros [= <- _].
    - rewrite Hacc_a. cbn [rbind]. now intros [= <- _]. }
  subst rb. exists sb.
  pose proof (mkdir_keeps_duplicates _ _ _ Hmk) as (Hdup_b & Hlook_b & _).
  pose proof (fs_do_tables _ _ _ _ Hmk) as (Hp & Hm & Hu & Ht & Ho).
  pose proof (mkdir_effect _ _ _ _ Hmk) as (Heff & _).
  destruct (Heff eq_refl) as [Hdir Hshape].
  split; [| repeat split].
  - now rewrite (bind_OK _ _ _ _ _ Hcheck).
  - exact Hdir.
  - rewrite Hdup_b. apply duplicates_same; [exact Hlist_a | intros; apply Hkind_a].
  - rewrite Hlook_b; [exact Hgone | apply probe_neq_isolation_dir].
  - intros q Hq Hqb. rewrite Hlook_b by exact Hqb. now apply Hlook_a.
  - intros Hnone. destruct Hshape as [Hsame | [_ Hnew]].
    + unfold FS.is_dir in Hdir. rewrite Hsame, Hbase_a, Hnone in Hdir. discriminate.
    + rewrite Hnew, lookup_app, Hbase_a, Hnone, lookup_single. now rewrite path_eqb_refl.
  - intros Hsome. destruct Hshape as [Hsame | [Habs _]]; [congruence |].
    rewrite Hbase_a in Habs. contradiction.
  - now rewrite Hp.
  - now rewrite Hm.
  - now rewrite Ht.
  - now rewrite Ho.
  - now rewrite Hu.
Qed.

(** X13. When the name of the probe file is taken by a directory, the
    construction raises the [InitializeError] about write permission,
    whether or not the terminal's directory can be written: [touch]
    accepts the directory and [unlink] refuses it.  The filesystem and the
    interpreter are as before. *)
Theorem probe_name_taken_by_directory (st : State) :
  let probe := Client.test_file terminal_path (uuid4_hex E (uuid_draws st)) in
  FS.exists_ (fs st) terminal_path = true ->
  FS.is_dir (fs st) probe = true ->
  Client.init E terminal_path account_number password server timeout st
  = (Raise (not_writable E terminal_path), set_uuid_draws (S (uuid_draws st)) st).
Proof.
  cbv zeta. intros Hexists Htaken.
  rewrite (init_run _ _ _ _ _ _ _ Hexists).
  unfold Client.copy_and_import_official_module.
  erewrite bind_Raise; [reflexivity |].
  rewrite check_write_permissions_run. cbv zeta. unfold FS.is_dir in Htaken.
  now destruct (FS.lookup (fs st) _) as [[c | w] |].
Qed.

(** X14. When the probe passes but the name [py2mql5] in the terminal's
    directory is taken by a file, the construction raises
    [FileExistsError] from [mkdir], not [InitializeError]; by then only
    the probe has touched the filesystem, and the interpreter is as
    before. *)
Theorem isolation_dir_name_taken_by_file (st : State) (content : string) :
  let probe := Client.test_file terminal_path (uuid4_hex E (uuid_draws st)) in
  FS.exists_ (fs st) terminal_path = true ->
  FS.dir_access (fs st) (parent terminal_path) = OK tt ->
  FS.is_dir (fs st) probe = false ->
  FS.lookup (fs st) (isolation_dir terminal_path) = Some (File content) ->
  exists st',
    Client.init E terminal_path account_number password server timeout st
    = (Raise (OSError "FileExistsError"), st')
    /\ (forall q, q <> probe -> FS.lookup (fs st') q = FS.lookup (fs st) q)
    /\ sys_path st' = sys_path st
    /\ sys_modules st' = sys_modules st
    /\ trace st' = trace st.
Proof.
  cbv zeta. intros Hexists Hacc Hfree Hfile.
  pose proof (probed_passed E terminal_path st Hfree Hacc)
    as (_ & Hlook & _ & Hp & Hm & Ht & _).
  assert (Hcheck : Client.check_write_permissions E terminal_path st
                   = (OK tt, set_fs (FS.remove (fs st)
                                       (Client.test_file terminal_path
                                          (uuid4_hex E (uuid_draws st))))
                               (set_uuid_draws (S (uuid_draws st)) st))).
  { rewrite check_write_permissions_run. cbv zeta. rewrite Hacc.
    unfold FS.is_dir in Hfree. now destruct (FS.lookup (fs st) _) as [[c | w] |]. }
  rewrite (init_run _ _ _ _ _ _ _ Hexists).
  unfold Client.copy_and_import_official_module. fold (isolation_dir terminal_path).
  rewrite (bind_OK _ _ _ _ _ Hcheck).
  match goal with
  | |- context [bind (fs_do ?op) _ ?sa] =>
      assert (Hmk : fs_do op sa = (Raise (OSError "FileExistsError"), sa))
  end.
  { unfold fs_do, FS.mkdir_exist_ok. cbn [fs set_fs].
    rewrite Hlook, Hfile; [reflexivity |].
    intros Heq. symmetry in Heq. revert Heq. apply probe_neq_isolation_dir. }
  rewrite (bind_Raise _ _ _ _ _ Hmk).
  eexists. split; [reflexivity |]. now repeat split.
Qed.

(** X15. When the isolation directory holds no duplicate and
    [find_spec] does not locate the vendor package (no spec, or a spec
    without origin), the construction raises [InitializeError] saying that
    the module was not found.  By then the isolation directory exists, still
    without a duplicate; [sys.path] and [sys.modules] are as before and no
    request has been made. *)
Theorem vendor_module_not_found (st : State) :
  let probe := Client.test_file terminal_path (uuid4_hex E (uuid_draws st)) in
  let base := isolation_dir terminal_path in
  FS.exists_ (fs st) terminal_path = true ->
  FS.dir_access (fs st) (parent terminal_path) = OK tt ->
  FS.is_dir (fs st) probe = false ->
  (forall content, FS.lookup (fs st) base <> Some (File content)) ->
  duplicates (fs st) base = [] ->
  (find_spec E OFFICIAL_MODULE_NAME = None
   \/ find_spec E OFFICIAL_MODULE_NAME = Some (mkSpec None)) ->
  exists st',
    Client.init E terminal_path account_number password server timeout st
    = (Raise (InitializeError [ArgStr "Module MetaTrader5 not found"]), st')
    /\ FS.is_dir (fs st') base = true
    /\ duplicates (fs st') base = []
    /\ sys_path st' = sys_path st
    /\ sys_modules st' = sys_modules st
    /\ trace st' = trace st
    /\ stdout st' = stdout st.
Proof.
  cbv zeta. intros Hexists Hacc Hfree Hbase Hnone Hspec.
  destruct (scan_state st Hacc Hfree Hbase)
    as (sb & Hrun & Hdir & Hdup & _ & _ & _ & _ & Hp & Hm & Ht & Ho & _).
  apply bind_inv in Hrun as [([] & sa & Hcheck & Hmk) | (e & _ & Habs)]; [| discriminate].
  rewrite (init_run _ _ _ _ _ _ _ Hexists).
  unfold Client.copy_and_import_official_module. fold (isolation_dir terminal_path).
  rewrite (bind_OK _ _ _ _ _ Hcheck), (bind_OK _ _ _ _ _ Hmk).
  rewrite (bind_OK _ _ _ _ _ (existing_modules_run _ _ Hdir)).
  rewrite Hdup, Hnone.
  assert (Hcopy : Client.copy_official_module E (isolation_dir terminal_path) sb
                  = (Raise (InitializeError [ArgStr "Module MetaTrader5 not found"]),
                     set_uuid_draws (S (uuid_draws sb)) sb)).
  { unfold Client.copy_official_module, Client.uuid4, bind, raise.
    destruct Hspec as [-> | ->]; reflexivity. }
  rewrite (bind_Raise _ _ _ _ _ Hcopy).
  eexists. split; [reflexivity |]. state_simpl. rewrite Hdup, Hnone. now repeat split.
Qed.


End ConstructionFailures.

Lemma probe_name_taken_by_directory_witness :
  fst (Demo.connect true (Cases.boot_with [(["mt5"; "py2mql5_test_01234567"], Dir true)]))
  = Raise (not_writable (Demo.env true true) Demo.terminal).
Proof.
  unfold Demo.connect.
  now rewrite (probe_name_taken_by_directory (Demo.env true true) Demo.terminal 5012345
                 "secret" "Broker-Demo" default_timeout
                 (Cases.boot_with [(["mt5"; "py2mql5_test_01234567"], Dir true)])
                 eq_refl eq_refl).
Defined.

Lemma isolation_dir_name_taken_by_file_witness :
  fst (Demo.connect true (Cases.boot_with [(["mt5"; "py2mql5"], File "notes")]))
  = Raise (OSError "FileExistsError").
Proof.
  destruct (isolation_dir_name_taken_by_file (Demo.env true true) Demo.terminal 5012345
              "secret" "Broker-Demo" default_timeout
              (Cases.boot_with [(["mt5"; "py2mql5"], File "notes")]) "notes"
              eq_refl eq_refl eq_refl eq_refl)
    as (st' & Hrun & _).
  unfold Demo.connect. now rewrite Hrun.
Defined.

Lemma vendor_module_not_found_witness :
  fst (Client.init Cases.env_without_vendor Demo.terminal 5012345 "secret" "Broker-Demo"
         default_timeout Demo.boot)
  = Raise (InitializeError [ArgStr "Module MetaTrader5 not found"]).
Proof.
  destruct (vendor_module_not_found Cases.env_without_vendor Demo.terminal 5012345
              "secret" "Broker-Demo" default_timeout Demo.boot
              eq_refl eq_refl eq_refl)
    as (st' & Hrun & _).
  - intros content. discriminate.
  - reflexivity.
  - now left.
  - now rewrite Hrun.
Defined.

(** ** The duplicate: what [copytree] and the header leave *)

Section Copies.

Lemma strip_prefix_app (d r : path) : strip_prefix d (d ++ r) = Some r.
Proof.
  induction d as [| x d IH]; [reflexivity |].
  cbn [app strip_prefix]. now rewrite String.eqb_refl.
Qed.

Lemma strip_prefix_Some (d p r : path) : strip_prefix d p = Some r -> p = d ++ r.
Proof.
  revert p. induction d as [| x d IH]; intros p; cbn [strip_prefix].
  - now intros [= <-].
  - destruct p as [| y p]; [discriminate |].
    destruct (String.eqb x y) eqn:Hxy; [| discriminate].
    apply String.eqb_eq in Hxy. subst y. intros H. cbn [app]. f_equal. now apply IH.
Qed.

(** What [copytree] writes below its target is what lies below its source. *)
Lemma lookup_retarget (src dst : path) (c : string) (rest : path) (f : filesystem) :
  FS.lookup (List.flat_map (FS.retarget src dst) f) (dst ++ c :: rest)
  = FS.lookup f (src ++ c :: rest).
Proof.
  induction f as [| e f IH]; [reflexivity |].
  cbn [List.flat_map]. rewrite lookup_app.
  change (e :: f) with ([e] ++ f). rewrite (lookup_app [e] f).
  rewrite IH. destruct e as [p n]. rewrite lookup_single.
  unfold FS.retarget. cbn [fst snd].
  destruct (strip_prefix src p) as [[| c' rest'] |] eqn:Hp.
  - apply strip_prefix_Some in Hp. rewrite app_nil_r in Hp. subst p.
    replace (path_eqb src (src ++ c :: rest)) with false; [reflexivity |].
    symmetry. apply path_eqb_false. intros H. apply (f_equal (@length string)) in H.
    rewrite length_app in H. cbn in H. lia.
  - apply strip_prefix_Some in Hp. subst p. rewrite lookup_single.
    destruct (path_eqb (src ++ c' :: rest') (src ++ c :: rest)) eqn:Heq.
    + apply path_eqb_true in Heq. apply app_inv_head in Heq. rewrite Heq.
      now rewrite path_eqb_refl.
    + replace (path_eqb (dst ++ c' :: rest') (dst ++ c :: rest)) with false; [reflexivity |].
      symmetry. apply path_eqb_false. intros H. apply app_inv_head in H.
      apply path_eqb_false in Heq. congruence.
  - replace (path_eqb p (src ++ c :: rest)) with false; [reflexivity |].
    symmetry. apply path_eqb_false. intros ->. now rewrite strip_prefix_app in Hp.
Qed.

(** [copytree] writes nothing outside its target. *)
Lemma lookup_retarget_outside (src dst q : path) (f : filesystem) :
  strip_prefix dst q = None ->
  FS.lookup (List.flat_map (FS.retarget src dst) f) q = None.
Proof.
  intros Hq. unfold FS.lookup.
  destruct (List.find _ _) as [e |] eqn:Hfind; [exfalso | reflexivity].
  apply find_some in Hfind as [Hin Heq]. apply path_eqb_true in Heq.
  apply in_flat_map in Hin as (e0 & _ & Hin). unfold FS.retarget in Hin.
  destruct (strip_prefix src (fst e0)) as [[| c rest] |]; try contradiction.
  destruct Hin as [<- | []]. cbn [fst] in Heq. subst q.
  now rewrite strip_prefix_app in Hq.
Qed.

End Copies.

(** What the header's [write] leaves in a text file *)

Section TextFiles.

Lemma append_empty (a : string) : a +:+ EmptyString = a.
Proof.
  induction a as [| x a IH]; [reflexivity |].
  change (String x a +:+ EmptyString) with (String x (a +:+ EmptyString)). now rewrite IH.
Qed.

Lemma write_newlines_app (linesep a b : string) :
  write_newlines linesep (a +:+ b) = write_newlines linesep a +:+ write_newlines linesep b.
Proof.
  induction a as [| x a IH]; [reflexivity |].
  change (String x a +:+ b) with (String x (a +:+ b)). cbn [write_newlines].
  now rewrite IH, append_assoc.
Qed.

Lemma write_newlines_newline (s : string) : write_newlines newline s = s.
Proof.
  induction s as [| c s IH]; [reflexivity |].
  cbn [write_newlines]. rewrite IH.
  destruct (Ascii.eqb c LF) eqn:Hc; [| reflexivity].
  apply Ascii.eqb_eq in Hc. now subst c.
Qed.

Lemma universal_newlines_plain (s : string) :
  free_of CR s = true -> universal_newlines s = s.
Proof.
  unfold free_of. induction s as [| c s IH]; [reflexivity |].
  cbn [list_ascii_of_string forallb]. intros [Hc Hs]%andb_true_iff.
  apply negb_true_iff in Hc. cbn [universal_newlines]. now rewrite Hc, IH.
Qed.

Lemma string_drop_all (n : nat) (s : string) :
  String.length s <= n -> string_drop n s = EmptyString.
Proof.
  revert s. induction n as [| n IH]; intros [| c s] Hlen; cbn [String.length] in Hlen;
    try reflexivity; [lia |].
  cbn [string_drop]. apply IH. lia.
Qed.

(** The file starts with the header, its line ends written as the platform
    writes them. *)
Lemma rewritten_header (linesep header content : string) :
  String.prefix (write_newlines linesep header) (FS.rewritten linesep header content) = true.
Proof.
  unfold FS.rewritten. cbv zeta. rewrite write_newlines_app, append_assoc.
  apply prefix_append.
Qed.

(** Where a line ends with ["\n"] and the file has no ["\r"], the file is
    the header followed by what the file was. *)
Lemma rewritten_plain (header content : string) :
  free_of CR content = true -> FS.rewritten newline header content = header +:+ content.
Proof.
  intros Hfree. unfold FS.rewritten. cbv zeta.
  rewrite write_newlines_newline, (universal_newlines_plain _ Hfree), string_drop_all.
  - apply append_empty.
  - rewrite length_append. lia.
Qed.

End TextFiles.

Section FreshCopy.

Variable E : Env.

Lemma lookup_cons (p q : path) (n : node) (f : filesystem) :
  FS.lookup ((p, n) :: f) q = if path_eqb p q then Some n else FS.lookup f q.
Proof.
  unfold FS.lookup. cbn [List.find fst snd]. now destruct (path_eqb p q).
Qed.

Lemma app_cons_neq (d : path) (c : string) (rest : path) : d <> d ++ c :: rest.
Proof.
  intros H. apply (f_equal (@length string)) in H. rewrite length_app in H. cbn in H. lia.
Qed.

(** The filesystem after [copytree] into a place where nothing is. *)
Lemma copytree_run (src dst : path) (f : filesystem) :
  FS.is_dir f src = true ->
  (forall r, FS.lookup f (dst ++ r) = None) ->
  FS.dir_access f (parent dst) = OK tt ->
  exists f',
    FS.copytree src dst f = OK f'
    /\ FS.lookup f' dst = Some (Dir true)
    /\ (forall q, strip_prefix dst q = None -> FS.lookup f' q = FS.lookup f q)
    /\ (forall c rest, FS.lookup f' (dst ++ c :: rest) = FS.lookup f (src ++ c :: rest)).
Proof.
  intros Hsrc Hfree Hacc. unfold FS.copytree, FS.is_dir in *.
  destruct (FS.lookup f src) as [[c | w] |]; try discriminate.
  pose proof (Hfree []) as Hdst. rewrite app_nil_r in Hdst. rewrite Hdst, Hacc. cbn [rbind].
  eexists. split; [reflexivity |]. repeat split.
  - now rewrite lookup_app, Hdst, lookup_cons, path_eqb_refl.
  - intros q Hq. rewrite lookup_app. destruct (FS.lookup f q); [reflexivity |].
    rewrite lookup_cons.
    destruct (path_eqb dst q) eqn:Heq.
    + apply path_eqb_true in Heq. subst q.
      rewrite <- (app_nil_r dst) in Hq at 2. now rewrite strip_prefix_app in Hq.
    + now apply lookup_retarget_outside.
  - intros c0 rest. rewrite lookup_app, Hfree, lookup_cons.
    replace (path_eqb dst (dst ++ c0 :: rest)) with false.
    + apply lookup_retarget.
    + symmetry. apply path_eqb_false, app_cons_neq.
Qed.

Lemma ignore_header_written :
  String.concat newline Client.ignore_comments +:+ newline +:+ newline = ignore_header.
Proof. reflexivity. Qed.

(** The [else] branch on a place where nothing is: the package is copied,
    and the header is written when the copy has a file [__init__.py]. *)
Lemma copy_official_module_run (base origin : path) (sb : State) :
  let hex := uuid4_hex E (uuid_draws sb) in
  let module_dir := joinpath base (new_module_name hex) in
  let src := parent origin in
  find_spec E OFFICIAL_MODULE_NAME = Some (mkSpec (Some origin)) ->
  FS.is_dir (fs sb) src = true ->
  FS.dir_access (fs sb) base = OK tt ->
  (forall r, FS.lookup (fs sb) (module_dir ++ r) = None) ->
  exists sc,
    Client.copy_official_module E base sb
    = (match entry_at (fs sb) (joinpath src "__init__.py") with
       | Regular content =>
           if utf8_valid content
           then OK (module_dir, new_module_name hex, Some (new_module_id hex))
           else Raise (UnicodeDecodeError "utf-8")
       | Directory => Raise (OSError "IsADirectoryError")
       | Absent => Raise (OSError "FileNotFoundError")
       end,
       sc)
    /\ FS.lookup (fs sc) module_dir = Some (Dir true)
    /\ (forall q, strip_prefix module_dir q = None -> FS.lookup (fs sc) q = FS.lookup (fs sb) q)
    /\ (forall c rest, entry_at (fs sc) (module_dir ++ c :: rest)
                       = duplicated (line_sep E) (c :: rest)
                           (entry_at (fs sb) (src ++ c :: rest)))
    /\ FS.listing base (fs sc) = FS.listing base (fs sb) ++ [module_dir]
    /\ sys_path sc = sys_path sb /\ sys_modules sc = sys_modules sb
    /\ trace sc = trace sb /\ stdout sc = stdout sb
    /\ uuid_draws sc = S (uuid_draws sb).
Proof.
  cbv zeta. intros Hspec Hsrc Hacc Hfree.
  set (hex := uuid4_hex E (uuid_draws sb)) in *.
  set (module_dir := joinpath base (new_module_name hex)) in *.
  destruct (copytree_run (parent origin) module_dir (fs sb) Hsrc Hfree)
    as (fa & Hcopy & Hdir & Hout & Hin).
  { unfold module_dir. now rewrite parent_joinpath. }
  pose proof (copytree_effect _ _ _ _ _ Hcopy) as (_ & _ & _ & _ & Hlist).
  assert (Hfile : FS.lookup fa (joinpath module_dir "__init__.py")
                  = FS.lookup (fs sb) (joinpath (parent origin) "__init__.py"))
    by (unfold joinpath; apply Hin).
  assert (Hplain : forall c rest,
            path_eqb (joinpath module_dir "__init__.py") (module_dir ++ c :: rest)
            = path_eqb (c :: rest) ["__init__.py"]).
  { intros c rest. unfold joinpath.
    destruct (path_eqb (c :: rest) ["__init__.py"]) eqn:Hrel.
    - apply path_eqb_true in Hrel. rewrite Hrel. apply path_eqb_refl.
    - apply path_eqb_false. intros Heq. apply app_inv_head in Heq.
      apply path_eqb_false in Hrel. congruence. }
  unfold Client.copy_official_module, Client.uuid4, Client.add_ignore_comments.
  unfold bind at 1. rewrite Hspec. fold hex. fold (new_module_id hex).
  fold (new_module_name hex). fold module_dir.
  unfold bind at 1, fs_do at 1. state_simpl. rewrite Hcopy.
  unfold bind at 1, fs_do at 1. state_simpl. rewrite ignore_header_written.
  unfold entry_at at 1.
  destruct (FS.prepend (line_sep E) (joinpath module_dir "__init__.py") ignore_header fa)
    as [fb | e] eqn:Hpre.
  - pose proof (prepend_keeps _ _ _ _ _ Hpre) as (_ & _ & Hlisting).
    unfold FS.prepend in Hpre. rewrite Hfile in Hpre.
    destruct (FS.lookup (fs sb) (joinpath (parent origin) "__init__.py"))
      as [[content | w] |] eqn:Hinit; try discriminate.
    destruct (utf8_valid content) eqn:Hvalid; [| discriminate].
    injection Hpre as <-.
    eexists. split; [reflexivity |]. state_simpl. repeat split.
    + rewrite lookup_map_file.
      replace (path_eqb (joinpath module_dir "__init__.py") module_dir) with false;
        [exact Hdir |].
      symmetry. apply path_eqb_false, joinpath_neq_self.
    + intros q Hq. rewrite lookup_map_file.
      replace (path_eqb (joinpath module_dir "__init__.py") q) with false; [now apply Hout |].
      symmetry. apply path_eqb_false. intros <-. unfold joinpath in Hq.
      now rewrite strip_prefix_app in Hq.
    + intros c rest. unfold entry_at. rewrite lookup_map_file, Hin, Hplain. unfold duplicated.
      destruct (path_eqb (c :: rest) ["__init__.py"]) eqn:Hrel.
      * apply path_eqb_true in Hrel. rewrite Hrel.
        fold (joinpath (parent origin) "__init__.py"). now rewrite Hinit, Hvalid.
      * now destruct (FS.lookup (fs sb) (parent origin ++ c :: rest)) as [[c0 | w] |].
    + now rewrite Hlisting.
  - unfold FS.prepend in Hpre. rewrite Hfile in Hpre.
    assert (Hsame : forall c rest,
              duplicated (line_sep E) (c :: rest)
                (entry_at (fs sb) (parent origin ++ c :: rest))
              = entry_at (fs sb) (parent origin ++ c :: rest)).
    { intros c rest. unfold duplicated, entry_at.
      destruct (path_eqb (c :: rest) ["__init__.py"]) eqn:Hrel.
      - apply path_eqb_true in Hrel. rewrite Hrel.
        fold (joinpath (parent origin) "__init__.py").
        destruct (FS.lookup (fs sb) (joinpath (parent origin) "__init__.py"))
          as [[content | w] |]; try reflexivity.
        destruct (utf8_valid content); [discriminate | reflexivity].
      - now destruct (FS.lookup (fs sb) (parent origin ++ c :: rest)) as [[c0 | w] |]. }
    destruct (FS.lookup (fs sb) (joinpath (parent origin) "__init__.py"))
      as [[content | w] |] eqn:Hinit;
      [destruct (utf8_valid content) eqn:Hvalid; [discriminate |] | |];
      injection Hpre as <-;
      (eexists; split; [reflexivity |]); state_simpl; repeat split; try assumption;
      intros c rest; rewrite Hsame; unfold entry_at; now rewrite Hin.
Qed.

End FreshCopy.

(** ** Construction on an install without a duplicate *)

Section FreshInstall.

Variable E : Env.

Variables (terminal_path : path) (account_number : Z) (password server : string)
  (timeout : Z).

Lemma strip_prefix_short (d q : path) : length q < length d -> strip_prefix d q = None.
Proof.
  intros Hlen. destruct (strip_prefix d q) as [r |] eqn:H; [| reflexivity].
  apply strip_prefix_Some in H. subst q. rewrite length_app in Hlen. lia.
Qed.

Lemma strip_prefix_None (d r : path) : strip_prefix d (d ++ r) <> None.
Proof. now rewrite strip_prefix_app. Qed.

(** A path that lies strictly below [d] and in [p] has [p] at or below [d]. *)
Lemma below_entry (d p : path) (c x : string) (rest : path) :
  d ++ c :: rest = joinpath p x -> exists r, p = d ++ r.
Proof.
  unfold joinpath. intros H. apply (f_equal (@removelast string)) in H.
  rewrite removelast_last, removelast_app in H by discriminate.
  now exists (removelast (c :: rest)).
Qed.

(** Nothing below a directory that does not contain [q] is [q] or above
    [q]. *)
Lemma outside_above (src p : path) (x y : string) (c : string) (rest : path) :
  strip_prefix src (joinpath (joinpath p x) y) = None ->
  src ++ c :: rest <> joinpath p x.
Proof.
  intros Hout Heq. apply below_entry in Heq as [r ->].
  unfold joinpath in Hout. rewrite <- !app_assoc in Hout. now apply strip_prefix_None in Hout.
Qed.

Lemma outside_beside (src p : path) (x y z : string) (c : string) (rest : path) :
  strip_prefix src (joinpath (joinpath p x) y) = None ->
  src ++ c :: rest <> joinpath p z.
Proof.
  intros Hout Heq. apply below_entry in Heq as [r ->].
  unfold joinpath in Hout. rewrite <- !app_assoc in Hout. now apply strip_prefix_None in Hout.
Qed.

Lemma strip_prefix_beside (d q : path) :
  length q = length d -> q <> d -> strip_prefix d q = None.
Proof.
  intros Hlen Hneq. destruct (strip_prefix d q) as [r |] eqn:H; [| reflexivity].
  apply strip_prefix_Some in H. subst q. rewrite length_app in Hlen.
  destruct r; [now rewrite app_nil_r in Hneq | cbn in Hlen; lia].
Qed.

(** The run of [__copy_and_import_official_module__] on an install without
    a duplicate, up to the import. *)
Lemma fresh_isolation_run (st : State) (origin : path) :
  let hex := uuid4_hex E (S (uuid_draws st)) in
  let probe := Client.test_file terminal_path (uuid4_hex E (uuid_draws st)) in
  let base := isolation_dir terminal_path in
  let module_dir := joinpath base (new_module_name hex) in
  let src := parent origin in
  FS.dir_access (fs st) (parent terminal_path) = OK tt ->
  FS.is_dir (fs st) probe = false ->
  (FS.lookup (fs st) base = None \/ FS.lookup (fs st) base = Some (Dir true)) ->
  duplicates (fs st) base = [] ->
  find_spec E OFFICIAL_MODULE_NAME = Some (mkSpec (Some origin)) ->
  FS.is_dir (fs st) src = true ->
  strip_prefix src module_dir = None ->
  (forall r, FS.lookup (fs st) (module_dir ++ r) = None) ->
  exists sc,
    Client.copy_and_import_official_module E terminal_path st
    = match entry_at (fs st) (joinpath src "__init__.py") with
      | Regular content =>
          if utf8_valid content then
            let (rm, sd) := Client.import_ E (new_module_name hex)
                              (set_sys_path (sys_path st ++ [Client.path_str E base]) sc) in
            (match rm with
             | OK m => OK (Client.mkIsolation base module_dir (new_module_name hex)
                             (Some (new_module_id hex)) m)
             | Raise e => Raise e
             end, sd)
          else (Raise (UnicodeDecodeError "utf-8"), sc)
      | Directory => (Raise (OSError "IsADirectoryError"), sc)
      | Absent => (Raise (OSError "FileNotFoundError"), sc)
      end
    /\ FS.lookup (fs sc) probe = None
    /\ FS.lookup (fs sc) base = Some (Dir true)
    /\ FS.lookup (fs sc) module_dir = Some (Dir true)
    /\ (forall c rest, entry_at (fs sc) (module_dir ++ c :: rest)
                       = duplicated (line_sep E) (c :: rest)
                           (entry_at (fs st) (src ++ c :: rest)))
    /\ (forall q, q <> probe -> q <> base -> strip_prefix module_dir q = None ->
                  FS.lookup (fs sc) q = FS.lookup (fs st) q)
    /\ (forall r, FS.lookup (fs sc) (src ++ r) = FS.lookup (fs st) (src ++ r))
    /\ duplicates (fs sc) base = [module_dir]
    /\ sys_path sc = sys_path st /\ sys_modules sc = sys_modules st
    /\ trace sc = trace st /\ stdout sc = stdout st
    /\ uuid_draws sc = S (S (uuid_draws st)).
Proof.
  cbv zeta. intros Hacc Hfree Hbase Hnone Hspec Hsrc Hout Hempty.
  set (hex := uuid4_hex E (S (uuid_draws st))) in *.
  set (probe := Client.test_file terminal_path (uuid4_hex E (uuid_draws st))) in *.
  set (base := isolation_dir terminal_path) in *.
  set (module_dir := joinpath base (new_module_name hex)) in *.
  destruct (scan_state E terminal_path st Hacc Hfree)
    as (sb & Hrun & Hdir & Hdup & Hprobe & Hsame & Hnew & Hold & Hp & Hm & Ht & Ho & Hu).
  { intros c. fold base. destruct Hbase as [-> | ->]; discriminate. }
  fold base probe in Hrun, Hdir, Hdup, Hprobe, Hsame, Hnew, Hold.
  assert (Hbase_b : FS.lookup (fs sb) base = Some (Dir true)).
  { destruct Hbase as [Hb | Hb]; [now apply Hnew | rewrite Hold; congruence]. }
  assert (Hshort : forall q, length q <= length base -> strip_prefix module_dir q = None).
  { intros q Hq. apply strip_prefix_short. unfold module_dir, joinpath.
    rewrite length_app. cbn. lia. }
  assert (Hdeep : forall r, module_dir ++ r <> probe /\ module_dir ++ r <> base).
  { intros r. split; intros Heq; apply (f_equal (@length string)) in Heq;
      [unfold probe in Heq; rewrite (probe_length terminal_path) in Heq |];
      fold base in Heq; unfold module_dir, joinpath in Heq; rewrite !length_app in Heq;
      cbn in Heq; lia. }
  assert (Hsrc_probe : parent origin <> probe).
  { intros Heq. rewrite Heq, Hfree in Hsrc. discriminate. }
  assert (Hsrc_base : parent origin <> base).
  { intros Heq. rewrite Heq in Hout. unfold module_dir, joinpath in Hout.
    now apply strip_prefix_None in Hout. }
  assert (Hbelow : forall c rest, parent origin ++ c :: rest <> probe
                                  /\ parent origin ++ c :: rest <> base).
  { intros c rest. split.
    - apply (outside_beside _ _ "py2mql5" (new_module_name hex)). exact Hout.
    - apply (outside_above _ _ _ (new_module_name hex)). exact Hout. }
  assert (Hsrc_fs : forall r, FS.lookup (fs sb) (parent origin ++ r)
                              = FS.lookup (fs st) (parent origin ++ r)).
  { intros [| c rest].
    - rewrite app_nil_r. apply Hsame; assumption.
    - apply Hsame; apply Hbelow. }
  destruct (copy_official_module_run E base origin sb) as
    (sc & Hcopy & Hmd & Houtside & Hinside & Hlist & Hp_c & Hm_c & Ht_c & Ho_c & Hu_c).
  { exact Hspec. }
  { unfold FS.is_dir. rewrite <- (app_nil_r (parent origin)), Hsrc_fs, app_nil_r. exact Hsrc. }
  { unfold FS.dir_access. now rewrite Hbase_b. }
  { intros r. rewrite Hu. fold hex module_dir. rewrite Hsame; [apply Hempty | |]; apply Hdeep. }
  rewrite Hu in Hcopy, Hmd, Houtside, Hinside, Hlist.
  fold hex module_dir in Hcopy, Hmd, Houtside, Hinside, Hlist.
  assert (Hentry : entry_at (fs sb) (joinpath (parent origin) "__init__.py")
                   = entry_at (fs st) (joinpath (parent origin) "__init__.py"))
    by (unfold entry_at, joinpath; now rewrite Hsrc_fs).
  rewrite Hentry in Hcopy.
  exists sc. split; [| repeat split].
  - apply bind_inv in Hrun as [([] & sa & Hcheck & Hmk) | (e & _ & Habs)]; [| discriminate].
    unfold Client.copy_and_import_official_module. fold (isolation_dir terminal_path). fold base.
    rewrite (bind_OK _ _ _ _ _ Hcheck), (bind_OK _ _ _ _ _ Hmk).
    rewrite (bind_OK _ _ _ _ _ (existing_modules_run _ _ Hdir)).
    rewrite Hdup, Hnone.
    destruct (entry_at (fs st) (joinpath (parent origin) "__init__.py"))
      as [| | content].
    + now rewrite (bind_Raise _ _ _ _ _ Hcopy).
    + now rewrite (bind_Raise _ _ _ _ _ Hcopy).
    + destruct (utf8_valid content); [| now rewrite (bind_Raise _ _ _ _ _ Hcopy)].
      rewrite (bind_OK _ _ _ _ _ Hcopy).
      unfold bind, modify, ret. rewrite Hp_c, Hp.
      match goal with
      | |- context [Client.import_ E ?n ?s] => destruct (Client.import_ E n s) as [[m | e] sd]
      end; reflexivity.
  - rewrite Houtside; [exact Hprobe |]. apply Hshort.
    unfold probe. now rewrite (probe_length terminal_path).
  - rewrite Houtside; [exact Hbase_b |]. now apply Hshort.
  - exact Hmd.
  - intros c rest. rewrite Hinside. unfold entry_at. now rewrite Hsrc_fs.
  - intros q Hq_probe Hq_base Hq. rewrite Houtside by exact Hq. now apply Hsame.
  - intros r. rewrite Houtside; [apply Hsrc_fs |].
    destruct (strip_prefix module_dir (parent origin ++ r)) as [r' |] eqn:Hr; [| reflexivity].
    apply strip_prefix_Some, app_eq_app in Hr as (l & [[Hin _] | [Hin _]]).
    + unfold FS.is_dir in Hsrc. now rewrite Hin, Hempty in Hsrc.
    + rewrite Hin in Hout. now apply strip_prefix_None in Hout.
  - unfold duplicates. rewrite Hlist, filter_app.
    replace (List.filter (is_duplicate (fs sc)) (FS.listing base (fs sb))) with (@nil path).
    + cbn [List.filter app]. unfold is_duplicate, FS.is_dir, module_dir.
      rewrite path_name_joinpath. fold module_dir. rewrite Hmd.
      assert (Hprefix : String.prefix (OFFICIAL_MODULE_NAME +:+ "_") (new_module_name hex)
                        = true)
        by apply (prefix_append (OFFICIAL_MODULE_NAME +:+ "_")).
      now rewrite Hprefix.
    + rewrite <- Hnone, <- Hdup. unfold duplicates. apply filter_ext_in. intros q Hq.
      apply listing_In in Hq as [Hchild Hq]. unfold is_duplicate, FS.is_dir.
      rewrite Houtside; [reflexivity |].
      apply strip_prefix_beside.
      * apply is_child_length in Hchild. unfold module_dir, joinpath.
        rewrite length_app. cbn. lia.
      * intros ->. apply Hq. rewrite <- (app_nil_r module_dir).
        destruct (Hdeep []) as [Hd1 Hd2]. rewrite Hsame; [apply Hempty | exact Hd1 | exact Hd2].
  - congruence.
  - congruence.
  - congruence.
  - congruence.
  - congruence.
Qed.

(** X16. On an install without a duplicate, the construction returns a
    client when: the terminal path exists and its directory can be written;
    the probe's name is not taken by a directory; the name [py2mql5] is free
    or a directory that can be written; [find_spec] gives an origin whose
    directory exists, has a file [__init__.py] that the [utf-8] codec
    decodes, and does not contain the place of the new duplicate; nothing
    is at that place; the module is not registered; the import is answered,
    and [initialize] is answered with a true value.  The duplicate is named
    after the second UUID drawn, the client holds the module imported under
    that name, which is registered under it, and the requests made are that
    import and [initialize], in this order.  (Files are taken to be
    readable and writable: this filesystem has permissions on directories
    only.) *)
Theorem fresh_construction_succeeds (st : State) (origin : path) (content : string)
    (imported answer : Py.value) :
  let hex := uuid4_hex E (S (uuid_draws st)) in
  let probe := Client.test_file terminal_path (uuid4_hex E (uuid_draws st)) in
  let base := isolation_dir terminal_path in
  let name := new_module_name hex in
  let module_dir := joinpath base name in
  let src := parent origin in
  let m := mkModule name (length (trace st)) in
  let req := initialize_request E m terminal_path account_number password server timeout in
  FS.exists_ (fs st) terminal_path = true ->
  FS.dir_access (fs st) (parent terminal_path) = OK tt ->
  FS.is_dir (fs st) probe = false ->
  (FS.lookup (fs st) base = None \/ FS.lookup (fs st) base = Some (Dir true)) ->
  duplicates (fs st) base = [] ->
  find_spec E OFFICIAL_MODULE_NAME = Some (mkSpec (Some origin)) ->
  FS.is_dir (fs st) src = true ->
  FS.lookup (fs st) (joinpath src "__init__.py") = Some (File content) ->
  utf8_valid content = true ->
  strip_prefix src module_dir = None ->
  (forall r, FS.lookup (fs st) (module_dir ++ r) = None) ->
  sys_modules st !! name = None ->
  vendor E (trace st) (ReqImport name) = inl imported ->
  vendor E (trace st ++ [ReqImport name]) req = inl answer ->
  Py.truthy answer = true ->
  exists st1,
    Client.init E terminal_path account_number password server timeout st
    = (OK (Client.make terminal_path m timeout true account_number server base module_dir
             name (Some (new_module_id hex))),
       st1)
    /\ trace st1 = trace st ++ [ReqImport name; req]
    /\ sys_path st1 = sys_path st ++ [Client.path_str E base]
    /\ sys_modules st1 !! name = Some m
    /\ stdout st1 = stdout st ++ [initialized_message]
    /\ FS.is_dir (fs st1) module_dir = true.
Proof.
  cbv zeta. intros Hexists Hacc Hfree Hbase Hnone Hspec Hsrc Hinit Hvalid Hout Hempty Hreg
    Himp Hans Htrue.
  destruct (fresh_isolation_run st origin Hacc Hfree Hbase Hnone Hspec Hsrc Hout Hempty)
    as (sc & Hiso & _ & _ & Hmd & _ & _ & _ & _ & Hp & Hm & Ht & Ho & _).
  unfold entry_at in Hiso. rewrite Hinit, Hvalid in Hiso.
  rewrite import_fresh in Hiso by (state_simpl; now rewrite Hm).
  state_simpl. rewrite Ht, Himp in Hiso.
  rewrite (init_run _ _ _ _ _ _ _ Hexists), Hiso. cbv zeta.
  cbn [Client.iso_official]. state_simpl. rewrite Hans, Htrue.
  eexists. split; [reflexivity |]. state_simpl.
  rewrite Ho, <- app_assoc. unfold FS.is_dir. rewrite Hmd.
  repeat split. apply lookup_insert_eq.
Qed.

(** X17. Under the same conditions on the filesystem, the import is
    requested with the duplicate in place as a copy of the vendor package:
    at each relative path below the new directory there is what the package
    has there (a directory where it has a directory, a file with the same
    content where it has a file, nothing where it has nothing), except for
    [__init__.py], which has been read as text and written back behind the
    header.  That file starts with the three directives and an empty line,
    their line ends written as the platform writes them; where a line ends
    with a line feed and the file had no carriage return, it is the header
    followed by the content the package has.  The package itself is
    untouched, and so is every path outside the new directory other than
    the probe's name and the isolation directory.  What the import then
    writes is no part of the statement. *)
Theorem duplicate_is_copy (st : State) (origin : path) (content : string) :
  let hex := uuid4_hex E (S (uuid_draws st)) in
  let probe := Client.test_file terminal_path (uuid4_hex E (uuid_draws st)) in
  let base := isolation_dir terminal_path in
  let name := new_module_name hex in
  let module_dir := joinpath base name in
  let src := parent origin in
  let written := FS.rewritten (line_sep E) ignore_header content in
  FS.dir_access (fs st) (parent terminal_path) = OK tt ->
  FS.is_dir (fs st) probe = false ->
  (FS.lookup (fs st) base = None \/ FS.lookup (fs st) base = Some (Dir true)) ->
  duplicates (fs st) base = [] ->
  find_spec E OFFICIAL_MODULE_NAME = Some (mkSpec (Some origin)) ->
  FS.is_dir (fs st) src = true ->
  FS.lookup (fs st) (joinpath src "__init__.py") = Some (File content) ->
  utf8_valid content = true ->
  strip_prefix src module_dir = None ->
  (forall r, FS.lookup (fs st) (module_dir ++ r) = None) ->
  exists sc,
    Client.copy_and_import_official_module E terminal_path st
    = (let (rm, sd) := Client.import_ E name
                         (set_sys_path (sys_path st ++ [Client.path_str E base]) sc) in
       (match rm with
        | OK m => OK (Client.mkIsolation base module_dir name (Some (new_module_id hex)) m)
        | Raise e => Raise e
        end, sd))
    /\ FS.is_dir (fs sc) module_dir = true
    /\ (forall c rest, entry_at (fs sc) (module_dir ++ c :: rest)
                       = duplicated (line_sep E) (c :: rest)
                           (entry_at (fs st) (src ++ c :: rest)))
    /\ entry_at (fs sc) (joinpath module_dir "__init__.py") = Regular written
    /\ String.prefix (write_newlines (line_sep E) ignore_header) written = true
    /\ (line_sep E = newline -> free_of CR content = true ->
        written = ignore_header +:+ content)
    /\ (forall r, FS.lookup (fs sc) (src ++ r) = FS.lookup (fs st) (src ++ r))
    /\ (forall q, q <> probe -> q <> base -> strip_prefix module_dir q = None ->
                  FS.lookup (fs sc) q = FS.lookup (fs st) q).
Proof.
  cbv zeta. intros Hacc Hfree Hbase Hnone Hspec Hsrc Hinit Hvalid Hout Hempty.
  destruct (fresh_isolation_run st origin Hacc Hfree Hbase Hnone Hspec Hsrc Hout Hempty)
    as (sc & Hiso & _ & _ & Hmd & Hinside & Houtside & Hsource & _).
  unfold entry_at in Hiso at 1. rewrite Hinit, Hvalid in Hiso.
  exists sc. split; [exact Hiso |].
  split; [unfold FS.is_dir; now rewrite Hmd |].
  split; [exact Hinside |].
  split.
  { unfold joinpath. rewrite Hinside. unfold entry_at.
    fold (joinpath (parent origin) "__init__.py").
    rewrite Hinit. unfold duplicated. now rewrite path_eqb_refl, Hvalid. }
  split; [apply rewritten_header |].
  split; [| split; [exact Hsource | exact Houtside]].
  intros -> Hplain. now apply rewritten_plain.
Qed.

(** X18. Under the same conditions, except that the directory of the
    origin has no [__init__.py] (a single-file module, or a package whose
    [__init__] is compiled), the construction raises [FileNotFoundError]
    from [__add_ignore_comments__], after the copy: the directory has been
    copied as it is, and the isolation directory holds it as its only
    duplicate, which is what the scan of a later construction finds.
    [sys.path], [sys.modules], the requests and the output are as before. *)
Theorem header_failure_leaves_duplicate (st : State) (origin : path) :
  let hex := uuid4_hex E (S (uuid_draws st)) in
  let probe := Client.test_file terminal_path (uuid4_hex E (uuid_draws st)) in
  let base := isolation_dir terminal_path in
  let module_dir := joinpath base (new_module_name hex) in
  let src := parent origin in
  FS.exists_ (fs st) terminal_path = true ->
  FS.dir_access (fs st) (parent terminal_path) = OK tt ->
  FS.is_dir (fs st) probe = false ->
  (FS.lookup (fs st) base = None \/ FS.lookup (fs st) base = Some (Dir true)) ->
  duplicates (fs st) base = [] ->
  find_spec E OFFICIAL_MODULE_NAME = Some (mkSpec (Some origin)) ->
  FS.is_dir (fs st) src = true ->
  FS.lookup (fs st) (joinpath src "__init__.py") = None ->
  strip_prefix src module_dir = None ->
  (forall r, FS.lookup (fs st) (module_dir ++ r) = None) ->
  exists st1,
    Client.init E terminal_path account_number password server timeout st
    = (Raise (OSError "FileNotFoundError"), st1)
    /\ FS.is_dir (fs st1) base = true
    /\ duplicates (fs st1) base = [module_dir]
    /\ (forall c rest, entry_at (fs st1) (module_dir ++ c :: rest)
                       = entry_at (fs st) (src ++ c :: rest))
    /\ sys_path st1 = sys_path st /\ sys_modules st1 = sys_modules st
    /\ trace st1 = trace st /\ stdout st1 = stdout st.
Proof.
  cbv zeta. intros Hexists Hacc Hfree Hbase Hnone Hspec Hsrc Hinit Hout Hempty.
  destruct (fresh_isolation_run st origin Hacc Hfree Hbase Hnone Hspec Hsrc Hout Hempty)
    as (sc & Hiso & _ & Hbase_c & _ & Hinside & _ & _ & Hdup & Hp & Hm & Ht & Ho & _).
  unfold entry_at in Hiso at 1. rewrite Hinit in Hiso.
  rewrite (init_run _ _ _ _ _ _ _ Hexists), Hiso.
  exists sc. split; [reflexivity |]. unfold FS.is_dir. rewrite Hbase_c.
  repeat split; try assumption.
  intros c rest. rewrite Hinside. unfold duplicated, entry_at.
  destruct (FS.lookup (fs st) (parent origin ++ c :: rest)) as [[content | w] |] eqn:Hentry;
    try reflexivity.
  destruct (path_eqb (c :: rest) ["__init__.py"]) eqn:Hrel; [| reflexivity].
  apply path_eqb_true in Hrel. rewrite Hrel in Hentry.
  fold (joinpath (parent origin) "__init__.py") in Hentry. congruence.
Qed.

End FreshInstall.

Lemma fresh_construction_succeeds_witness :
  exists st1,
    Demo.connect true Demo.boot = (OK Demo.client, st1)
    /\ trace st1
       = [ReqImport "MetaTrader5_fedcba98_7654_3210_fedc_ba9876543210";
          ReqInitialize (Client.official Demo.client) "mt5/terminal64.exe" 5012345 "secret"
            "Broker-Demo" default_timeout true].
Proof.
  destruct (fresh_construction_succeeds (Demo.env true true) Demo.terminal 5012345 "secret"
              "Broker-Demo" default_timeout Demo.boot
              ["site-packages"; "MetaTrader5"; "__init__.py"] "from ._core import *"
              Py.None_ (Py.Bool true)
              eq_refl eq_refl eq_refl (or_introl eq_refl) eq_refl eq_refl eq_refl eq_refl
              eq_refl eq_refl (fun r => eq_refl) eq_refl eq_refl eq_refl eq_refl)
    as (st1 & Hrun & Htrace & _).
  exists st1. split; [exact Hrun | exact Htrace].
Defined.

Lemma duplicate_is_copy_witness :
  exists sc,
    Client.copy_and_import_official_module (Demo.env true true) Demo.terminal Demo.boot
    = (let (rm, sd) := Client.import_ (Demo.env true true) (Client.module_name Demo.client)
                         (set_sys_path ["site-packages"; "mt5/py2mql5"] sc) in
       (match rm with
        | OK m => OK (Client.mkIsolation (Client.base_module_dir Demo.client)
                        (Client.module_dir Demo.client) (Client.module_name Demo.client)
                        (Client.module_id Demo.client) m)
        | Raise e => Raise e
        end, sd))
    /\ entry_at (fs sc) (Client.module_dir Demo.client ++ ["__init__.py"])
       = Regular (ignore_header +:+ "from ._core import *")
    /\ entry_at (fs sc) (Client.module_dir Demo.client ++ ["_core.pyd"]) = Regular "MZ".
Proof.
  destruct (duplicate_is_copy (Demo.env true true) Demo.terminal Demo.boot
              ["site-packages"; "MetaTrader5"; "__init__.py"] "from ._core import *"
              eq_refl eq_refl (or_introl eq_refl) eq_refl eq_refl eq_refl eq_refl eq_refl
              eq_refl (fun r => eq_refl))
    as (sc & Hrun & _ & Hinside & Hinit & _ & Hplain & _).
  exists sc. split; [exact Hrun |]. split.
  - rewrite <- (Hplain eq_refl eq_refl). exact Hinit.
  - exact (Hinside "_core.pyd" []).
Defined.

Lemma header_failure_leaves_duplicate_witness :
  fst (Client.init Cases.env_single_file Demo.terminal 5012345 "secret" "Broker-Demo"
         default_timeout
         (Cases.boot_with [(["site-packages"; "MetaTrader5.py"], File "import ctypes")]))
  = Raise (OSError "FileNotFoundError").
Proof.
  destruct (header_failure_leaves_duplicate Cases.env_single_file Demo.terminal 5012345
              "secret" "Broker-Demo" default_timeout
              (Cases.boot_with [(["site-packages"; "MetaTrader5.py"], File "import ctypes")])
              ["site-packages"; "MetaTrader5.py"]
              eq_refl eq_refl eq_refl (or_introl eq_refl) eq_refl eq_refl eq_refl eq_refl
              eq_refl (fun r => eq_refl))
    as (st1 & Hrun & _).
  now rewrite Hrun.
Defined.

(** ** Construction on an install that has a duplicate, and failing imports *)

Section Reusing.

Variable E : Env.

Variables (terminal_path : path) (account_number : Z) (password server : string)
  (timeout : Z).

(** X19. A construction on an install that has a duplicate copies
    nothing and writes no header again.  Either the probe fails, and the
    filesystem is as it was; or the import of the first duplicate of the
    scan is requested, in a state in which every path other than the
    probe's name has the entry, with the content, that it had, nothing has
    the probe's name, the duplicates are the same, and one UUID has been
    drawn, the probe's.  What the import then writes is no part of the
    statement. *)
Theorem reuse_keeps_contents (d : path) (rest : list path) (st : State) :
  let base := isolation_dir terminal_path in
  let probe := Client.test_file terminal_path (uuid4_hex E (uuid_draws st)) in
  let run := Client.copy_and_import_official_module E terminal_path st in
  FS.is_dir (fs st) base = true ->
  duplicates (fs st) base = d :: rest ->
  (fst run = Raise (not_writable E terminal_path) /\ fs (snd run) = fs st)
  \/ exists sb,
       run = (let (rm, sd) := Client.import_ E (path_name d) sb in
              (match rm with
               | OK m => OK (Client.mkIsolation base d (path_name d) None m)
               | Raise e => Raise e
               end, sd))
       /\ (forall q, q <> probe -> FS.lookup (fs sb) q = FS.lookup (fs st) q)
       /\ FS.lookup (fs sb) probe = None
       /\ duplicates (fs sb) base = d :: rest
       /\ sys_path sb = sys_path st ++ [Client.path_str E base]
       /\ uuid_draws sb = S (uuid_draws st).
Proof.
  cbv zeta. intros Hbase Hdup.
  set (base := isolation_dir terminal_path) in *.
  set (probe := Client.test_file terminal_path (uuid4_hex E (uuid_draws st))).
  destruct (FS.is_dir (fs st) probe && is_ok (FS.dir_access (fs st) (parent terminal_path))
            || negb (is_ok (FS.dir_access (fs st) (parent terminal_path)))) eqn:Hrefused.
  { left.
    assert (Hcheck : Client.check_write_permissions E terminal_path st
                     = (Raise (not_writable E terminal_path),
                        set_uuid_draws (S (uuid_draws st)) st)).
    { rewrite check_write_permissions_run. cbv zeta. fold probe.
      unfold FS.is_dir in Hrefused.
      destruct (FS.lookup (fs st) probe) as [[c | w] |];
        destruct (FS.dir_access (fs st) (parent terminal_path)) as [[] | e];
        (reflexivity || discriminate Hrefused). }
    unfold Client.copy_and_import_official_module.
    rewrite (bind_Raise _ _ _ _ _ Hcheck). now split. }
  apply orb_false_iff in Hrefused as [Hfree Hacc].
  apply negb_false_iff in Hacc.
  destruct (FS.dir_access (fs st) (parent terminal_path)) as [[] | e] eqn:Haccess;
    [| discriminate Hacc].
  rewrite andb_true_r in Hfree. clear Hacc. rename Haccess into Hacc.
  right.
  destruct (scan_state E terminal_path st Hacc Hfree)
    as (sb & Hrun & Hdir & Hdup_b & Hprobe & Hsame & _ & Hold & Hp & _ & _ & _ & Hu).
  { intros c Hc. fold base in Hc. unfold FS.is_dir in Hbase. now rewrite Hc in Hbase. }
  fold base probe in Hrun, Hdir, Hdup_b, Hprobe, Hsame, Hold.
  exists (set_sys_path (sys_path st ++ [Client.path_str E base]) sb).
  split; [| state_simpl; repeat split].
  - apply bind_inv in Hrun as [([] & sa & Hcheck & Hmk) | (e & _ & Habs)]; [| discriminate].
    unfold Client.copy_and_import_official_module. fold (isolation_dir terminal_path). fold base.
    rewrite (bind_OK _ _ _ _ _ Hcheck), (bind_OK _ _ _ _ _ Hmk).
    rewrite (bind_OK _ _ _ _ _ (existing_modules_run _ _ Hdir)).
    rewrite Hdup_b, Hdup. unfold bind, modify, ret. rewrite Hp.
    match goal with
    | |- context [Client.import_ E ?n ?s] => destruct (Client.import_ E n s) as [[m | e] sd]
    end; reflexivity.
  - intros q Hq. destruct (path_eqb q base) eqn:Hqb.
    + apply path_eqb_true in Hqb. subst q. apply Hold. unfold FS.is_dir in Hbase.
      intros Hnone. now rewrite Hnone in Hbase.
    + apply path_eqb_false in Hqb. now apply Hsame.
  - exact Hprobe.
  - now rewrite Hdup_b.
  - exact Hu.
Qed.

(** X20. When the import machinery refuses every import with [f] and no
    module named [MetaTrader5_...] is registered, no construction returns a
    client, whatever the filesystem.  In the state in which the
    construction raises: either it raised before the import, and
    [sys.path], [sys.modules] and the requests are as they were; or its
    only request was the import of a module named [MetaTrader5_...], the
    exception is the import's own (not [InitializeError]), the isolation
    directory is the last entry of [sys.path] and the module is not
    registered.  [initialize] has not been requested and nothing has been
    printed.  (What the finaliser of the half-built object does when the
    exception is released comes after this state.) *)
Theorem import_failure_propagates (st : State) (f : fault) :
  let base := isolation_dir terminal_path in
  let r := fst (Client.init E terminal_path account_number password server timeout st) in
  let st1 := snd (Client.init E terminal_path account_number password server timeout st) in
  (forall name, vendor E (trace st) (ReqImport name) = inr f) ->
  (forall name, String.prefix (OFFICIAL_MODULE_NAME +:+ "_") name = true ->
                sys_modules st !! name = None) ->
  is_ok r = false
  /\ stdout st1 = stdout st
  /\ (trace st1 = trace st /\ sys_path st1 = sys_path st /\ sys_modules st1 = sys_modules st
      \/ exists name,
           String.prefix (OFFICIAL_MODULE_NAME +:+ "_") name = true
           /\ r = Raise (VendorError f)
           /\ trace st1 = trace st ++ [ReqImport name]
           /\ sys_path st1 = sys_path st ++ [Client.path_str E base]
           /\ sys_modules st1 !! name = None).
Proof.
  cbv zeta. intros Himp Hfresh.
  destruct (FS.exists_ (fs st) terminal_path) eqn:Hexists.
  2:{ rewrite (init_missing E _ _ _ _ _ _ Hexists). cbn [fst snd]. repeat split. now left. }
  rewrite (init_run _ _ _ _ _ _ _ Hexists).
  destruct (Client.copy_and_import_official_module E terminal_path st) as [r0 s0] eqn:Hiso.
  apply copy_and_import_steps in Hiso
    as [(e & -> & Hp & Hm & Ht & Ho)
       | (module_dir & module_id & rest & sb & rm & Hp & Hm & Ht & Ho & Hdup & _
          & Himport & ->)].
  - cbn [fst snd]. repeat split; try assumption. now left.
  - assert (Hin : In module_dir (duplicates (fs sb) (isolation_dir terminal_path)))
      by (rewrite Hdup; now left).
    apply filter_In in Hin as [_ Hin]. apply andb_true_iff in Hin as [_ Hprefix].
    rewrite import_fresh in Himport by (rewrite Hm; now apply Hfresh).
    rewrite Ht, Himp in Himport. injection Himport as <- <-.
    cbn [fst snd]. state_simpl. repeat split; try assumption.
    right. exists (path_name module_dir). rewrite Hm. repeat split; try assumption.
    now apply Hfresh.
Qed.

End Reusing.

Lemma reuse_keeps_contents_witness :
  exists sb,
    Client.copy_and_import_official_module (Demo.env true true) Demo.terminal Demo.connected
    = (let (rm, sd) := Client.import_ (Demo.env true true) (Client.module_name Demo.client)
                         sb in
       (match rm with
        | OK m => OK (Client.mkIsolation (Client.base_module_dir Demo.client)
                        (Client.module_dir Demo.client) (Client.module_name Demo.client)
                        None m)
        | Raise e => Raise e
        end, sd))
    /\ FS.lookup (fs sb) (Client.module_dir Demo.client ++ ["__init__.py"])
       = Some (File (ignore_header +:+ "from ._core import *")).
Proof.
  destruct (reuse_keeps_contents (Demo.env true true) Demo.terminal
              (Client.module_dir Demo.client) [] Demo.connected eq_refl eq_refl)
    as [[Hraise _] | (sb & Hrun & Hsame & _)].
  - vm_compute in Hraise. discriminate Hraise.
  - exists sb. split; [exact Hrun |]. rewrite Hsame.
    + vm_compute. reflexivity.
    + discriminate.
Defined.

Lemma import_failure_propagates_witness :
  fst (Client.init Cases.env_import_fails Demo.terminal 5012345 "secret" "Broker-Demo"
         default_timeout Demo.boot)
  = Raise (VendorError (Fault "ImportError" "DLL load failed"))
  /\ sys_path (snd (Client.init Cases.env_import_fails Demo.terminal 5012345 "secret"
                      "Broker-Demo" default_timeout Demo.boot))
     = ["site-packages"; "mt5/py2mql5"].
Proof.
  destruct (import_failure_propagates Cases.env_import_fails Demo.terminal 5012345 "secret"
              "Broker-Demo" default_timeout Demo.boot (Fault "ImportError" "DLL load failed")
              (fun name => eq_refl) (fun name _ => eq_refl))
    as (_ & _ & [(Htrace & _) | (name & _ & Hrun & _ & Hpath & _)]).
  - vm_compute in Htrace. discriminate Htrace.
  - split; [exact Hrun | exact Hpath].
Defined.

(** ** What a refused [login] or [initialize] raises *)

Section FailureReports.

Variable E : Env.

Lemma last_error_run (m : pymodule) (st : State) :
  Client.last_error E m st
  = (match vendor E (trace st) (ReqLastError m) with
     | inl v =>
         code <~ getitem v 0 ;; description <~ getitem v 1 ;;
         OK (mkMT5LastError code description)
     | inr f => Raise (VendorError f)
     end,
     set_trace (trace st ++ [ReqLastError m]) st).
Proof.
  unfold Client.last_error, Client.call, Client.ask, bind, lift, ret, raise.
  destruct (vendor E (trace st) (ReqLastError m)) as [v | f]; [| reflexivity].
  destruct (getitem v 0); [| reflexivity]. now destruct (getitem v 1).
Qed.

Lemma last_error_outcomes (m : pymodule) (st : State) :
  let fetched := fst (Client.last_error E m st) in
  (forall items, vendor E (trace st) (ReqLastError m) = inl (Py.Tuple items) ->
                 fetched = first_two items)
  /\ (vendor E (trace st) (ReqLastError m) = inl Py.None_ ->
      fetched = Raise (TypeError "object is not subscriptable"))
  /\ (forall f, vendor E (trace st) (ReqLastError m) = inr f ->
                fetched = Raise (VendorError f)).
Proof.
  cbv zeta. rewrite last_error_run. cbn [fst]. repeat split.
  - intros items ->. now destruct items as [| a [| b rest]].
  - now intros ->.
  - now intros f ->.
Qed.

(** A [login] that the vendor module refuses, to the end. *)
Lemma login_refused (self : Client.t) (account_number : Z) (password server : string)
    (timeout : Z) (st : State) (answer : Py.value) :
  let m := Client.official self in
  let req := ReqLogin m account_number password server timeout in
  vendor E (trace st) req = inl answer ->
  Py.truthy answer = false ->
  Client.login E self account_number password server timeout st
  = (Raise (failure_report (fun e => LoginError [ArgLastError e])
              (fst (Client.last_error E m (set_trace (trace st ++ [req]) st)))),
     set_trace (trace st ++ [req; ReqLastError m]) st).
Proof.
  cbv zeta. intros Hans Hfalse. unfold Client.login.
  rewrite (bind_OK _ _ _ _ _ (call_value E _ _ _ Hans)), Hfalse. cbn [negb].
  unfold bind, raise. rewrite last_error_run. cbn [fst].
  state_simpl. rewrite <- app_assoc.
  now destruct (match vendor E _ _ with inl _ => _ | inr _ => _ end).
Qed.

(** X21. When the vendor module refuses a [login], what the caller sees
    depends on [last_error()]: [LoginError] with the first two elements
    when the vendor module answers a tuple of at least two, [IndexError]
    when the tuple is shorter, [TypeError] when it answers [None], and the
    vendor module's own exception when [last_error] raises.  In every case
    [login] raises, having made these two requests and nothing else. *)
Theorem login_failure_report (self : Client.t) (account_number : Z)
    (password server : string) (timeout : Z) (st : State) (answer : Py.value) :
  let m := Client.official self in
  let req := ReqLogin m account_number password server timeout in
  let st1 := set_trace (trace st ++ [req]) st in
  let run := Client.login E self account_number password server timeout st in
  vendor E (trace st) req = inl answer ->
  Py.truthy answer = false ->
  (forall items,
     vendor E (trace st1) (ReqLastError m) = inl (Py.Tuple items) ->
     fst run = Raise (failure_report (fun e => LoginError [ArgLastError e]) (first_two items)))
  /\ (vendor E (trace st1) (ReqLastError m) = inl Py.None_ ->
      fst run = Raise (TypeError "object is not subscriptable"))
  /\ (forall f, vendor E (trace st1) (ReqLastError m) = inr f ->
                fst run = Raise (VendorError f))
  /\ is_ok (fst run) = false
  /\ snd run = set_trace (trace st ++ [req; ReqLastError m]) st.
Proof.
  cbv zeta. intros Hans Hfalse. rewrite (login_refused _ _ _ _ _ _ _ Hans Hfalse).
  cbn [fst snd is_ok].
  destruct (last_error_outcomes (Client.official self)
              (set_trace (trace st ++ [ReqLogin (Client.official self) account_number
                                         password server timeout]) st))
    as (Htuple & Hnone & Hfault).
  repeat split.
  - intros items Hitems. now rewrite (Htuple items Hitems).
  - intros Hv. now rewrite (Hnone Hv).
  - intros f Hf. now rewrite (Hfault f Hf).
Qed.

Variables (terminal_path : path) (account_number : Z) (password server : string)
  (timeout : Z).

(** A construction whose [initialize] the vendor module refuses, to the
    end. *)
Lemma init_refused (st s0 : State) (iso : Client.isolation) (answer : Py.value) :
  let m := Client.iso_official iso in
  let req := initialize_request E m terminal_path account_number password server timeout in
  FS.exists_ (fs st) terminal_path = true ->
  Client.copy_and_import_official_module E terminal_path st = (OK iso, s0) ->
  vendor E (trace s0) req = inl answer ->
  Py.truthy answer = false ->
  Client.init E terminal_path account_number password server timeout st
  = (Raise (failure_report initialize_failed
              (fst (Client.last_error E m (set_trace (trace s0 ++ [req]) s0)))),
     set_trace (trace s0 ++ [req; ReqLastError m]) s0).
Proof.
  cbv zeta. intros Hexists Hiso Hans Hfalse.
  rewrite (init_run _ _ _ _ _ _ _ Hexists), Hiso. cbv zeta. rewrite Hans, Hfalse.
  rewrite last_error_run. cbn [fst]. state_simpl. rewrite <- app_assoc.
  now destruct (match vendor E _ _ with inl _ => _ | inr _ => _ end).
Qed.

(** X22. The same for a construction whose [initialize] is refused:
    [InitializeError] with the first two elements of the vendor module's
    [last_error()] when that is a tuple of at least two, [IndexError] when
    the tuple is shorter, [TypeError] when it is [None], the vendor
    module's own exception when [last_error] raises; the construction
    raises in every case, and what it leaves is the state after the
    isolation with these two requests added. *)
Theorem initialize_failure_report (st s0 : State) (iso : Client.isolation)
    (answer : Py.value) :
  let m := Client.iso_official iso in
  let req := initialize_request E m terminal_path account_number password server timeout in
  let s1 := set_trace (trace s0 ++ [req]) s0 in
  let run := Client.init E terminal_path account_number password server timeout st in
  FS.exists_ (fs st) terminal_path = true ->
  Client.copy_and_import_official_module E terminal_path st = (OK iso, s0) ->
  vendor E (trace s0) req = inl answer ->
  Py.truthy answer = false ->
  (forall items,
     vendor E (trace s1) (ReqLastError m) = inl (Py.Tuple items) ->
     fst run = Raise (failure_report initialize_failed (first_two items)))
  /\ (vendor E (trace s1) (ReqLastError m) = inl Py.None_ ->
      fst run = Raise (TypeError "object is not subscriptable"))
  /\ (forall f, vendor E (trace s1) (ReqLastError m) = inr f ->
                fst run = Raise (VendorError f))
  /\ is_ok (fst run) = false
  /\ snd run = set_trace (trace s0 ++ [req; ReqLastError m]) s0.
Proof.
  cbv zeta. intros Hexists Hiso Hans Hfalse.
  rewrite (init_refused _ _ _ _ Hexists Hiso Hans Hfalse). cbn [fst snd is_ok].
  destruct (last_error_outcomes (Client.iso_official iso)
              (set_trace (trace s0 ++ [initialize_request E (Client.iso_official iso)
                                         terminal_path account_number password server
                                         timeout]) s0))
    as (Htuple & Hnone & Hfault).
  repeat split.
  - intros items Hitems. now rewrite (Htuple items Hitems).
  - intros Hv. now rewrite (Hnone Hv).
  - intros f Hf. now rewrite (Hfault f Hf).
Qed.

End FailureReports.

Lemma login_failure_report_witness :
  fst (Client.login (Cases.env_refusing (Py.Tuple [Py.Int (-6)])) Demo.client 5012345 "wrong"
         "Broker-Demo" default_timeout Demo.connected)
  = Raise (IndexError "tuple index out of range").
Proof.
  apply (proj1 (login_failure_report (Cases.env_refusing (Py.Tuple [Py.Int (-6)]))
                  Demo.client 5012345 "wrong" "Broker-Demo" default_timeout Demo.connected
                  (Py.Bool false) eq_refl eq_refl)
           [Py.Int (-6)] eq_refl).
Defined.

Lemma refusing_isolates (v : Py.value) :
  Client.copy_and_import_official_module (Cases.env_refusing v) Demo.terminal Demo.boot
  = (OK Demo.isolation, Demo.isolated).
Proof. vm_compute. reflexivity. Qed.

Lemma initialize_failure_report_witness :
  fst (Client.init (Cases.env_refusing Py.None_) Demo.terminal 5012345 "secret" "Broker-Demo"
         default_timeout Demo.boot)
  = Raise (TypeError "object is not subscriptable").
Proof.
  apply (proj1 (proj2 (initialize_failure_report (Cases.env_refusing Py.None_) Demo.terminal
                         5012345 "secret" "Broker-Demo" default_timeout Demo.boot
                         Demo.isolated Demo.isolation (Py.Bool false)
                         eq_refl (refusing_isolates Py.None_) eq_refl eq_refl))
           eq_refl).
Defined.

(** ** The names of duplicates *)

Section ModuleNames.

Lemma hex_digit_plain (c : ascii) :
  is_hex_digit c = true -> Ascii.eqb c "-" = false.
Proof.
  destruct c as [[] [] [] [] [] [] [] []]; vm_compute; congruence.
Qed.

(** Take a string of known length apart into its characters. *)
Ltac characters s Hlen Hall :=
  repeat (destruct s as [| ? s]; [discriminate Hlen |];
          cbn [String.length] in Hlen; apply Nat.succ_inj in Hlen;
          cbn [list_ascii_of_string forallb] in Hall;
          apply andb_true_iff in Hall as [?%hex_digit_plain Hall]);
  destruct s; [clear Hlen Hall | discriminate Hlen].

Ltac plain_digits :=
  repeat match goal with
         | H : Ascii.eqb ?c "-" = false |- _ => rewrite !H; clear H
         end.

Lemma uuid_hex_inv (s : string) :
  is_uuid_hex s = true ->
  String.length s = 32 /\ forallb is_hex_digit (list_ascii_of_string s) = true.
Proof.
  unfold is_uuid_hex. intros H. apply andb_true_iff in H as [Hlen Hall].
  apply Nat.eqb_eq in Hlen. now split.
Qed.

(** X23. The name of a new duplicate determines the UUID drawn for it:
    for UUIDs given as 32 hexadecimal digits, equal module names come from
    equal UUIDs, so two draws that differ give two module names.  The name
    starts with [MetaTrader5_], which is what the scan looks for, it has no
    hyphen, and the identifier has 36 characters. *)
Theorem module_names_distinct (hex hex' : string) :
  is_uuid_hex hex = true ->
  is_uuid_hex hex' = true ->
  (new_module_name hex = new_module_name hex' -> hex = hex')
  /\ String.prefix (OFFICIAL_MODULE_NAME +:+ "_") (new_module_name hex) = true
  /\ hyphen_free (new_module_name hex) = true
  /\ String.length (new_module_id hex) = 36.
Proof.
  intros [Hlen Hall]%uuid_hex_inv [Hlen' Hall']%uuid_hex_inv.
  split; [| split; [apply (prefix_append (OFFICIAL_MODULE_NAME +:+ "_")) |]].
  - characters hex Hlen Hall. characters hex' Hlen' Hall'.
    cbv [new_module_name new_module_id uuid_str substring String.append replace_char
         OFFICIAL_MODULE_NAME].
    plain_digits. intros H. injection H as -> -> -> -> -> -> -> -> -> -> -> -> -> -> -> ->
                              -> -> -> -> -> -> -> -> -> -> -> -> -> -> -> ->.
    reflexivity.
  - characters hex Hlen Hall. clear Hlen' Hall'.
    cbv [new_module_name new_module_id uuid_str substring String.append replace_char
         OFFICIAL_MODULE_NAME hyphen_free list_ascii_of_string forallb].
    plain_digits. split; reflexivity.
Qed.

End ModuleNames.

Lemma module_names_distinct_witness :
  new_module_name (Demo.uuids 1) <> new_module_name (Demo.uuids 2)
  /\ hyphen_free (new_module_name (Demo.uuids 1)) = true.
Proof.
  destruct (module_names_distinct (Demo.uuids 1) (Demo.uuids 2) eq_refl eq_refl)
    as (Hinj & _ & Hfree & _).
  split; [| exact Hfree].
  intros Heq. apply Hinj in Heq. discriminate Heq.
Defined.
